(** * Waste-report backend: submission pipeline and classification cache

  A shallow embedding of
  - [src/services/classificationService.js] ([classifyImage], its
    module-level [imageCache] and the expiry timers),
  - [src/routes/reportRoutes.js] (the [POST /], [POST /test-classify]
    and [DELETE /:id] handlers),
  - [src/models/Report.js] ([reportSchema]), and
  - [src/routes/supervisorRoutes.js] (the listings),
  followed by the properties of the pipeline that are proved about it.

  JavaScript numbers are IEEE-754 binary64 values ([spec_float]); a
  string is the sequence of bytes of its UTF-8 encoding (for a base64
  payload that is the text itself, and it is what [createHash] digests),
  so that a character beyond ASCII is two to four bytes; the [Map] cache
  is a [gmap]; the values of a request body are those that JSON can
  carry, so that no function is among them; and every [await] on a
  collaborator (the detector, the object store, the document store) is
  an explicit outcome supplied by the environment. *)

From Stdlib Require Import ZArith Lia Bool List Ascii String.
From Stdlib Require Import Floats.SpecFloat Floats.PrimFloat Floats.FloatOps.
From stdpp Require Import base option list gmap strings pretty.

Local Open Scope string_scope.
Local Open Scope Z_scope.

(* ===================================================================== *)
(** * Part I: definitions *)
(* ===================================================================== *)

(** ** [createHash('md5')]: the digest used as cache key *)

Module MD5.

Definition mask32 : Z := 0xffffffff.
Definition w32 (x : Z) : Z := Z.land x mask32.
Definition add32 (x y : Z) : Z := w32 (x + y).
Definition not32 (x : Z) : Z := Z.lxor (w32 x) mask32.
Definition rotl32 (x n : Z) : Z :=
  Z.lor (w32 (Z.shiftl x n)) (Z.shiftr (w32 x) (32 - n)).

(** [floor(2^32 * |sin(i + 1)|)] for [i = 0 .. 63]. *)
Definition K : list Z :=
  [ 0xd76aa478; 0xe8c7b756; 0x242070db; 0xc1bdceee;
    0xf57c0faf; 0x4787c62a; 0xa8304613; 0xfd469501;
    0x698098d8; 0x8b44f7af; 0xffff5bb1; 0x895cd7be;
    0x6b901122; 0xfd987193; 0xa679438e; 0x49b40821;
    0xf61e2562; 0xc040b340; 0x265e5a51; 0xe9b6c7aa;
    0xd62f105d; 0x02441453; 0xd8a1e681; 0xe7d3fbc8;
    0x21e1cde6; 0xc33707d6; 0xf4d50d87; 0x455a14ed;
    0xa9e3e905; 0xfcefa3f8; 0x676f02d9; 0x8d2a4c8a;
    0xfffa3942; 0x8771f681; 0x6d9d6122; 0xfde5380c;
    0xa4beea44; 0x4bdecfa9; 0xf6bb4b60; 0xbebfbc70;
    0x289b7ec6; 0xeaa127fa; 0xd4ef3085; 0x04881d05;
    0xd9d4d039; 0xe6db99e5; 0x1fa27cf8; 0xc4ac5665;
    0xf4292244; 0x432aff97; 0xab9423a7; 0xfc93a039;
    0x655b59c3; 0x8f0ccc92; 0xffeff47d; 0x85845dd1;
    0x6fa87e4f; 0xfe2ce6e0; 0xa3014314; 0x4e0811a1;
    0xf7537e82; 0xbd3af235; 0x2ad7d2bb; 0xeb86d391 ].

(** Per-step left-rotation amounts. *)
Definition R : list Z :=
  [ 7; 12; 17; 22; 7; 12; 17; 22; 7; 12; 17; 22; 7; 12; 17; 22;
    5;  9; 14; 20; 5;  9; 14; 20; 5;  9; 14; 20; 5;  9; 14; 20;
    4; 11; 16; 23; 4; 11; 16; 23; 4; 11; 16; 23; 4; 11; 16; 23;
    6; 10; 15; 21; 6; 10; 15; 21; 6; 10; 15; 21; 6; 10; 15; 21 ].

Record regs := Regs { rA : Z; rB : Z; rC : Z; rD : Z }.

Definition init : regs :=
  Regs 0x67452301 0xefcdab89 0x98badcfe 0x10325476.

(** The non-linear function and message-word index of step [i]. *)
Definition mix (i : nat) (b c d : Z) : Z * nat :=
  if (i <? 16)%nat then
    (Z.lor (Z.land b c) (Z.land (not32 b) d), i)
  else if (i <? 32)%nat then
    (Z.lor (Z.land d b) (Z.land (not32 d) c), (5 * i + 1) mod 16)%nat
  else if (i <? 48)%nat then
    (Z.lxor b (Z.lxor c d), (3 * i + 5) mod 16)%nat
  else
    (Z.lxor c (Z.lor b (not32 d)), (7 * i) mod 16)%nat.

Definition step (M : list Z) (r : regs) (i : nat) : regs :=
  let '(f, g) := mix i (rB r) (rC r) (rD r) in
  let f' := add32 (add32 (add32 f (rA r)) (nth i K 0)) (nth g M 0) in
  Regs (rD r) (add32 (rB r) (rotl32 f' (nth i R 0))) (rB r) (rC r).

Definition compress (h : regs) (M : list Z) : regs :=
  let r := fold_left (step M) (seq 0 64) h in
  Regs (add32 (rA h) (rA r)) (add32 (rB h) (rB r))
       (add32 (rC h) (rC r)) (add32 (rD h) (rD r)).

(** Little-endian byte <-> word conversions. *)
Fixpoint words (bytes : list Z) : list Z :=
  match bytes with
  | b0 :: b1 :: b2 :: b3 :: rest =>
      (b0 + Z.shiftl b1 8 + Z.shiftl b2 16 + Z.shiftl b3 24) :: words rest
  | _ => []
  end.

Definition le_bytes (n : nat) (x : Z) : list Z :=
  map (fun k => Z.land (Z.shiftr x (8 * Z.of_nat k)) 0xff) (seq 0 n).

(** Padding: a [0x80] byte, zeros up to 56 mod 64, then the bit length
    as a 64-bit little-endian integer. *)
Definition pad (msg : list Z) : list Z :=
  let len := Z.of_nat (length msg) in
  let zeros := Z.to_nat ((55 - len) mod 64) in
  msg ++ [0x80] ++ repeat 0 zeros ++ le_bytes 8 (Z.land (8 * len) 0xffffffffffffffff).

Fixpoint blocks (fuel : nat) (ws : list Z) (h : regs) : regs :=
  match fuel, ws with
  | S fuel', _ :: _ => blocks fuel' (skipn 16 ws) (compress h (firstn 16 ws))
  | _, _ => h
  end.

Definition digest (msg : list Z) : list Z :=
  let ws := words (pad msg) in
  let h := blocks (length ws) ws init in
  le_bytes 4 (rA h) ++ le_bytes 4 (rB h) ++ le_bytes 4 (rC h) ++ le_bytes 4 (rD h).

Definition hex_digit (n : Z) : ascii :=
  ascii_of_nat (Z.to_nat (if n <? 10 then 48 + n else 87 + n)).

Fixpoint hex (bytes : list Z) : string :=
  match bytes with
  | [] => EmptyString
  | b :: rest =>
      String (hex_digit (Z.shiftr b 4)) (String (hex_digit (Z.land b 0xf)) (hex rest))
  end.

Fixpoint bytes_of_string (s : string) : list Z :=
  match s with
  | EmptyString => []
  | String c s' => Z.of_nat (nat_of_ascii c) :: bytes_of_string s'
  end.

(** [createHash('md5').update(s).digest('hex')]. *)
Definition md5_hex (s : string) : string := hex (digest (bytes_of_string s)).

End MD5.

(** ** JavaScript numbers and the values of a JSON body *)

Module JS.

(** A JavaScript number is a binary64 value; [S754_nan] is [NaN]. *)
Definition number : Type := spec_float.

Definition is_NaN (x : number) : bool :=
  match x with S754_nan => true | _ => false end.

(** [a >= b], [a < b], [a > b]: all false as soon as one side is [NaN]. *)
Definition ge (a b : number) : bool := SFleb b a.
Definition lt (a b : number) : bool := SFltb a b.
Definition gt (a b : number) : bool := SFltb b a.

Definition is_plus_zero (x : number) : bool :=
  match x with S754_zero false => true | _ => false end.
Definition is_minus_zero (x : number) : bool :=
  match x with S754_zero true => true | _ => false end.

(** [Math.max(...xs)]: starts from [-Infinity], returns [NaN] as soon as
    one argument is [NaN], and ranks [+0] above [-0]. *)
Fixpoint max_from (highest : number) (xs : list number) : number :=
  match xs with
  | [] => highest
  | x :: rest =>
      if is_NaN x then S754_nan
      else if is_plus_zero x && is_minus_zero highest then max_from x rest
      else if gt x highest then max_from x rest
      else max_from highest rest
  end.

Definition Math_max (xs : list number) : number :=
  max_from (S754_infinity true) xs.

(** The numeric literals of the sources, rounded to binary64 as the
    JavaScript parser rounds them. *)
#[warnings="-inexact-float"] Definition lit_0_25 : number := Eval vm_compute in Prim2SF 0.25%float.
#[warnings="-inexact-float"] Definition lit_0_65 : number := Eval vm_compute in Prim2SF 0.65%float.
#[warnings="-inexact-float"] Definition lit_0_7 : number := Eval vm_compute in Prim2SF 0.7%float.
#[warnings="-inexact-float"] Definition lit_0_85 : number := Eval vm_compute in Prim2SF 0.85%float.
Definition lit_0 : number := S754_zero false.
Definition lit_90 : number := Eval vm_compute in Prim2SF 90%float.
Definition lit_180 : number := Eval vm_compute in Prim2SF 180%float.
Definition neg (x : number) : number := SFopp x.

(** A number that is not [NaN] is ranked by a triple of integers
    compared lexicographically: the class (infinities outside, zeros in
    the middle), then exponent and mantissa, both negated for negative
    numbers. *)
Definition key (x : number) : Z * Z * Z :=
  match x with
  | S754_nan => (0, 0, 0)
  | S754_zero _ => (0, 0, 0)
  | S754_infinity true => (-2, 0, 0)
  | S754_infinity false => (2, 0, 0)
  | S754_finite true m e => (-1, - e, - Z.pos m)
  | S754_finite false m e => (1, e, Z.pos m)
  end.

Definition lex_lt (a b : Z * Z * Z) : Prop :=
  let '(a1, a2, a3) := a in
  let '(b1, b2, b3) := b in
  a1 < b1 \/ (a1 = b1 /\ (a2 < b2 \/ (a2 = b2 /\ a3 < b3))).

(** Values that can occur in a parsed JSON body or in a stored document. *)
#[warnings="-register-all"] Inductive value :=
| Undefined
| Null
| Bool (b : bool)
| Num (x : number)
| Str (s : string)
| Date (t : option Z)          (* a [Date]; [None] is an invalid date *)
| ObjectId (n : Z)
| Arr (xs : list value)
| Obj (fields : list (string * value)).

(** [!!v]. *)
Definition truthy (v : value) : bool :=
  match v with
  | Undefined | Null => false
  | Bool b => b
  | Num x => negb (is_NaN x || SFeqb x lit_0)
  | Str s => negb (String.eqb s "")
  | Date _ | ObjectId _ | Arr _ | Obj _ => true
  end.

(** Whether an object has the own property [k]; [fields] lists the own
    properties of the object, each name once. *)
Fixpoint has_own (fields : list (string * value)) (k : string) : bool :=
  match fields with
  | [] => false
  | (k', _) :: rest => String.eqb k' k || has_own rest k
  end.

(** The message of the [TypeError] raised when an object has no
    primitive value. *)
Definition cannot_convert : string := "Cannot convert object to primitive value".

(** Whether the conversion of [v] to a primitive (by [parseFloat],
    [new Date] or a property access [o[v]]) raises that [TypeError].  A
    value of a parsed JSON body holds no function: an object with an own
    property [toString] has lost the inherited method, and
    [Object.prototype.valueOf] returns the object itself, so that nothing
    primitive is found; any other object is converted by
    [Object.prototype.toString].  An array is converted by [join], which
    converts each element that is not [null] or [undefined]. *)
Fixpoint to_primitive_throws (v : value) : bool :=
  match v with
  | Arr xs => existsb to_primitive_throws xs
  | Obj fields => has_own fields "toString"
  | _ => false
  end.

Section Conversions.

(** [v.toString()] for a number, a [Date] or an [ObjectId]: the three
    kinds of value whose text is not spelled out here. *)
Variable toString : value -> string.

(** [String(v)], the text under which [v] is used as a property name;
    [None] when the conversion raises. *)
Fixpoint ToString (v : value) : option string :=
  match v with
  | Undefined => Some "undefined"
  | Null => Some "null"
  | Bool b => Some (if b then "true" else "false")
  | Str s => Some s
  | Num _ | Date _ | ObjectId _ => Some (toString v)
  | Arr xs =>
      (fix join (xs : list value) : option string :=
         match xs with
         | [] => Some ""
         | x :: rest =>
             match match x with
                   | Undefined | Null => Some ""
                   | _ => ToString x
                   end, rest with
             | None, _ => None
             | Some s, [] => Some s
             | Some s, _ :: _ =>
                 match join rest with
                 | Some t => Some (s +:+ "," +:+ t)
                 | None => None
                 end
             end
         end) xs
  | Obj fields =>
      if has_own fields "toString" then None else Some "[object Object]"
  end.

End Conversions.

(** ** Strings *)

Definition is_word_char (c : ascii) : bool :=
  let n := nat_of_ascii c in
  ((48 <=? n) && (n <=? 57) || (65 <=? n) && (n <=? 90) ||
   (97 <=? n) && (n <=? 122) || (n =? 95))%nat.

(** [s.startsWith(p)], returning the remainder. *)
Fixpoint strip (p s : string) : option string :=
  match p, s with
  | EmptyString, _ => Some s
  | String a p', String b s' => if Ascii.eqb a b then strip p' s' else None
  | String _ _, EmptyString => None
  end.

(** The longest run of [\w] characters at the head of [s]. *)
Fixpoint skip_word (s : string) : nat * string :=
  match s with
  | String c s' =>
      if is_word_char c then let '(n, r) := skip_word s' in (S n, r) else (O, s)
  | EmptyString => (O, s)
  end.

(** A match of [/^data:image\/\w+;base64,/] at the head of [s]; the
    result is what follows the match.  The character after the [\w+]
    run must be [';'], which is not a word character, so the greedy run
    is the only candidate. *)
Definition match_data_url (s : string) : option string :=
  match strip "data:image/" s with
  | Some r1 =>
      match skip_word r1 with
      | (O, _) => None
      | (S _, r2) => strip ";base64," r2
      end
  | None => None
  end.

(** [s.replace(/^data:image\/\w+;base64,/, '')]. *)
Definition strip_data_url (s : string) : string :=
  match match_data_url s with Some r => r | None => s end.

Definition is_base64_char (c : ascii) : bool :=
  let n := nat_of_ascii c in
  ((48 <=? n) && (n <=? 57) || (65 <=? n) && (n <=? 90) ||
   (97 <=? n) && (n <=? 122) || (n =? 43) || (n =? 47) || (n =? 61))%nat.

Fixpoint all_chars (p : ascii -> bool) (s : string) : bool :=
  match s with
  | EmptyString => true
  | String c s' => p c && all_chars p s'
  end.

Definition base64_body (s : string) : bool :=
  negb (String.eqb s "") && all_chars is_base64_char s.

(** [/^(data:image\/\w+;base64,)?[A-Za-z0-9+/=]+$/.test(s)]. *)
Definition image_format_ok (s : string) : bool :=
  match match_data_url s with
  | Some r => base64_body r || base64_body s
  | None => base64_body s
  end.

(** [Buffer.from(s, 'base64').length]: the decoder skips characters
    outside the alphabet, stops at the first ['='], and emits six bits
    per accepted character. *)
Definition is_base64_digit (c : ascii) : bool :=
  let n := nat_of_ascii c in
  ((48 <=? n) && (n <=? 57) || (65 <=? n) && (n <=? 90) ||
   (97 <=? n) && (n <=? 122) || (n =? 43) || (n =? 47) ||
   (n =? 45) || (n =? 95))%nat.

Fixpoint base64_digits (s : string) : Z :=
  match s with
  | EmptyString => 0
  | String c s' =>
      if (nat_of_ascii c =? 61)%nat then 0
      else if is_base64_digit c then 1 + base64_digits s'
      else base64_digits s'
  end.

Definition base64_length (s : string) : Z := base64_digits s * 3 / 4.

(** [s.includes(t)]. *)
Fixpoint includes (s t : string) : bool :=
  match strip t s with
  | Some _ => true
  | None => match s with
            | EmptyString => false
            | String _ s' => includes s' t
            end
  end.

(** The white-space characters and line terminators of ECMAScript, by
    the bytes of their UTF-8 encoding.  One byte: U+0009 to U+000D and
    U+0020. *)
Definition is_space (c : ascii) : bool :=
  let n := nat_of_ascii c in
  ((9 <=? n) && (n <=? 13) || (n =? 32))%nat.

(** Two bytes: U+00A0. *)
Definition is_space2 (c1 c2 : ascii) : bool :=
  ((nat_of_ascii c1 =? 194) && (nat_of_ascii c2 =? 160))%nat.

(** Three bytes: U+1680, U+2000 to U+200A, U+2028, U+2029, U+202F,
    U+205F, U+3000 and U+FEFF. *)
Definition is_space3 (c1 c2 c3 : ascii) : bool :=
  let a := nat_of_ascii c1 in
  let b := nat_of_ascii c2 in
  let c := nat_of_ascii c3 in
  ((a =? 225) && (b =? 154) && (c =? 128) ||
   (a =? 226) && (b =? 128) &&
     ((128 <=? c) && (c <=? 138) || (c =? 168) || (c =? 169) || (c =? 175)) ||
   (a =? 226) && (b =? 129) && (c =? 159) ||
   (a =? 227) && (b =? 128) && (c =? 128) ||
   (a =? 239) && (b =? 187) && (c =? 191))%nat.

(** What follows the white-space character at the head of [s], if there
    is one. *)
Definition white_head (s : string) : option string :=
  match s with
  | EmptyString => None
  | String c1 r1 =>
      if is_space c1 then Some r1
      else match r1 with
           | EmptyString => None
           | String c2 r2 =>
               if is_space2 c1 c2 then Some r2
               else match r2 with
                    | EmptyString => None
                    | String c3 r3 => if is_space3 c1 c2 c3 then Some r3 else None
                    end
           end
  end.

(** [s.trimStart()]. *)
Fixpoint trim_start (s : string) : string :=
  match s with
  | EmptyString => s
  | String c1 r1 =>
      if is_space c1 then trim_start r1
      else match r1 with
           | EmptyString => s
           | String c2 r2 =>
               if is_space2 c1 c2 then trim_start r2
               else match r2 with
                    | EmptyString => s
                    | String c3 r3 =>
                        if is_space3 c1 c2 c3 then trim_start r3 else s
                    end
           end
  end.

(** Whether [s] is made of white space only. *)
Definition all_white (s : string) : bool := String.eqb (trim_start s) "".

(** [s.trimEnd()]: the text up to its last character that is not white
    space. *)
Fixpoint trim_end (s : string) : string :=
  match s with
  | EmptyString => EmptyString
  | String c s' => if all_white s then EmptyString else String c (trim_end s')
  end.

(** [s.trim()]. *)
Definition trim (s : string) : string := trim_end (trim_start s).

End JS.

(** ** [src/services/classificationService.js] *)

Module Classification.

Import JS.

Definition MIN_CONFIDENCE : number := lit_0_65.
Definition HIGH_CONFIDENCE_THRESHOLD : number := lit_0_85.

(** The lifetime given to [setTimeout] for a cache entry, in ms. *)
Definition CACHE_TTL : Z := 300000.

(** The three values the [verification] field takes. *)
Inductive tier := unverified | medium_confidence | high_confidence.

(** The object [classifyImage] resolves to. *)
Record result := Result {
  isWaste : bool;
  label : string;
  confidence : number;
  verification : tier;
  isHighConfidence : bool;
  isVerifiedWaste : bool;
  modelVersion : string
}.

(** One entry of the detector's answer: [{class, confidence}]. *)
Record detection := Detection { det_class : Z; det_confidence : number }.

(** The two shapes of the detector's JSON body.  A field that is absent
    (or [null]) is [None]; [images] and [predictions] are arrays whose
    elements carry the detections under [results] and [detections]. *)
Record image_entry := ImageEntry { results : option (list detection) }.
Record prediction_entry := PredictionEntry { detections : option (list detection) }.
Record response_data := ResponseData {
  images : option (list image_entry);
  predictions : option (list prediction_entry)
}.

(** [data.images?.[0]?.results] and [data.predictions?.[0]?.detections];
    an array, even an empty one, is truthy. *)
Definition images_0_results (data : response_data) : option (list detection) :=
  match images data with
  | Some (e :: _) => results e
  | _ => None
  end.

Definition predictions_0_detections (data : response_data) : option (list detection) :=
  match predictions data with
  | Some (e :: _) => detections e
  | _ => None
  end.

(** Lines 61-66. *)
Definition extract_detections (data : response_data) : list detection :=
  match images_0_results data with
  | Some l => l
  | None =>
      match predictions_0_detections data with
      | Some l => l
      | None => []
      end
  end.

(** Lines 69-72. *)
Definition wasteDetections (dets : list detection) : list detection :=
  List.filter (fun det => det_class det =? 1) dets.

Definition maxConfidence (dets : list detection) : number :=
  match wasteDetections dets with
  | [] => lit_0
  | ws => Math_max (List.map det_confidence ws)
  end.

(** Lines 74-93. *)
Definition verdict (maxConf : number) : result :=
  let isWaste := ge maxConf lit_0_25 in
  let verification :=
    if isWaste then
      if ge maxConf HIGH_CONFIDENCE_THRESHOLD then high_confidence
      else if ge maxConf MIN_CONFIDENCE then medium_confidence
      else unverified
    else unverified in
  {| isWaste := isWaste;
     label := if isWaste then "waste" else "non-waste";
     confidence := maxConf;
     verification := verification;
     isHighConfidence := ge maxConf HIGH_CONFIDENCE_THRESHOLD;
     isVerifiedWaste := isWaste && ge maxConf HIGH_CONFIDENCE_THRESHOLD;
     modelVersion := "YOLOv8" |}.

Definition classify_response (data : response_data) : result :=
  verdict (maxConfidence (extract_detections data)).

(** How the [await fetch(...)] and the reading of the body end.
    [FetchThrew name message] is any exception raised inside the [try]
    block (the abort raised by the 30 s timer has name [AbortError]);
    [FetchNotOk] is a response whose [ok] flag is false. *)
Inductive fetch_outcome :=
| FetchThrew (name message : string)
| FetchNotOk (status : Z) (errorText : string)
| FetchJson (data : response_data).

(** The message of the [Error] thrown at line 55. *)
Definition api_error_message (status : Z) (errorText : string) : string :=
  "API_ERROR: " +:+ pretty status +:+ " - " +:+ errorText.

(** Lines 100-108: the message of the error [classifyImage] rejects with. *)
Definition rethrow (name message : string) : string :=
  if String.eqb name "AbortError" then "SERVICE_TIMEOUT"
  else if includes message "ECONNREFUSED" || includes message "ENOTFOUND"
  then "SERVICE_DOWN"
  else "SERVICE_ERROR: " +:+ message.

Definition settle (out : fetch_outcome) : string + result :=
  match out with
  | FetchThrew name message => inl (rethrow name message)
  | FetchNotOk status errorText =>
      inl (rethrow "Error" (api_error_message status errorText))
  | FetchJson data => inr (classify_response data)
  end.

(** *** The module state: the cache, its timers, the calls in flight *)

(** [imageCache] is the module-level [Map]; [timers] are the pending
    [setTimeout(() => imageCache.delete(hash), 300000)] callbacks with
    the time at which each is due; [pending] are the calls suspended at
    [await fetch], by call identifier; [fetches] logs, in order, the
    images sent to the detector. *)
Record state := State {
  imageCache : gmap string result;
  timers : list (Z * string);
  clock : Z;
  pending : gmap nat string;
  fetches : list string
}.

Definition initial : state := State ∅ [] 0 ∅ [].

Definition fingerprint (imageBase64 : string) : string :=
  MD5.md5_hex imageBase64.

(** Line 17: the text whose base64 decoding is sent to the detector. *)
Definition rawBase64 (imageBase64 : string) : string :=
  strip_data_url imageBase64.

(** Lines 13-15: the lookup at the head of [classifyImage]. *)
Definition lookup (imageBase64 : string) (s : state) : option result :=
  imageCache s !! fingerprint imageBase64.

(** Lines 42-50: the request leaves for the detector. *)
Definition send (imageBase64 : string) (s : state) : state :=
  State (imageCache s) (timers s) (clock s) (pending s)
        (fetches s ++ [imageBase64]).

(** Lines 95-96: [imageCache.set(hash, result)] and the [setTimeout]. *)
Definition store (imageBase64 : string) (r : result) (s : state) : state :=
  let hash := fingerprint imageBase64 in
  State (<[hash := r]> (imageCache s))
        (timers s ++ [(clock s + CACHE_TTL, hash)])
        (clock s) (pending s) (fetches s).

(** Lines 51-108 once the request has settled: a parsed body is turned
    into a verdict, stored and returned; anything else is rethrown and
    the cache is left alone. *)
Definition finish (imageBase64 : string) (out : fetch_outcome) (s : state)
  : (string + result) * state :=
  match settle out with
  | inr r => (inr r, store imageBase64 r s)
  | inl e => (inl e, s)
  end.

(** A whole call with nothing interleaved: what a caller that awaits
    [classifyImage(image)] observes when the request, if one is made,
    settles with [out]. *)
Definition classifyImage (imageBase64 : string) (out : fetch_outcome)
           (s : state) : (string + result) * state :=
  match lookup imageBase64 s with
  | Some r => (inr r, s)
  | None => finish imageBase64 out (send imageBase64 s)
  end.

(** The same call cut at its [await]: [classify_begin] runs up to the
    suspension (a hit returns at once, a miss registers the call as
    pending), [classify_settle] resumes the pending call [id]. *)
Definition suspend (id : nat) (imageBase64 : string) (s : state) : state :=
  State (imageCache s) (timers s) (clock s)
        (<[id := imageBase64]> (pending s)) (fetches s).

Definition resume (id : nat) (s : state) : state :=
  State (imageCache s) (timers s) (clock s)
        (delete id (pending s)) (fetches s).

Definition classify_begin (id : nat) (imageBase64 : string) (s : state)
  : option result * state :=
  match lookup imageBase64 s with
  | Some r => (Some r, s)
  | None => (None, suspend id imageBase64 (send imageBase64 s))
  end.

Definition classify_settle (id : nat) (out : fetch_outcome) (s : state)
  : option (string + result) * state :=
  match pending s !! id with
  | None => (None, s)
  | Some imageBase64 =>
      let '(res, s') := finish imageBase64 out (resume id s) in
      (Some res, s')
  end.

(** The event loop reaches time [t]: every timer due by then runs its
    [imageCache.delete(hash)]. *)
Definition fire (t : Z) (cache : gmap string result) (tm : Z * string)
  : gmap string result :=
  if fst tm <=? t then delete (snd tm) cache else cache.

Definition advance (t : Z) (s : state) : state :=
  if clock s <=? t then
    State (fold_left (fire t) (timers s) (imageCache s))
          (List.filter (fun tm => negb (fst tm <=? t)) (timers s))
          t (pending s) (fetches s)
  else s.

(** What can happen to the module, one turn of the event loop at a time. *)
Inductive event :=
| Begin (id : nat) (imageBase64 : string)
| Settle (id : nat) (out : fetch_outcome)
| Advance (t : Z).

Definition step (s : state) (e : event) : state :=
  match e with
  | Begin id img => snd (classify_begin id img s)
  | Settle id out => snd (classify_settle id out s)
  | Advance t => advance t s
  end.

Definition run (es : list event) (s : state) : state := fold_left step es s.

(** *** Conditions on the module state used to state the cache properties *)

(** No expiry timer for [hash] is pending, and no call other than [id] is
    suspended on an image with that fingerprint. *)
Definition quiet (hash : string) (id : nat) (s : state) : Prop :=
  (forall d, ~ In (d, hash) (timers s)) /\
  (forall id' img, pending s !! id' = Some img -> id' <> id -> fingerprint img <> hash).

(** An event that happens before time [t]. *)
Definition before (t : Z) (e : event) : Prop :=
  match e with
  | Advance t' => t' < t
  | _ => True
  end.

(** The entry [hash |-> v] is in the cache, its removal is scheduled at
    [expiry] and not earlier, that time has not come, and no suspended
    call is about to overwrite it. *)
Definition live (hash : string) (v : result) (expiry : Z) (s : state) : Prop :=
  imageCache s !! hash = Some v /\
  In (expiry, hash) (timers s) /\
  (forall d, In (d, hash) (timers s) -> expiry <= d) /\
  (forall id img, pending s !! id = Some img -> fingerprint img <> hash) /\
  clock s < expiry.

End Classification.

(** ** [src/models/Report.js] *)

Module ReportModel.

Import JS.

(** A document is a finite map from path names to values. *)
Abbreviation document := (gmap string value).

Inductive schema_type := String_t | Number_t | Date_t | ObjectId_t | Point_t.

Inductive default_spec :=
| NoDefault
| DefaultValue (v : value)
| DefaultNow.                         (* [default: Date.now] *)

Record path := Path {
  path_name : string;
  path_type : schema_type;
  required : bool;
  trimmed : bool;
  enum : option (list string);
  default : default_spec
}.

Definition plain (name : string) (ty : schema_type) : path :=
  Path name ty false false None NoDefault.

Definition reportType_enum : list string := ["standard"; "hazardous"; "large"].
Definition status_enum : list string :=
  ["pending"; "in-progress"; "resolved"; "rejected"; "permanent-resolved";
   "out-of-scope"].

(** [reportSchema], path by path, and the two paths that
    [timestamps: true] adds. *)
Definition reportSchema : list path :=
  [ Path "title" String_t true true None NoDefault;
    Path "image" String_t true false None NoDefault;
    Path "publicId" String_t true false None NoDefault;
    Path "details" String_t true true None NoDefault;
    Path "location" Point_t true false None NoDefault;
    Path "address" String_t true true None NoDefault;
    Path "createdTime" Date_t false false None DefaultNow;
    Path "user" ObjectId_t true false None NoDefault;
    Path "photoTimestamp" Date_t true false None NoDefault;
    Path "reportType" String_t false false (Some reportType_enum)
         (DefaultValue (Str "standard"));
    Path "status" String_t false false (Some status_enum)
         (DefaultValue (Str "pending"));
    plain "outOfScopeReason" String_t;
    plain "outOfScopeBy" ObjectId_t;
    plain "outOfScopeAt" Date_t;
    plain "resolvedImage" String_t;
    plain "resolvedPublicId" String_t;
    plain "resolvedLocation" Point_t;
    plain "resolvedAddress" String_t;
    plain "resolvedBy" ObjectId_t;
    plain "assignedTo" ObjectId_t;
    plain "assignedAt" Date_t;
    plain "assignedMsg" String_t;
    plain "distanceToReported" Number_t;
    plain "permanentlyResolvedAt" Date_t;
    plain "permanentlyResolvedBy" ObjectId_t;
    plain "resolvedAt" Date_t;
    plain "rejectionReason" String_t;
    plain "rejectedBy" ObjectId_t;
    plain "rejectedAt" Date_t;
    Path "createdAt" Date_t false false None DefaultNow;
    Path "updatedAt" Date_t false false None DefaultNow ].

(** Two of the paths above, by name. *)
Definition reportType_path : path :=
  Path "reportType" String_t false false (Some reportType_enum)
       (DefaultValue (Str "standard")).

Definition user_path : path := Path "user" ObjectId_t true false None NoDefault.

Definition status_path : path :=
  Path "status" String_t false false (Some status_enum) (DefaultValue (Str "pending")).

(** Property lookup, [o.k] or [o[k]], in an object given by the list of
    its own properties, each name once; an absent property reads as
    [undefined]. *)
Fixpoint get (fields : list (string * value)) (k : string) : value :=
  match fields with
  | [] => Undefined
  | (k', v) :: rest => if String.eqb k' k then v else get rest k
  end.

Definition is_number_array (v : value) : bool :=
  match v with
  | Arr xs => forallb (fun x => match x with Num n => negb (is_NaN n) | _ => false end) xs
  | _ => false
  end.

Definition default_value (now : Z) (d : default_spec) : option value :=
  match d with
  | NoDefault => None
  | DefaultValue v => Some v
  | DefaultNow => Some (Date (Some now))
  end.

(** A document under construction: the paths set so far and the paths
    whose value could not be cast. *)
Record draft := Draft { fields : document; cast_errors : list string }.

Section Casting.

(** [v.toString()] for a number, a [Date] or an [ObjectId]. *)
Variable toString : value -> string.

(** The cast of the library to [String], [None] when it raises: a string
    is itself; an object (a referenced document) with a non-empty string
    under [_id] stands for that string; an array is refused; any other
    value with a [toString] of its own kind (a boolean, a number, a date,
    an object id) is converted by it; and a plain object, whose [toString]
    is the one of [Object.prototype] or, in a parsed body, no function at
    all, is refused. *)
Definition castString (v : value) : option string :=
  match v with
  | Str s => Some s
  | Bool b => Some (if b then "true" else "false")
  | Num _ | Date _ | ObjectId _ => Some (toString v)
  | Obj fields =>
      match get fields "_id" with
      | Str id => if String.eqb id "" then None else Some id
      | _ => None
      end
  | Arr _ | Undefined | Null => None
  end.

(** Casting a supplied value to the type of its path; [None] is a cast
    error.  The object built at lines 143-161 of the route gives a
    [String] path a string or, for [reportType], any value of the body; a
    [Date] path a [Date], which is refused when it is invalid; the
    [ObjectId] path [user] an object id; and [location] a point whose
    coordinates are numbers.  Those are the casts spelled out; no other
    combination is produced by the routes embedded here, and it counts as
    a cast error. *)
Definition cast (p : path) (v : value) : option value :=
  match path_type p, v with
  | String_t, _ =>
      match castString v with
      | Some s => Some (Str (if trimmed p then trim s else s))
      | None => None
      end
  | Number_t, Num x => if is_NaN x then None else Some v
  | Date_t, Date (Some t) => Some v
  | ObjectId_t, ObjectId n => Some v
  | Point_t, Obj fields =>
      match get fields "type" with
      | Str _ => if is_number_array (get fields "coordinates") then Some v else None
      | _ => None
      end
  | _, _ => None
  end.

(** The value a path receives from [obj]: the supplied value cast to the
    type of the path, or the default when none is supplied; [None] when
    there is nothing to set. *)
Definition path_value (now : Z) (obj : list (string * value)) (p : path)
  : option value :=
  match get obj (path_name p) with
  | Undefined | Null => default_value now (default p)
  | v => cast p v
  end.

(** One path of [new Report(obj)].  Only the paths of the schema are
    visited: the schema is strict (the default), so a property of [obj]
    that names no path is not copied into the document. *)
Definition set_path (now : Z) (obj : list (string * value)) (d : draft) (p : path)
  : draft :=
  match get obj (path_name p) with
  | Undefined | Null =>
      match default_value now (default p) with
      | Some v => Draft (<[path_name p := v]> (fields d)) (cast_errors d)
      | None => d
      end
  | v =>
      match cast p v with
      | Some v' => Draft (<[path_name p := v']> (fields d)) (cast_errors d)
      | None => Draft (fields d) (cast_errors d ++ [path_name p])
      end
  end.

(** [new Report(obj)], with the fresh [_id]. *)
Definition new_Report (now id : Z) (obj : list (string * value)) : draft :=
  fold_left (set_path now obj) reportSchema
            (Draft {[ "_id" := ObjectId id ]} []).

End Casting.

(** The validators of one path: [required] (an empty string does not
    satisfy it) and [enum]. *)
Definition path_valid (doc : document) (p : path) : bool :=
  match doc !! path_name p with
  | None => negb (required p)
  | Some (Str s) =>
      negb (required p && String.eqb s "") &&
      match enum p with
      | Some allowed => existsb (String.eqb s) allowed
      | None => true
      end
  | Some (Obj fs) =>
      match path_type p, get fs "type" with
      | Point_t, Str t => String.eqb t "Point"
      | _, _ => true
      end
  | Some _ => true
  end.

Definition invalid_paths (d : draft) : list string :=
  cast_errors d ++
  List.map path_name (List.filter (fun p => negb (path_valid (fields d) p)) reportSchema).

(** [doc.validate()]: the document when every path passes, else the
    names of the offending paths (a [ValidationError]). *)
Definition validate (d : draft) : list string + document :=
  match invalid_paths d with
  | [] => inr (fields d)
  | bad => inl bad
  end.

End ReportModel.

(** ** [src/routes/reportRoutes.js] *)

Module Routes.

Import JS.
Export ReportModel.

(** [req.body] of [POST /]; an absent property is [Undefined]. *)
Record body := Body {
  title : value;
  image : value;
  details : value;
  address : value;
  latitude : value;
  longitude : value;
  photoTimestamp : value;
  reportType : value;
  forceSubmit : value
}.

(** Modelled from the spec: the User collaborator
    ([src/models/User.js] is not among the sources), of which the routes
    only touch the two counters [reportCount] and [points]. *)
Record user := User { reportCount : Z; points : Z }.

(** Everything the two handlers read and write: the classification
    module, the Report collection (by [_id]) and the User collection. *)
Record world := World {
  service : Classification.state;
  reports : gmap Z document;
  users : gmap Z user
}.

(** What [cloudinary.uploader.upload] resolves to. *)
Record upload_response := UploadResponse { secure_url : string; public_id : string }.

(** How the upload promise settles. *)
Inductive upload_result :=
| Uploaded (r : upload_response)
| UploadFailed (message : string).

(** The deadline given to [setTimeout] at line 125, in ms. *)
Definition UPLOAD_DEADLINE : Z := 15000.

(** [Promise.race([cloudinaryPromise, uploadTimeout])].  [upload] tells
    after how many ms the upload settles and how ([None]: it never
    does).  The first promise to settle decides.  The upload is started
    at line 114, before the timer is set at line 125, so that an upload
    settling in the very ms the timer is due comes first: the upload
    decides when it settles within the deadline, otherwise the timer's
    rejection with [Error('CLOUDINARY_TIMEOUT')] does. *)
Definition race (upload : option (Z * upload_result)) : string + upload_response :=
  match upload with
  | Some (t, res) =>
      if t <=? UPLOAD_DEADLINE then
        match res with
        | Uploaded r => inr r
        | UploadFailed message => inl message
        end
      else inl "CLOUDINARY_TIMEOUT"
  | None => inl "CLOUDINARY_TIMEOUT"
  end.

(** The environment of one [POST /]: how each awaited collaborator
    answers. *)
Record post_env := PostEnv {
  fetch : Classification.fetch_outcome;    (* the detector, if called *)
  upload : option (Z * upload_result);     (* the object store *)
  fresh_id : Z;                            (* the [_id] of the new document *)
  insert_error : option string;            (* the document store refuses the insert *)
  user_update_fails : bool                 (* [User.findByIdAndUpdate] rejects *)
}.

(** A value read through the prototype chain of an object literal whose
    own properties are numbers: the number, or something inherited from
    [Object.prototype] (a function or an object). *)
Inductive property := Number (n : Z) | Inherited.

Definition Object_prototype : list string :=
  ["constructor"; "__defineGetter__"; "__defineSetter__"; "hasOwnProperty";
   "__lookupGetter__"; "__lookupSetter__"; "isPrototypeOf";
   "propertyIsEnumerable"; "toString"; "valueOf"; "__proto__";
   "toLocaleString"].

(** [pointsMap[key]] for [pointsMap = { standard: 10, hazardous: 20,
    large: 15 }]; [None] is [undefined]. *)
Definition pointsMap (key : string) : option property :=
  if String.eqb key "standard" then Some (Number 10)
  else if String.eqb key "hazardous" then Some (Number 20)
  else if String.eqb key "large" then Some (Number 15)
  else if existsb (String.eqb key) Object_prototype then Some Inherited
  else None.

(** [pointsMap[key] || 10]. *)
Definition points_or_10 (key : string) : property :=
  match pointsMap key with
  | Some (Number n) => if n =? 0 then Number 10 else Number n
  | Some Inherited => Inherited
  | None => Number 10
  end.

(** [User.findByIdAndUpdate(id, { $inc: { reportCount: dc, points: dp } })]
    when it does not reject: the counters of the user, if there is one. *)
Definition inc_user (id dc dp : Z) (us : gmap Z user) : gmap Z user :=
  match us !! id with
  | Some u => <[id := User (reportCount u + dc) (points u + dp)]> us
  | None => us
  end.

(** The responses of [POST /]. *)
Inductive post_response :=
| ImageTooLarge
| MissingFields (missingFields : list string)
| InvalidCoordinates
| InvalidCoordinatesRange (lat lon : number)
| InvalidImageFormat
| NotWaste (classification : Classification.result)
| LowConfidence (classification : Classification.result)
| ServiceUnavailable (error : string)
| CloudinaryTimeout
| CloudinaryError (error : string)
| Created (report : document) (pointsEarned : property)
          (classification : option Classification.result)
| ValidationError (paths : list string)
| InternalServerError (error : string).

Definition status (r : post_response) : Z :=
  match r with
  | ImageTooLarge => 413
  | MissingFields _ | InvalidCoordinates | InvalidCoordinatesRange _ _
  | InvalidImageFormat | NotWaste _ | LowConfidence _ | ValidationError _ => 400
  | ServiceUnavailable _ => 503
  | CloudinaryTimeout => 504
  | CloudinaryError _ | InternalServerError _ => 500
  | Created _ _ _ => 201
  end.

Definition code (r : post_response) : string :=
  match r with
  | ImageTooLarge => "IMAGE_TOO_LARGE"
  | MissingFields _ => "MISSING_FIELDS"
  | InvalidCoordinates => "INVALID_COORDINATES"
  | InvalidCoordinatesRange _ _ => "INVALID_COORDINATES_RANGE"
  | InvalidImageFormat => "INVALID_IMAGE_FORMAT"
  | NotWaste _ => "NOT_WASTE"
  | LowConfidence _ => "LOW_CONFIDENCE"
  | ServiceUnavailable _ => "SERVICE_UNAVAILABLE"
  | CloudinaryTimeout => "CLOUDINARY_TIMEOUT"
  | CloudinaryError _ => "CLOUDINARY_ERROR"
  | Created _ _ _ => ""
  | ValidationError _ => "VALIDATION_ERROR"
  | InternalServerError _ => "INTERNAL_SERVER_ERROR"
  end.

(** The message of the [TypeError] raised by the call [name.method()]
    of a string method on a variable whose value [v] is not a string (a
    value of a parsed body holds no function, so neither does an object
    with a property of that name): the handler's outer [catch] turns it
    into a 500. *)
Definition not_a_string (name method : string) (v : value) : string :=
  match v with
  | Undefined => "Cannot read properties of undefined (reading '" +:+ method +:+ "')"
  | Null => "Cannot read properties of null (reading '" +:+ method +:+ "')"
  | _ => name +:+ "." +:+ method +:+ " is not a function"
  end.

(** Lines 33-42. *)
Definition missing (b : body) : list string :=
  (if truthy (title b) then [] else ["title"]) ++
  (if truthy (image b) then [] else ["image"]) ++
  (if truthy (details b) then [] else ["details"]) ++
  (if truthy (address b) then [] else ["address"]) ++
  (match latitude b, longitude b with
   | Undefined, _ | _, Undefined => ["location"]
   | _, _ => []
   end).

Definition MAX_IMAGE_BYTES : Z := 5 * 1024 * 1024.

(** Lines 96-102 come after the [isWaste] test of lines 88-94. *)
Definition ADMISSION_CONFIDENCE : number := lit_0_7.

Definition tier_name (t : Classification.tier) : string :=
  match t with
  | Classification.unverified => "unverified"
  | Classification.medium_confidence => "medium_confidence"
  | Classification.high_confidence => "high_confidence"
  end.

(** Lines 156-160: the value given for [aiVerification]. *)
Definition aiVerification (classification : option Classification.result) : value :=
  match classification with
  | Some c =>
      Obj [("isWaste", Bool (Classification.isWaste c));
           ("confidence", Num (Classification.confidence c));
           ("verification", Str (tier_name (Classification.verification c)))]
  | None => Null
  end.

Section Handlers.

(** The library conversions the handler applies to request data:
    [parseFloat(v)] and the timestamp of [new Date(v)] ([None] for an
    invalid date), both for a value [v] that has a primitive value, and
    [v.toString()] for a number, a [Date] or an [ObjectId]. *)
Variable parseFloat : value -> number.
Variable Date_of : value -> option Z.
Variable toString : value -> string.

(** Lines 52-81: the checks on the coordinates and on the image text.
    The two calls of [parseFloat] come first, and raise for a value
    without a primitive value. *)
Definition check_format (img : string) (b : body) : option post_response :=
  let lat := parseFloat (latitude b) in
  let lon := parseFloat (longitude b) in
  if to_primitive_throws (latitude b) || to_primitive_throws (longitude b)
  then Some (InternalServerError cannot_convert)
  else if is_NaN lat || is_NaN lon then Some InvalidCoordinates
  else if lt lat (neg lit_90) || gt lat lit_90 ||
          lt lon (neg lit_180) || gt lon lit_180
  then Some (InvalidCoordinatesRange lat lon)
  else if negb (image_format_ok img) then Some InvalidImageFormat
  else None.

(** Lines 24-81.  [image.replace] is evaluated first, so an [image]
    that is not a string raises before any check is made. *)
Definition validate_request (b : body) : post_response + string :=
  match image b with
  | Str img =>
      if MAX_IMAGE_BYTES <? base64_length (strip_data_url img)
      then inl ImageTooLarge
      else match missing b with
           | [] => match check_format img b with
                   | Some r => inl r
                   | None => inr img
                   end
           | names => inl (MissingFields names)
           end
  | v => inl (InternalServerError (not_a_string "image" "replace" v))
  end.

(** Lines 83-110: the verification stage.  [inr None] is a bypassed
    submission, [inr (Some c)] one admitted with verdict [c]. *)
Definition verify (img : string) (b : body) (env : post_env)
           (svc : Classification.state)
  : (post_response + option Classification.result) * Classification.state :=
  if truthy (forceSubmit b) then (inr None, svc)
  else
    match Classification.classifyImage img (fetch env) svc with
    | (inr c, svc') =>
        if negb (Classification.isWaste c) then (inl (NotWaste c), svc')
        else if lt (Classification.confidence c) ADMISSION_CONFIDENCE
        then (inl (LowConfidence c), svc')
        else (inr (Some c), svc')
    | (inl message, svc') => (inl (ServiceUnavailable message), svc')
    end.

(** Lines 112-140: the upload raced against the deadline. *)
Definition upload_image (env : post_env) : post_response + upload_response :=
  match race (upload env) with
  | inr r => inr r
  | inl message =>
      if String.eqb message "CLOUDINARY_TIMEOUT" then inl CloudinaryTimeout
      else inl (CloudinaryError message)
  end.

(** [reportType || 'standard']. *)
Definition finalReportType (b : body) : value :=
  if truthy (reportType b) then reportType b else Str "standard".

(** Lines 143-161: the object handed to [new Report].  Its properties
    are evaluated in order: the three [trim()] calls raise when their
    receiver is not a string, and so does [new Date(photoTimestamp)] for
    a value without a primitive value. *)
Definition report_object (user_id : Z) (now : Z) (b : body)
           (up : upload_response) (classification : option Classification.result)
  : string + list (string * value) :=
  match title b with
  | Str t =>
      match details b with
      | Str d =>
          match address b with
          | Str a =>
              if truthy (photoTimestamp b) && to_primitive_throws (photoTimestamp b)
              then inl cannot_convert
              else
                inr [("title", Str (trim t));
                     ("image", Str (secure_url up));
                     ("publicId", Str (public_id up));
                     ("details", Str (trim d));
                     ("address", Str (trim a));
                     ("reportType", finalReportType b);
                     ("location",
                      Obj [("type", Str "Point");
                           ("coordinates", Arr [Num (parseFloat (longitude b));
                                                Num (parseFloat (latitude b))])]);
                     ("photoTimestamp",
                      if truthy (photoTimestamp b) then Date (Date_of (photoTimestamp b))
                      else Date (Some now));
                     ("user", ObjectId user_id);
                     ("aiVerification", aiVerification classification)]
          | v => inl (not_a_string "address" "trim" v)
          end
      | v => inl (not_a_string "details" "trim" v)
      end
  | v => inl (not_a_string "title" "trim" v)
  end.

(** Line 162, [newReport.save()]: validation, then the insert. *)
Definition save (env : post_env) (d : draft) (rs : gmap Z document)
  : post_response + (document * gmap Z document) :=
  match validate d with
  | inl bad => inl (ValidationError bad)
  | inr doc =>
      match insert_error env, rs !! fresh_id env with
      | Some e, _ => inl (InternalServerError e)
      | None, Some _ => inl (InternalServerError "E11000 duplicate key error")
      | None, None => inr (doc, <[fresh_id env := doc]> rs)
      end
  end.

(** Line 165, [pointsMap[finalReportType] || 10]: the property is looked
    up under the text of [finalReportType], which for a text is the text
    itself; [None] when the conversion to a property name raises. *)
Definition pointsToAdd (b : body) : option property :=
  match ToString toString (finalReportType b) with
  | Some key => Some (points_or_10 key)
  | None => None
  end.

(** Lines 166-172: the best-effort update of the user. *)
Definition award (env : post_env) (user_id : Z) (p : property)
           (us : gmap Z user) : gmap Z user :=
  match p with
  | Number n => if user_update_fails env then us else inc_user user_id 1 n us
  | Inherited => us
  end.

(** The handler of [POST /].  An exception raised at line 165 comes after
    the report has been saved, and is answered by the outer [catch]. *)
Definition post_report (user_id : Z) (b : body) (env : post_env) (w : world)
  : post_response * world :=
  match validate_request b with
  | inl r => (r, w)
  | inr img =>
      match verify img b env (service w) with
      | (inl r, svc) => (r, World svc (reports w) (users w))
      | (inr classification, svc) =>
          let w1 := World svc (reports w) (users w) in
          match upload_image env with
          | inl r => (r, w1)
          | inr up =>
              let now := Classification.clock svc in
              match report_object user_id now b up classification with
              | inl e => (InternalServerError e, w1)
              | inr obj =>
                  match save env (new_Report toString now (fresh_id env) obj) (reports w) with
                  | inl r => (r, w1)
                  | inr (doc, rs) =>
                      match pointsToAdd b with
                      | Some p =>
                          (Created doc p classification,
                           World svc rs (award env user_id p (users w)))
                      | None =>
                          (InternalServerError cannot_convert, World svc rs (users w))
                      end
                  end
              end
          end
      end
  end.

End Handlers.

(** The responses of [DELETE /:id]. *)
Inductive delete_response :=
| NotFound                      (* 404 *)
| Unauthorized                  (* 401 *)
| Deleted                       (* 200 *)
| DeleteFailed.                 (* 500 *)

Definition delete_status (r : delete_response) : Z :=
  match r with
  | NotFound => 404
  | Unauthorized => 401
  | Deleted => 200
  | DeleteFailed => 500
  end.

(** The environment of one [DELETE /:id]. *)
Record delete_env := DeleteEnv {
  destroy_fails : bool;            (* [cloudinary.uploader.destroy] rejects *)
  deduct_fails : bool;             (* [User.findByIdAndUpdate] rejects *)
  deleteOne_fails : bool           (* [report.deleteOne] rejects *)
}.

(** Lines 281-289. *)
Definition pointsToDeduct (report : document) : property :=
  match report !! "reportType" with
  | Some (Str key) => if String.eqb key "" then Number 10 else points_or_10 key
  | _ => Number 10
  end.

(** The handler of [DELETE /:id] from line 265 on, for an [id] that
    [findById] has cast to an object id.  The image is destroyed first,
    and a failure there is only logged; the counters are updated next,
    and the document is removed last. *)
Definition delete_report (user_id id : Z) (env : delete_env) (w : world)
  : delete_response * world :=
  match reports w !! id with
  | None => (NotFound, w)
  | Some report =>
      match report !! "user" with
      | Some (ObjectId owner) =>
          if negb (owner =? user_id) then (Unauthorized, w)
          else
            match pointsToDeduct report with
            | Number n =>
                if deduct_fails env then (DeleteFailed, w)
                else
                  let us := inc_user user_id (-1) (- n) (users w) in
                  if deleteOne_fails env
                  then (DeleteFailed, World (service w) (reports w) us)
                  else (Deleted, World (service w) (delete id (reports w)) us)
            | Inherited => (DeleteFailed, w)
            end
      | _ => (DeleteFailed, w)
      end
  end.

Section DeleteRoute.

(** The cast of the text of [:id] to an object id, [None] when the text
    is not one. *)
Variable castObjectId : string -> option Z.

(** The whole handler of [DELETE /:id]: [Report.findById(req.params.id)]
    at line 264 rejects with a cast error for a text that is no object
    id, which the [catch] answers with 500. *)
Definition delete_route (user_id : Z) (id : string) (env : delete_env) (w : world)
  : delete_response * world :=
  match castObjectId id with
  | Some n => delete_report user_id n env w
  | None => (DeleteFailed, w)
  end.

End DeleteRoute.

(** The point table as the specification words it: standard 10, hazardous
    20, large 15, any other category 10. *)
Definition category_points (category : string) : Z :=
  if String.eqb category "standard" then 10
  else if String.eqb category "hazardous" then 20
  else if String.eqb category "large" then 15
  else 10.

End Routes.

(** ** Invariants of the classification module *)

Module CacheInvariants.

Import Classification.

(** Every entry of the cache has a removal scheduled within [CACHE_TTL]
    ms of the current time. *)
Definition scheduled (s : state) : Prop :=
  forall h r, imageCache s !! h = Some r ->
              exists d, In (d, h) (timers s) /\ d <= clock s + CACHE_TTL.

(** Every entry of the cache is the verdict computed from an answer of
    the detector, under the fingerprint of an image that was sent to it;
    and so was the image of every suspended call. *)
Definition from_detector (s : state) : Prop :=
  (forall h r, imageCache s !! h = Some r ->
               exists img data, fingerprint img = h /\ r = classify_response data /\
                                In img (fetches s)) /\
  (forall id img, pending s !! id = Some img -> In img (fetches s)).

(** [r] is the verdict computed from a parsed answer of the detector to a
    call for an image with fingerprint [h]: among the events [es] there
    are the start of a call [id] for such an image and the settling of a
    call [id] with that answer. *)
Definition answered (es : list event) (h : string) (r : result) : Prop :=
  exists id img data,
    In (Begin id img) es /\ In (Settle id (FetchJson data)) es /\
    fingerprint img = h /\ r = classify_response data.

(** The cache and the suspended calls of [s] come from the events [es]. *)
Definition traced (es : list event) (s : state) : Prop :=
  (forall h r, imageCache s !! h = Some r -> answered es h r) /\
  (forall id img, pending s !! id = Some img -> In (Begin id img) es).

(** No event of [es] is a parsed answer of the detector. *)
Definition no_answer (e : event) : Prop :=
  match e with
  | Settle _ (FetchJson _) => False
  | _ => True
  end.

End CacheInvariants.

(** ** [POST /test-classify] ([src/routes/reportRoutes.js], lines 198-222) *)

Module TestClassify.

Import JS.

(** The answers of the route. *)
Inductive response :=
| MissingImage                                    (* 400 MISSING_IMAGE *)
| Classified (result : Classification.result)     (* 200, the verdict *)
| ClassificationFailed (details : string).        (* 500 *)

Definition status (r : response) : Z :=
  match r with
  | MissingImage => 400
  | Classified _ => 200
  | ClassificationFailed _ => 500
  end.

(** The message of the [TypeError] that [createHash('md5').update(v)]
    raises for a value that is neither a string nor a buffer (the text
    goes on with a description of the value received). *)
Definition invalid_data_argument : string :=
  let quote := String (ascii_of_nat 34) EmptyString in
  "The " +:+ quote +:+ "data" +:+ quote +:+
  " argument must be of type string or an instance of Buffer, TypedArray, or DataView.".

(** The handler: [fetch] is how the detector answers, if it is called. *)
Definition test_classify (image : value) (fetch : Classification.fetch_outcome)
           (svc : Classification.state) : response * Classification.state :=
  if negb (truthy image) then (MissingImage, svc)
  else
    match image with
    | Str img =>
        match Classification.classifyImage img fetch svc with
        | (inr result, svc') => (Classified result, svc')
        | (inl message, svc') => (ClassificationFailed message, svc')
        end
    | _ => (ClassificationFailed invalid_data_argument, svc)
    end.

End TestClassify.

(** ** The listings of [src/routes/supervisorRoutes.js] *)

Module Supervisor.

Import JS ReportModel.

(** [isSupervisor]: the role of the authenticated user decides. *)
Definition isSupervisor (role : string) : bool := String.eqb role "supervisor".

(** [parseInt(x) || d], with [None] for [NaN]: zero and [NaN] are falsy. *)
Definition or_default (parsed : option Z) (d : Z) : Z :=
  match parsed with
  | Some n => if n =? 0 then d else n
  | None => d
  end.

(** [Math.ceil(total / limit)] for integers. *)
Definition ceil_div (total limit : Z) : Z := - ((- total) / limit).

(** The body of a listing. *)
Record listing := Listing {
  listed : list document;
  currentPage : Z;
  total : Z;
  totalPages : Z
}.

Inductive response :=
| AccessDenied                  (* 403 *)
| Page (body : listing)         (* 200 *)
| ServerError.                  (* 500 *)

(** [.skip(skip).limit(limit)] on the matching reports in the order of
    the sort.  The store refuses a negative [skip]; of a negative [limit]
    it takes the absolute value. *)
Definition skip_limit (matches : list document) (skip limit : Z)
  : option (list document) :=
  if skip <? 0 then None
  else Some (firstn (Z.to_nat (Z.abs limit)) (skipn (Z.to_nat skip) matches)).

(** The handlers of [/reports/pending], [/reports/in-progress] and
    [/reports/resolved] (lines 18-91), which differ in the status they
    filter and in the key of the sort: [matches] are the reports with that
    status in the order of that sort, [page] and [limit] the results of
    [parseInt] on the two query parameters. *)
Definition list_reports (role : string) (matches : list document)
           (page limit : option Z) : response :=
  if negb (isSupervisor role) then AccessDenied
  else
    let page := or_default page 1 in
    let limit := or_default limit 10 in
    let skip := (page - 1) * limit in
    match skip_limit matches skip limit with
    | None => ServerError
    | Some reports =>
        let total := Z.of_nat (length matches) in
        Page (Listing reports page total (ceil_div total limit))
    end.

(** The reports a supervisor sees on page [page]. *)
Definition page_of (matches : list document) (limit page : Z) : list document :=
  match list_reports "supervisor" matches (Some page) (Some limit) with
  | Page body => listed body
  | _ => []
  end.

End Supervisor.

(** ** Sample inputs

    Concrete requests, answers of the collaborators and states, used below
    to run the handlers. *)

Module Samples.

Import JS Classification Routes.

(** [parseFloat] and [new Date] on the values the samples contain:
    numbers (printed and read back, which turns [-0] into [0]); everything
    else in the samples is not numeric and not a date. *)
Definition parseFloat (v : value) : number :=
  match v with
  | Num (S754_zero _) => S754_zero false
  | Num x => x
  | _ => S754_nan
  end.

Definition Date_of (v : value) : option Z := None.

(** [toString] on the numbers the samples contain: zero.  No other
    number, and no date or object id, reaches a [String] path or a
    property name in the samples. *)
Definition toString (v : value) : string :=
  match v with
  | Num (S754_zero _) => "0"
  | _ => ""
  end.

(** The cast of a text to an object id: 24 hexadecimal digits, read as a
    number. *)
Definition hex_digit (c : ascii) : option Z :=
  let n := Z.of_nat (nat_of_ascii c) in
  if (48 <=? n) && (n <=? 57) then Some (n - 48)
  else if (97 <=? n) && (n <=? 102) then Some (n - 87)
  else if (65 <=? n) && (n <=? 70) then Some (n - 55)
  else None.

Fixpoint hex_value (acc : Z) (s : string) : option Z :=
  match s with
  | EmptyString => Some acc
  | String c s' =>
      match hex_digit c with
      | Some d => hex_value (16 * acc + d) s'
      | None => None
      end
  end.

Definition castObjectId (s : string) : option Z :=
  if (String.length s =? 24)%nat then hex_value 0 s else None.

#[warnings="-inexact-float"] Definition lit_0_68 : number := Eval vm_compute in Prim2SF 0.68%float.
#[warnings="-inexact-float"] Definition lit_0_5 : number := Eval vm_compute in Prim2SF 0.5%float.
#[warnings="-inexact-float"] Definition lit_0_9 : number := Eval vm_compute in Prim2SF 0.9%float.

(** A detector answer in the first shape: waste at 0.7 and at 0.25, and
    a non-waste detection at 0.85. *)
Definition detections_0_7 : list detection :=
  [Detection 1 lit_0_7; Detection 0 lit_0_85; Detection 1 lit_0_25].

Definition data_0_7 : response_data :=
  ResponseData (Some [ImageEntry (Some detections_0_7)]) None.

(** The same in the second shape, with waste at 0.68. *)
Definition data_0_68 : response_data :=
  ResponseData None (Some [PredictionEntry (Some [Detection 1 lit_0_68])]).

Definition data_0_9 : response_data :=
  ResponseData (Some [ImageEntry (Some [Detection 1 lit_0_9])]) None.

(** A complete request for the image ["AAAA"] at coordinates (0, 0). *)
Definition request : body :=
  Body (Str "Overflowing bin") (Str "AAAA") (Str "Bags on the pavement")
       (Str "1 Main Street") (Num lit_0) (Num lit_0)
       Undefined Undefined Undefined.

Definition uploaded : upload_response :=
  UploadResponse "https://res.cloudinary.com/demo/reports/a.jpg" "reports/a".

(** Every collaborator answers: the detector with [data_0_9], the object
    store after 100 ms. *)
Definition env_ok : post_env :=
  PostEnv (FetchJson data_0_9) (Some (100, Uploaded uploaded)) 1 None false.

(** A world with one user, 7, who has no points yet. *)
Definition world0 : world := World initial ∅ {[ 7 := User 0 0 ]}.

(** Two overlapping calls for the same image, then, once the entry of
    the first has expired, a third call that stores its verdict at
    300007 ms while the timer set by the second call is still pending. *)
Definition overlapping_calls : list event :=
  [ Begin 1 "AAAA"; Begin 2 "AAAA";
    Advance 5; Settle 1 (FetchJson data_0_9);
    Advance 10; Settle 2 (FetchJson data_0_9);
    Advance 300006; Begin 3 "AAAA";
    Advance 300007; Settle 3 (FetchJson data_0_9) ].

(** An image text of 7,000,000 characters ['A'], which decodes to
    5,250,000 bytes. *)
Definition big_image : string := Pos.iter (String "A"%char) EmptyString 7000000.

(** The sample request without a title and with the big image. *)
Definition request_big_untitled : body :=
  Body Undefined (Str big_image) (Str "Bags on the pavement")
       (Str "1 Main Street") (Num lit_0) (Num lit_0)
       Undefined Undefined Undefined.

(** A stored report of user 7 that a supervisor has resolved, and a
    world holding it under [_id] 1. *)
Definition resolved_report : document :=
  <[ "user" := ObjectId 7 ]>
    (<[ "status" := Str "resolved" ]>
       (<[ "reportType" := Str "hazardous" ]>
          (<[ "publicId" := Str "reports/a" ]> ∅))).

Definition world_resolved : world :=
  World initial {[ 1 := resolved_report ]} {[ 7 := User 1 20 ]}.

Definition delete_ok : delete_env := DeleteEnv false false false.


(** The sample request with a given [reportType]. *)
Definition request_of_type (reportType : value) : body :=
  Body (Str "Overflowing bin") (Str "AAAA") (Str "Bags on the pavement")
       (Str "1 Main Street") (Num lit_0) (Num lit_0)
       Undefined reportType Undefined.

(** [{ "_id": "hazardous" }] and [{ "_id": "hazardous", "toString": 1 }]. *)
Definition lit_1 : number := Eval vm_compute in Prim2SF 1%float.

Definition hazardous_reference : value := Obj [("_id", Str "hazardous")].

Definition hazardous_without_text : value :=
  Obj [("_id", Str "hazardous"); ("toString", Num lit_1)].

(** U+00A0, the no-break space, and a title made of two of them. *)
Definition nbsp : string :=
  String (ascii_of_nat 194) (String (ascii_of_nat 160) EmptyString).

Definition request_blank_title : body :=
  Body (Str (nbsp +:+ nbsp)) (Str "AAAA") (Str "Bags on the pavement")
       (Str "1 Main Street") (Num lit_0) (Num lit_0)
       Undefined Undefined Undefined.

End Samples.

(* ===================================================================== *)
(** * Part II: properties *)
(* ===================================================================== *)

(** ** The order of JavaScript numbers *)

Module NumberOrder.

Import JS.

Lemma compare_cont_Eq (m1 m2 : positive) :
  Pos.compare_cont Eq m1 m2 = (Z.pos m1 ?= Z.pos m2).
Proof. reflexivity. Qed.

Ltac order_cases :=
  repeat match goal with
  | |- context [ (?a ?= ?b)%Z ] => destruct (Z.compare_spec a b)
  | s : bool |- _ => destruct s
  end.

Lemma ltb_key (a b : number) :
  is_NaN a = false -> is_NaN b = false ->
  SFltb a b = true <-> lex_lt (key a) (key b).
Proof.
  intros Ha Hb. unfold SFltb.
  destruct a as [sa|sa| |sa ma ea], b as [sb|sb| |sb mb eb];
    try discriminate; cbn -[Z.compare Z.lt];
    rewrite ?compare_cont_Eq; order_cases; cbn;
    split; intros Hx; try discriminate; try reflexivity; try lia.
Qed.

Lemma leb_key (a b : number) :
  is_NaN a = false -> is_NaN b = false ->
  SFleb a b = true <-> lex_lt (key a) (key b) \/ key a = key b.
Proof.
  intros Ha Hb. unfold SFleb.
  destruct a as [sa|sa| |sa ma ea], b as [sb|sb| |sb mb eb];
    try discriminate; cbn -[Z.compare Z.lt];
    rewrite ?compare_cont_Eq; order_cases; cbn;
    split; intros Hx; try discriminate; try reflexivity;
    try (left; lia); try (right; f_equal; try f_equal; lia);
    try (destruct Hx as [Hx|Hx]; [lia | inversion Hx; lia]).
Qed.

(** A comparison that holds has two numbers as its sides. *)
Lemma leb_numbers (a b : number) :
  SFleb a b = true -> is_NaN a = false /\ is_NaN b = false.
Proof. destruct a, b; cbn; intros; try discriminate; auto. Qed.

Lemma ltb_numbers (a b : number) :
  SFltb a b = true -> is_NaN a = false /\ is_NaN b = false.
Proof. destruct a, b; cbn; intros; try discriminate; auto. Qed.

Ltac to_keys :=
  repeat match goal with
  | H : SFleb ?a ?b = true |- _ =>
      let Ha := fresh in let Hb := fresh in
      destruct (leb_numbers a b H) as [Ha Hb];
      apply (leb_key a b Ha Hb) in H
  | H : SFltb ?a ?b = true |- _ =>
      let Ha := fresh in let Hb := fresh in
      destruct (ltb_numbers a b H) as [Ha Hb];
      apply (ltb_key a b Ha Hb) in H
  end.

Ltac lex_solve :=
  unfold lex_lt in *;
  repeat match goal with
  | x : number |- _ =>
      let k1 := fresh "k" in let k2 := fresh "k" in let k3 := fresh "k" in
      destruct (key x) as [[k1 k2] k3]; clear x
  end;
  repeat match goal with
  | H : (_, _, _) = (_, _, _) |- _ => inversion H; clear H; subst
  | H : (_, _) = (_, _) |- _ => inversion H; clear H; subst
  end;
  first [ lia | left; lia | right; f_equal; try f_equal; lia ].

(** [<=] is transitive, and [<] refuses [>=]. *)
Lemma leb_trans (a b c : number) :
  SFleb a b = true -> SFleb b c = true -> SFleb a c = true.
Proof.
  intros Hab Hbc. to_keys. apply leb_key; auto.
  destruct Hab as [Hab|Hab], Hbc as [Hbc|Hbc]; try rewrite Hab in *;
    try rewrite <- Hbc in *; auto.
  left. clear -Hab Hbc. unfold lex_lt in *.
  destruct (key a) as [[a1 a2] a3], (key b) as [[b1 b2] b3],
           (key c) as [[c1 c2] c3]. lia.
Qed.

Lemma ltb_leb_false (a b : number) : SFltb a b = true -> SFleb b a = false.
Proof.
  intros Hab. destruct (SFleb b a) eqn:Hba; [|reflexivity]. exfalso.
  to_keys. unfold lex_lt in *.
  destruct (key a) as [[a1 a2] a3], (key b) as [[b1 b2] b3].
  destruct Hba as [Hba|Hba]; [lia | inversion Hba; lia].
Qed.

(** On numbers the order is total. *)
Lemma ltb_false_leb (a b : number) :
  is_NaN a = false -> is_NaN b = false ->
  SFltb a b = false -> SFleb b a = true.
Proof.
  intros Ha Hb Hab. apply leb_key; auto.
  assert (lex_lt (key b) (key a) \/ key b = key a \/ lex_lt (key a) (key b))
    as [H|[H|H]]; auto.
  - unfold lex_lt. destruct (key a) as [[a1 a2] a3], (key b) as [[b1 b2] b3].
    destruct (Z.lt_trichotomy a1 b1) as [?|[?|?]];
      destruct (Z.lt_trichotomy a2 b2) as [?|[?|?]];
      destruct (Z.lt_trichotomy a3 b3) as [?|[?|?]]; subst;
      first [ left; lia | right; right; lia | right; left; reflexivity ].
  - apply ltb_key in H; auto. congruence.
Qed.

Lemma leb_refl (a : number) : is_NaN a = false -> SFleb a a = true.
Proof. intros Ha. apply leb_key; auto. Qed.

(** The only number ranked with [-Infinity] is [-Infinity]. *)
Lemma key_minus_infinity (x : number) :
  key x = key (S754_infinity true) -> x = S754_infinity true.
Proof.
  destruct x as [s|s| |s m e]; try destruct s; cbn; intros H;
    try discriminate; try reflexivity.
Qed.

End NumberOrder.

(** ** [Math.max] *)

Module MaxProps.

Import JS NumberOrder.

Lemma ltb_leb (a b : number) : SFltb a b = true -> SFleb a b = true.
Proof.
  intros H. destruct (ltb_numbers a b H) as [Ha Hb].
  apply leb_key; auto. left. apply ltb_key; auto.
Qed.

Lemma minus_zero_leb_plus_zero (x h : number) :
  is_plus_zero x && is_minus_zero h = true -> SFleb h x = true.
Proof.
  destruct x as [[|]| | |], h as [[|]| | |]; cbn; intros; try discriminate; reflexivity.
Qed.

(** Starting from a number [h] and running over numbers, the loop of
    [Math.max] ends on [h] or on one of the arguments, and the value it
    ends on is at least [h] and at least every argument. *)
Lemma max_from_spec (xs : list number) :
  forall h : number,
    is_NaN h = false ->
    Forall (fun x => is_NaN x = false) xs ->
    (max_from h xs = h \/ In (max_from h xs) xs) /\
    SFleb h (max_from h xs) = true /\
    Forall (fun x => SFleb x (max_from h xs) = true) xs.
Proof.
  induction xs as [|x rest IH]; intros h Hh Hxs; cbn [max_from].
  - split; [|split]; auto using leb_refl.
  - inversion Hxs as [|? ? Hx Hrest]; subst. rewrite Hx.
    destruct (is_plus_zero x && is_minus_zero h) eqn:Hz.
    + destruct (IH x Hx Hrest) as (Hin & Hle & Hall).
      split; [|split].
      * right. destruct Hin as [-> | Hin]; [left; reflexivity | right; exact Hin].
      * eapply leb_trans; [apply minus_zero_leb_plus_zero; exact Hz | exact Hle].
      * constructor; assumption.
    + unfold gt. destruct (SFltb h x) eqn:Hlt.
      * destruct (IH x Hx Hrest) as (Hin & Hle & Hall).
        split; [|split].
        -- right. destruct Hin as [-> | Hin]; [left; reflexivity | right; exact Hin].
        -- eapply leb_trans; [apply ltb_leb; exact Hlt | exact Hle].
        -- constructor; assumption.
      * destruct (IH h Hh Hrest) as (Hin & Hle & Hall).
        split; [|split].
        -- destruct Hin as [Heq | Hin]; [left; exact Heq | right; right; exact Hin].
        -- exact Hle.
        -- constructor; [|assumption].
           apply (leb_trans x h); [apply ltb_false_leb; assumption | exact Hle].
Qed.

(** [Math.max] of a non-empty list of numbers is one of them and is at
    least each of them. *)
Lemma Math_max_spec (xs : list number) :
  xs <> [] ->
  Forall (fun x => is_NaN x = false) xs ->
  In (Math_max xs) xs /\ Forall (fun x => ge (Math_max xs) x = true) xs.
Proof.
  intros Hne Hxs. unfold Math_max, ge.
  destruct (max_from_spec xs (S754_infinity true) eq_refl Hxs) as (Hin & _ & Hall).
  split; [|exact Hall].
  destruct Hin as [Heq | Hin]; [|exact Hin].
  destruct xs as [|x rest]; [congruence|].
  inversion Hall as [|? ? Hx _]; subst. rewrite Heq in Hx.
  inversion Hxs as [|? ? Hnx _]; subst.
  apply leb_key in Hx; auto.
  assert (key x = key (S754_infinity true)) as Hk.
  { destruct Hx as [Hx | Hx]; [|exact Hx]. exfalso.
    destruct x as [[|]|[|]| |[|] m e]; cbn in Hx; try discriminate; lia. }
  apply key_minus_infinity in Hk. rewrite Heq, Hk. left. reflexivity.
Qed.

End MaxProps.

(** ** The verdict of [classifyImage] *)

Import JS Classification.

Lemma thresholds_ordered :
  SFleb lit_0_25 lit_0_65 = true /\ SFleb lit_0_65 lit_0_7 = true /\
  SFleb lit_0_7 lit_0_85 = true.
Proof. repeat split; reflexivity. Qed.

Lemma ge_high_ge_min (c : number) :
  ge c HIGH_CONFIDENCE_THRESHOLD = true -> ge c MIN_CONFIDENCE = true.
Proof.
  unfold ge. intros H.
  apply (NumberOrder.leb_trans _ HIGH_CONFIDENCE_THRESHOLD); [reflexivity | exact H].
Qed.

Lemma ge_min_ge_floor (c : number) :
  ge c MIN_CONFIDENCE = true -> ge c lit_0_25 = true.
Proof.
  unfold ge. intros H.
  apply (NumberOrder.leb_trans _ MIN_CONFIDENCE); [reflexivity | exact H].
Qed.

Lemma lt_not_ge (c t : number) : lt c t = true -> ge c t = false.
Proof. apply NumberOrder.ltb_leb_false. Qed.

Lemma wasteDetections_spec (dets : list detection) (d : detection) :
  In d (wasteDetections dets) <-> In d dets /\ det_class d = 1.
Proof.
  unfold wasteDetections. rewrite filter_In. rewrite Z.eqb_eq. reflexivity.
Qed.

(** The confidence of the verdict is [0] without waste detections, and
    otherwise the confidence of a waste detection that no other waste
    detection exceeds. *)
Lemma maxConfidence_spec (dets : list detection) :
  (wasteDetections dets = [] -> maxConfidence dets = lit_0) /\
  (wasteDetections dets <> [] ->
   Forall (fun d => is_NaN (det_confidence d) = false) (wasteDetections dets) ->
   (exists d, In d (wasteDetections dets) /\ maxConfidence dets = det_confidence d) /\
   Forall (fun d => ge (maxConfidence dets) (det_confidence d) = true)
          (wasteDetections dets)).
Proof.
  unfold maxConfidence. split.
  - intros ->. reflexivity.
  - destruct (wasteDetections dets) as [|w ws]; [congruence|].
    intros _ Hnum.
    destruct (MaxProps.Math_max_spec (List.map det_confidence (w :: ws))) as [Hin Hall].
    + discriminate.
    + apply List.Forall_forall. intros x Hx.
      apply in_map_iff in Hx as (d & <- & Hd).
      revert d Hd. apply List.Forall_forall. exact Hnum.
    + split.
      * apply in_map_iff in Hin as (d & Hd & Hin). eauto.
      * apply List.Forall_forall. intros d Hd.
        revert Hall. rewrite List.Forall_forall. intros Hall.
        apply Hall, in_map. exact Hd.
Qed.

(** C3. For a successful response in either accepted shape, the
    detections are those of [images[0].results] when that is there, and
    otherwise those of [predictions[0].detections]; a response with
    neither has no detections.  The verdict then has: confidence = the
    largest confidence among the detections of class 1 (0 when there is
    none); [isWaste] iff confidence >= 0.25; tier [unverified] below 0.65,
    [medium_confidence] in [0.65, 0.85), [high_confidence] from 0.85;
    [isHighConfidence] and [isVerifiedWaste] iff confidence >= 0.85, the
    latter implying [isWaste]. *)
Theorem classify_response_verdict (data : response_data) (dets : list detection) :
  (exists rest, images data = Some (ImageEntry (Some dets) :: rest)) \/
  ((images data = None \/ images data = Some [] \/
    exists rest, images data = Some (ImageEntry None :: rest)) /\
   ((exists rest, predictions data = Some (PredictionEntry (Some dets) :: rest)) \/
    ((predictions data = None \/ predictions data = Some [] \/
      exists rest, predictions data = Some (PredictionEntry None :: rest)) /\
     dets = []))) ->
  let r := classify_response data in
  let c := confidence r in
  let waste := wasteDetections dets in
  (forall d, In d waste <-> In d dets /\ det_class d = 1) /\
  (waste = [] -> c = lit_0) /\
  (waste <> [] ->
   Forall (fun d => is_NaN (det_confidence d) = false) waste ->
   (exists d, In d waste /\ c = det_confidence d) /\
   Forall (fun d => ge c (det_confidence d) = true) waste) /\
  (isWaste r = true <-> ge c lit_0_25 = true) /\
  (lt c lit_0_65 = true -> verification r = unverified) /\
  (ge c lit_0_65 = true -> lt c lit_0_85 = true ->
   verification r = medium_confidence) /\
  (ge c lit_0_85 = true -> verification r = high_confidence) /\
  (isHighConfidence r = true <-> ge c lit_0_85 = true) /\
  (isVerifiedWaste r = true <-> isWaste r = true /\ ge c lit_0_85 = true) /\
  (isVerifiedWaste r = true <-> ge c lit_0_85 = true).
Proof.
  intros Hshape r c waste.
  assert (extract_detections data = dets) as Hdets.
  { unfold extract_detections, images_0_results, predictions_0_detections.
    destruct Hshape as [[rest ->] | [Himages Hpredictions]]; [reflexivity|].
    assert (match images data with
            | Some (e :: _) => results e
            | _ => None
            end = None) as ->.
    { destruct Himages as [-> | [-> | [rest ->]]]; reflexivity. }
    destruct Hpredictions as [[rest ->] | [Hnone ->]]; [reflexivity|].
    destruct Hnone as [-> | [-> | [rest ->]]]; reflexivity. }
  subst r c waste. unfold classify_response. rewrite Hdets.
  destruct (maxConfidence_spec dets) as [Hnone Hsome].
  set (m := maxConfidence dets) in *.
  cbn [verdict confidence isWaste verification isHighConfidence isVerifiedWaste].
  change HIGH_CONFIDENCE_THRESHOLD with lit_0_85.
  change MIN_CONFIDENCE with lit_0_65.
  split; [apply wasteDetections_spec|].
  split; [exact Hnone|].
  split; [exact Hsome|].
  split; [reflexivity|].
  split.
  { intros Hlt. pose proof (lt_not_ge _ _ Hlt) as Hmin.
    destruct (ge m lit_0_25); [|reflexivity].
    destruct (ge m lit_0_85) eqn:Hhigh.
    - apply ge_high_ge_min in Hhigh. change MIN_CONFIDENCE with lit_0_65 in Hhigh.
      congruence.
    - rewrite Hmin. reflexivity. }
  split.
  { intros Hmin Hlt. rewrite (ge_min_ge_floor _ Hmin).
    rewrite (lt_not_ge _ _ Hlt), Hmin. reflexivity. }
  split.
  { intros Hhigh.
    rewrite (ge_min_ge_floor _ (ge_high_ge_min _ Hhigh)), Hhigh. reflexivity. }
  split; [reflexivity|].
  split.
  { rewrite andb_true_iff. reflexivity. }
  rewrite andb_true_iff. split; [tauto|].
  intros Hhigh. split; [|exact Hhigh].
  exact (ge_min_ge_floor _ (ge_high_ge_min _ Hhigh)).
Qed.

(** Witness of [classify_response_verdict], in both shapes: the sample
    answer under [predictions[0].detections], whose only detection is
    waste at 0.68, and the one under [images[0].results], whose largest
    waste confidence is 0.7 beside a detection of class 0 at 0.85. *)
Lemma classify_response_verdict_witness :
  (images Samples.data_0_68 = None /\
   predictions Samples.data_0_68
   = Some [PredictionEntry (Some [Detection 1 Samples.lit_0_68])] /\
   confidence (classify_response Samples.data_0_68) = Samples.lit_0_68 /\
   verification (classify_response Samples.data_0_68) = medium_confidence) /\
  (images Samples.data_0_7 = Some [ImageEntry (Some Samples.detections_0_7)] /\
   verification (classify_response Samples.data_0_7) = medium_confidence).
Proof.
  split.
  - pose proof (classify_response_verdict Samples.data_0_68
                  [Detection 1 Samples.lit_0_68]
                  (or_intror (conj (or_introl eq_refl)
                                   (or_introl (ex_intro _ [] eq_refl))))) as H.
    cbv zeta in H.
    destruct H as (_ & _ & Hmax & _ & _ & Hmedium & _).
    split; [reflexivity|]. split; [reflexivity|]. split.
    + destruct Hmax as [(d & Hd & Hc) _].
      * discriminate.
      * repeat constructor.
      * rewrite Hc. destruct Hd as [<- | []]. reflexivity.
    + apply Hmedium; reflexivity.
  - pose proof (classify_response_verdict Samples.data_0_7 Samples.detections_0_7
                  (or_introl (ex_intro _ [] eq_refl))) as H.
    cbv zeta in H.
    destruct H as (_ & _ & _ & _ & _ & Hmedium & _).
    split; [reflexivity|].
    apply Hmedium; reflexivity.
Defined.

(** A waste verdict can be [unverified]: at confidence 0.5 the image is
    flagged as waste and the tier stays [unverified]. *)
Example unverified_waste :
  isWaste (verdict Samples.lit_0_5) = true /\
  verification (verdict Samples.lit_0_5) = unverified.
Proof. split; reflexivity. Qed.

(** ** The admission gate of [POST /] *)

Import Routes.

(** C2. For a submission that is not bypassed and whose verdict is waste,
    the verification stage admits it iff the confidence is >= 0.7:
    exactly 0.7 is admitted, anything below fails with LOW_CONFIDENCE
    (status 400).  The gate is its own threshold: every confidence in
    [0.65, 0.7) is [medium_confidence] for the classifier and still
    refused. *)
Theorem admission_gate
        (img : string) (b : body) (env : post_env)
        (svc svc' : Classification.state) (c : result) :
  truthy (forceSubmit b) = false ->
  classifyImage img (fetch env) svc = (inr c, svc') ->
  isWaste c = true ->
  is_NaN (confidence c) = false ->
  (verify img b env svc = (inr (Some c), svc') <->
   ge (confidence c) lit_0_7 = true) /\
  (lt (confidence c) lit_0_7 = true ->
   verify img b env svc = (inl (LowConfidence c), svc') /\
   code (LowConfidence c) = "LOW_CONFIDENCE" /\ status (LowConfidence c) = 400) /\
  (confidence c = lit_0_7 -> verify img b env svc = (inr (Some c), svc')) /\
  (forall x : number,
      ge x MIN_CONFIDENCE = true -> lt x lit_0_7 = true ->
      verification (verdict x) = medium_confidence /\
      isWaste (verdict x) = true /\
      (confidence c = x -> verify img b env svc = (inl (LowConfidence c), svc'))).
Proof.
  intros Hforce Hcall Hwaste Hnum.
  assert (verify img b env svc =
          if lt (confidence c) lit_0_7 then (inl (LowConfidence c), svc')
          else (inr (Some c), svc')) as Hverify.
  { unfold verify. rewrite Hforce, Hcall, Hwaste. reflexivity. }
  split; [|split; [|split]].
  - rewrite Hverify. destruct (lt (confidence c) lit_0_7) eqn:Hlt; cbv iota.
    + rewrite (lt_not_ge _ _ Hlt). split; intros H; discriminate H.
    + split; [|reflexivity]. intros _.
      apply NumberOrder.ltb_false_leb; auto.
  - intros Hlt. rewrite Hverify, Hlt. auto.
  - intros Heq. rewrite Hverify, Heq. reflexivity.
  - intros x Hmin Hlt. split; [|split].
    + unfold verdict. cbn [verification].
      rewrite (ge_min_ge_floor _ Hmin), Hmin.
      destruct (ge x HIGH_CONFIDENCE_THRESHOLD) eqn:Hhigh; [|reflexivity].
      exfalso. apply lt_not_ge in Hlt.
      assert (ge x lit_0_7 = true); [|congruence].
      unfold ge in *. apply (NumberOrder.leb_trans _ HIGH_CONFIDENCE_THRESHOLD);
        [reflexivity | exact Hhigh].
    + exact (ge_min_ge_floor _ Hmin).
    + intros Heq. rewrite Hverify, Heq, Hlt. reflexivity.
Qed.

(** Witness of [admission_gate]: the image ["AAAA"], classified at 0.9 on
    an empty cache, is admitted. *)
Lemma admission_gate_witness :
  truthy (forceSubmit Samples.request) = false /\
  isWaste (classify_response Samples.data_0_9) = true /\
  fst (verify "AAAA" Samples.request Samples.env_ok initial)
  = inr (Some (classify_response Samples.data_0_9)).
Proof.
  pose proof (admission_gate "AAAA" Samples.request Samples.env_ok initial
                (snd (classifyImage "AAAA" (fetch Samples.env_ok) initial))
                (classify_response Samples.data_0_9)
                eq_refl ltac:(vm_compute; reflexivity) eq_refl eq_refl) as (Hiff & _).
  split; [reflexivity|]. split; [reflexivity|].
  rewrite (proj2 Hiff); reflexivity.
Defined.

(** The gate at its boundary: 0.7 is admitted, the largest number below
    0.7 and the tier boundary 0.65 are refused. *)
Example gate_boundary :
  lt lit_0_7 ADMISSION_CONFIDENCE = false /\
  lt (SFpred 53 1024 lit_0_7) ADMISSION_CONFIDENCE = true /\
  lt MIN_CONFIDENCE ADMISSION_CONFIDENCE = true /\
  verification (verdict Samples.lit_0_68) = medium_confidence /\
  lt Samples.lit_0_68 ADMISSION_CONFIDENCE = true.
Proof. vm_compute. repeat split; reflexivity. Qed.

(** ** The cache of [classifyImage] *)

Module CacheProps.

Import Classification.

Lemma CACHE_TTL_pos : 0 < CACHE_TTL.
Proof. reflexivity. Qed.

(** Timers only delete: an absent key stays absent. *)
Lemma fire_absent (t : Z) (h : string) (tms : list (Z * string)) :
  forall cache : gmap string result,
    cache !! h = None -> fold_left (fire t) tms cache !! h = None.
Proof.
  induction tms as [|[d k] tms IH]; intros cache Hc; cbn [fold_left]; [exact Hc|].
  apply IH. unfold fire; cbn [fst snd].
  destruct (d <=? t); [|exact Hc].
  destruct (decide (k = h)) as [->|Hne].
  - apply lookup_delete_eq.
  - rewrite lookup_delete_ne; auto.
Qed.

(** A key whose timers are all due later than [t] is not touched. *)
Lemma fire_later (t : Z) (h : string) (tms : list (Z * string)) :
  forall cache : gmap string result,
    (forall d, In (d, h) tms -> t < d) ->
    fold_left (fire t) tms cache !! h = cache !! h.
Proof.
  induction tms as [|[d k] tms IH]; intros cache Hlater; cbn [fold_left]; [reflexivity|].
  rewrite IH by (intros d' Hd'; apply Hlater; right; exact Hd').
  unfold fire; cbn [fst snd].
  destruct (d <=? t) eqn:Hdue; [|reflexivity].
  destruct (decide (k = h)) as [->|Hne].
  - apply Z.leb_le in Hdue. specialize (Hlater d (or_introl eq_refl)). lia.
  - apply lookup_delete_ne. exact Hne.
Qed.

(** A key with a timer due by [t] is gone. *)
Lemma fire_due (t : Z) (h : string) (d : Z) (tms : list (Z * string)) :
  forall cache : gmap string result,
    In (d, h) tms -> d <= t -> fold_left (fire t) tms cache !! h = None.
Proof.
  induction tms as [|[d' k] tms IH]; intros cache Hin Hdue; [destruct Hin|].
  cbn [fold_left]. destruct Hin as [Heq | Hin].
  - inversion Heq; subst. apply fire_absent.
    unfold fire; cbn [fst snd].
    apply Z.leb_le in Hdue. rewrite Hdue. apply lookup_delete_eq.
  - apply IH; assumption.
Qed.

(** Storing a verdict while the fingerprint is quiet makes the entry live
    for [CACHE_TTL] ms. *)
Lemma store_live (s : state) (id : nat) (img : string) (v : result) :
  quiet (fingerprint img) id s ->
  live (fingerprint img) v (clock s + CACHE_TTL) (store img v (resume id s)).
Proof.
  intros [Htimers Hpending]. unfold live, store, resume; cbn.
  split; [apply lookup_insert_eq|].
  split; [apply in_or_app; right; left; reflexivity|].
  split.
  { intros d Hd. apply in_app_or in Hd as [Hd | [Hd | []]].
    - destruct (Htimers d Hd).
    - inversion Hd. lia. }
  split; [|pose proof CACHE_TTL_pos; lia].
  intros id' img' Hlook.
  destruct (decide (id' = id)) as [->|Hne].
  - rewrite lookup_delete_eq in Hlook. discriminate.
  - rewrite lookup_delete_ne in Hlook by auto. exact (Hpending _ _ Hlook Hne).
Qed.

(** A call for a live fingerprint is answered from the cache and leaves
    the module as it was. *)
Lemma live_hit (h : string) (v : result) (x : Z) (s : state) (id : nat) (img : string) :
  live h v x s -> fingerprint img = h -> classify_begin id img s = (Some v, s).
Proof.
  intros (Hc & _) Hfp. unfold classify_begin, lookup. rewrite Hfp, Hc. reflexivity.
Qed.

(** Nothing that happens before the expiry ends the life of the entry. *)
Lemma live_step (h : string) (v : result) (x : Z) (s : state) (e : event) :
  live h v x s -> before x e -> live h v x (step s e).
Proof.
  intros Hlive Hbefore. pose proof Hlive as (Hc & Hin & Hmin & Hpend & Hclock).
  destruct e as [id img | id out | t]; cbn [step].
  - (* a call begins *)
    unfold classify_begin, lookup.
    destruct (decide (fingerprint img = h)) as [Hfp | Hfp].
    + rewrite Hfp, Hc. exact Hlive.
    + destruct (imageCache s !! fingerprint img); [exact Hlive|].
      unfold live; cbn. repeat (split; [assumption|]). split; [|assumption].
      intros id' img' Hlook.
      destruct (decide (id = id')) as [->|Hne].
      * rewrite lookup_insert_eq in Hlook. inversion Hlook; subst. exact Hfp.
      * rewrite lookup_insert_ne in Hlook by auto. exact (Hpend _ _ Hlook).
  - (* a pending call settles *)
    unfold classify_settle.
    destruct (pending s !! id) as [img|] eqn:Hid; [|exact Hlive].
    pose proof (Hpend id img Hid) as Hfp.
    assert (forall id' img', delete id (pending s) !! id' = Some img' ->
                             fingerprint img' <> h) as Hpend'.
    { intros id' img' Hlook. destruct (decide (id' = id)) as [->|Hne].
      - rewrite lookup_delete_eq in Hlook. discriminate.
      - rewrite lookup_delete_ne in Hlook by auto. exact (Hpend _ _ Hlook). }
    unfold finish. destruct (settle out) as [err | r]; cbn [snd].
    + unfold live, resume; cbn. auto.
    + unfold live, store, resume; cbn.
      split; [rewrite lookup_insert_ne; auto|].
      split; [apply in_or_app; left; exact Hin|].
      split; [|auto].
      intros d Hd. apply in_app_or in Hd as [Hd | [Hd | []]]; [auto|].
      inversion Hd as [[Hd1 Hd2]]. destruct (Hfp Hd2).
  - (* the clock advances *)
    cbn [before] in Hbefore. unfold advance.
    destruct (clock s <=? t); [|exact Hlive].
    unfold live; cbn.
    split.
    { rewrite fire_later; [exact Hc|].
      intros d Hd. specialize (Hmin d Hd). lia. }
    split.
    { apply filter_In. split; [exact Hin|]. cbn.
      apply negb_true_iff, Z.leb_gt. lia. }
    split.
    { intros d Hd. apply filter_In in Hd as [Hd _]. auto. }
    split; assumption.
Qed.

Lemma live_run (h : string) (v : result) (x : Z) (es : list event) :
  forall s : state, live h v x s -> Forall (before x) es -> live h v x (run es s).
Proof.
  induction es as [|e es IH]; intros s Hlive Hes; [exact Hlive|].
  inversion Hes; subst. cbn [run fold_left].
  apply IH; [apply live_step|]; assumption.
Qed.

(** Once the clock reaches the expiry the entry is removed. *)
Lemma live_expires (h : string) (v : result) (x t : Z) (s : state) :
  live h v x s -> x <= t -> imageCache (advance t s) !! h = None.
Proof.
  intros (_ & Hin & _ & _ & Hclock) Hxt. unfold advance.
  assert ((clock s <=? t) = true) as -> by (apply Z.leb_le; lia).
  cbn. apply (fire_due t h x); assumption.
Qed.

End CacheProps.

(** C6 (as amended). When a call stores its verdict while no earlier
    expiry timer for the fingerprint is pending and no other call for it is
    in flight, the verdict is in the cache before it is returned; every
    call for the same image that starts less than 300000 ms after the
    store, whatever else happens in between, returns that same verdict
    and sends nothing to the detector; and once the clock has reached
    store time + 300000 ms the entry is gone and the next call sends a
    fresh request. *)
Theorem cache_entry_lifetime
        (s : state) (id : nat) (img : string) (data : response_data) :
  pending s !! id = Some img ->
  quiet (fingerprint img) id s ->
  let v := classify_response data in
  let s1 := snd (classify_settle id (FetchJson data) s) in
  let expiry := clock s + CACHE_TTL in
  fst (classify_settle id (FetchJson data) s) = Some (inr v) /\
  imageCache s1 !! fingerprint img = Some v /\
  (forall (es : list event) (id' : nat),
      Forall (before expiry) es ->
      classify_begin id' img (run es s1) = (Some v, run es s1)) /\
  (forall (es : list event) (t : Z) (id' : nat),
      Forall (before expiry) es ->
      expiry <= t ->
      let s2 := advance t (run es s1) in
      imageCache s2 !! fingerprint img = None /\
      fst (classify_begin id' img s2) = None /\
      fetches (snd (classify_begin id' img s2)) = (fetches s2 ++ [img])%list).
Proof.
  intros Hid Hquiet v s1 expiry.
  assert (classify_settle id (FetchJson data) s
          = (Some (inr v), store img v (resume id s))) as Hsettle.
  { unfold classify_settle. rewrite Hid. reflexivity. }
  assert (live (fingerprint img) v expiry s1) as Hlive.
  { subst s1. rewrite Hsettle. apply CacheProps.store_live. exact Hquiet. }
  split; [rewrite Hsettle; reflexivity|].
  split; [apply Hlive|].
  split.
  - intros es id' Hes.
    apply (CacheProps.live_hit (fingerprint img) v expiry); [|reflexivity].
    apply CacheProps.live_run; assumption.
  - intros es t id' Hes Ht s2.
    assert (imageCache s2 !! fingerprint img = None) as Hgone.
    { apply (CacheProps.live_expires _ v expiry); [|exact Ht].
      apply CacheProps.live_run; assumption. }
    split; [exact Hgone|].
    unfold classify_begin, lookup. rewrite Hgone. split; reflexivity.
Qed.

(** The first call on a fresh module misses, and finds the fingerprint
    quiet. *)
Lemma first_call_pending (id : nat) (img : string) :
  classify_begin id img initial = (None, suspend id img (send img initial)).
Proof.
  unfold classify_begin, lookup. cbn [imageCache initial].
  rewrite lookup_empty. reflexivity.
Qed.

Lemma first_call_quiet (id : nat) (img : string) :
  quiet (fingerprint img) id (snd (classify_begin id img initial)).
Proof.
  rewrite first_call_pending. cbn [snd]. split.
  - intros d Hd. exact Hd.
  - cbn [pending suspend send initial]. intros id' img' Hlook Hne.
    rewrite lookup_insert_ne in Hlook by (intros E; apply Hne; symmetry; exact E).
    rewrite lookup_empty in Hlook. discriminate Hlook.
Qed.

(** Witness of [cache_entry_lifetime]: on a fresh module, the call for
    ["AAAA"] that has just been sent; a second call 299999 ms after the
    store is answered from the cache. *)
Lemma cache_entry_lifetime_witness :
  let s := snd (classify_begin 1 "AAAA" initial) in
  pending s !! 1%nat = Some "AAAA" /\
  quiet (fingerprint "AAAA") 1 s /\
  classify_begin 2 "AAAA"
    (run [Advance 299999] (snd (classify_settle 1 (FetchJson Samples.data_0_9) s)))
  = (Some (classify_response Samples.data_0_9),
     run [Advance 299999] (snd (classify_settle 1 (FetchJson Samples.data_0_9) s))).
Proof.
  intros s.
  assert (pending s !! 1%nat = Some "AAAA") as Hid by (vm_compute; reflexivity).
  pose proof (first_call_quiet 1 "AAAA") as Hquiet. fold s in Hquiet.
  split; [exact Hid|]. split; [exact Hquiet|].
  pose proof (cache_entry_lifetime s 1 "AAAA" Samples.data_0_9 Hid Hquiet) as H.
  cbv zeta in H.
  destruct H as (_ & _ & Hhit & _).
  refine (Hhit [Advance 299999] 2%nat _).
  constructor; [|constructor].
  cbn [before]. vm_compute. reflexivity.
Defined.

(** C6, counterexample. After [Samples.overlapping_calls] the third call
    has stored its verdict at 300007 ms.  At 300011 ms, four ms later,
    the timer left by the second call has removed that entry: a fourth
    call for the same image misses the cache and is sent to the detector. *)
Lemma stale_timer_evicts_fresh_entry :
  let stored := run Samples.overlapping_calls initial in
  imageCache stored !! fingerprint "AAAA" = Some (classify_response Samples.data_0_9) /\
  clock stored = 300007 /\
  300011 < clock stored + CACHE_TTL /\
  let s := advance 300011 stored in
  fst (classify_begin 4 "AAAA" s) = None /\
  fetches (snd (classify_begin 4 "AAAA" s)) = ["AAAA"; "AAAA"; "AAAA"; "AAAA"].
Proof. vm_compute. repeat split; reflexivity. Qed.

(** Every rejection of [classifyImage] carries one of the three service
    messages. *)
Lemma rethrow_cases (name message : string) :
  rethrow name message = "SERVICE_TIMEOUT" \/
  rethrow name message = "SERVICE_DOWN" \/
  rethrow name message = "SERVICE_ERROR: " +:+ message.
Proof.
  unfold rethrow. destruct (String.eqb name "AbortError"); [auto|].
  destruct (includes message "ECONNREFUSED" || includes message "ENOTFOUND"); auto.
Qed.

(** C10. A call of [classifyImage] that fails (timeout, connection
    failure, upstream error) rejects with a service message and inserts
    nothing: cache and timers are as before, also when the call was cut at
    its [await]; the next call for the same image sends a fresh request
    and gets that request's own outcome. *)
Theorem failed_call_leaves_cache
        (s : state) (img : string) (out : fetch_outcome) (e : string) :
  fst (classifyImage img out s) = inl e ->
  let s' := snd (classifyImage img out s) in
  (e = "SERVICE_TIMEOUT" \/ e = "SERVICE_DOWN" \/
   exists message, e = "SERVICE_ERROR: " +:+ message) /\
  imageCache s' = imageCache s /\
  timers s' = timers s /\
  lookup img s' = None /\
  (forall id, imageCache (snd (classify_settle id out s)) = imageCache s /\
              timers (snd (classify_settle id out s)) = timers s) /\
  (forall out',
      fst (classifyImage img out' s') = settle out' /\
      fetches (snd (classifyImage img out' s')) = (fetches s ++ [img; img])%list).
Proof.
  unfold classifyImage, finish.
  destruct (lookup img s) as [r|] eqn:Hmiss; [discriminate|].
  destruct (settle out) as [err|r] eqn:Hout; [|discriminate].
  cbn [fst snd]. intros [= ->].
  assert (lookup img (send img s) = None) as Hmiss' by exact Hmiss.
  split.
  { destruct out as [name message | st text | data]; cbn in Hout;
      [| |discriminate]; injection Hout as <-.
    - destruct (rethrow_cases name message) as [H|[H|H]]; eauto.
    - destruct (rethrow_cases "Error" (api_error_message st text)) as [H|[H|H]]; eauto. }
  split; [reflexivity|]. split; [reflexivity|]. split; [exact Hmiss'|].
  split.
  { intros id. unfold classify_settle, finish.
    destruct (pending s !! id); [|split; reflexivity].
    rewrite Hout. split; reflexivity. }
  intros out'. rewrite Hmiss'.
  destruct (settle out') as [err'|r']; cbn; rewrite <- app_assoc; split; reflexivity.
Qed.

(** Witness of [failed_call_leaves_cache]: the 30 s timer aborts the
    request for ["AAAA"]. *)
Lemma failed_call_leaves_cache_witness :
  fst (classifyImage "AAAA" (FetchThrew "AbortError" "The operation was aborted.") initial)
  = inl "SERVICE_TIMEOUT" /\
  lookup "AAAA"
    (snd (classifyImage "AAAA" (FetchThrew "AbortError" "The operation was aborted.") initial))
  = None.
Proof.
  assert (fst (classifyImage "AAAA" (FetchThrew "AbortError" "The operation was aborted.")
                             initial) = inl "SERVICE_TIMEOUT") as H
      by (vm_compute; reflexivity).
  split; [exact H|].
  exact (proj1 (proj2 (proj2 (proj2 (failed_call_leaves_cache _ _ _ _ H))))).
Defined.

(** How the three kinds of failure are told apart. *)
Example failure_messages :
  settle (FetchThrew "AbortError" "The operation was aborted.") = inl "SERVICE_TIMEOUT" /\
  settle (FetchThrew "FetchError" "connect ECONNREFUSED 10.0.0.1:443") = inl "SERVICE_DOWN" /\
  settle (FetchThrew "FetchError" "getaddrinfo ENOTFOUND predict.ultralytics.com")
  = inl "SERVICE_DOWN" /\
  settle (FetchNotOk 500 "boom") = inl "SERVICE_ERROR: API_ERROR: 500 - boom".
Proof. vm_compute. repeat split; reflexivity. Qed.

(** ** The fingerprint *)

Lemma le_bytes_length (n : nat) (x : Z) : length (MD5.le_bytes n x) = n.
Proof. unfold MD5.le_bytes. rewrite length_map, length_seq. reflexivity. Qed.

Lemma hex_length (bytes : list Z) :
  String.length (MD5.hex bytes) = (2 * length bytes)%nat.
Proof.
  induction bytes as [|b rest IH]; [reflexivity|].
  cbn [MD5.hex String.length length]. rewrite IH. lia.
Qed.

(** The digest is 128 bits, printed as 32 hexadecimal digits. *)
Lemma md5_hex_length (s : string) : String.length (MD5.md5_hex s) = 32%nat.
Proof.
  unfold MD5.md5_hex, MD5.digest. rewrite hex_length.
  rewrite !length_app, !le_bytes_length. reflexivity.
Qed.

(** The digests of RFC 1321 for the empty string and for "abc". *)
Example md5_test_suite :
  MD5.md5_hex "" = "d41d8cd98f00b204e9800998ecf8427e" /\
  MD5.md5_hex "abc" = "900150983cd24fb0d6963f7d28e17f72" /\
  MD5.md5_hex "message digest" = "f96b697d7cb7938d525a2f31aaf161d0".
Proof. vm_compute. repeat split; reflexivity. Qed.

(** A stripped prefix was there. *)
Lemma strip_app (p s r : string) : strip p s = Some r -> s = p +:+ r.
Proof.
  revert s. induction p as [|a p IH]; intros s; cbn [strip].
  - intros [= ->]. reflexivity.
  - destruct s as [|c s]; [discriminate|].
    destruct (Ascii.eqb a c) eqn:Hac; [|discriminate].
    apply Ascii.eqb_eq in Hac. subst c. intros H. apply IH in H. subst s. reflexivity.
Qed.

(** A text with a data-URL prefix is not a base64 body: it has a [':']. *)
Lemma data_url_not_base64 (s r : string) :
  match_data_url s = Some r -> base64_body s = false.
Proof.
  unfold match_data_url. destruct (strip "data:image/" s) as [r1|] eqn:Hs; [|discriminate].
  intros _. apply strip_app in Hs. subst s. reflexivity.
Qed.

(** A run of word characters before a [';'] is what [\w+] matches. *)
Lemma skip_word_run (kind rest : string) :
  all_chars is_word_char kind = true ->
  skip_word (kind +:+ String ";"%char rest) = (String.length kind, String ";"%char rest).
Proof.
  induction kind as [|c kind IH]; [reflexivity|].
  cbn [all_chars]. intros H. apply andb_true_iff in H as [Hc Hkind].
  change (String c kind +:+ String ";"%char rest)
    with (String c (kind +:+ String ";"%char rest)).
  cbn [skip_word String.length]. rewrite Hc, (IH Hkind). reflexivity.
Qed.

(** Stripping takes a data-URL prefix off a base64 body, and leaves the
    bare body as it is. *)
Lemma strip_data_url_prefixed (kind body : string) :
  kind <> "" -> all_chars is_word_char kind = true ->
  strip_data_url ("data:image/" +:+ kind +:+ ";base64," +:+ body) = body.
Proof.
  intros Hne Hkind. unfold strip_data_url, match_data_url.
  change (strip "data:image/" ("data:image/" +:+ kind +:+ ";base64," +:+ body))
    with (Some (kind +:+ String ";"%char ("base64," +:+ body))).
  cbv beta iota. rewrite (skip_word_run _ _ Hkind).
  destruct kind as [|c kind]; [congruence|]. reflexivity.
Qed.

Lemma strip_data_url_body (body : string) :
  base64_body body = true -> strip_data_url body = body.
Proof.
  intros Hbody. unfold strip_data_url.
  destruct (match_data_url body) as [r|] eqn:Hm; [|reflexivity].
  apply data_url_not_base64 in Hm. congruence.
Qed.

(** C7 (as amended). The cache key is the MD5 digest, 32 hexadecimal
    digits, of the image text exactly as submitted (a data-URL prefix
    included, nothing decoded): after a verdict is stored for a text, a
    lookup hits it exactly when the looked-up text has the same digest, in
    particular for the same text, and any other lookup is unaffected.  For
    a base64 body and the same body behind a data-URL prefix the text sent
    to the detector is the same, the body, while each of the two texts is
    looked up under its own digest: after the verdict of the body is
    stored, the prefixed text finds it only if the two digests are the
    same. *)
Theorem fingerprint_of_submitted_text (img : string) (r : result) (s : state) :
  fingerprint img = MD5.md5_hex img /\
  String.length (fingerprint img) = 32%nat /\
  lookup img (store img r s) = Some r /\
  (forall img',
      (MD5.md5_hex img' = MD5.md5_hex img -> lookup img' (store img r s) = Some r) /\
      (MD5.md5_hex img' <> MD5.md5_hex img ->
       lookup img' (store img r s) = lookup img' s)) /\
  (forall kind,
      kind <> "" -> all_chars is_word_char kind = true -> base64_body img = true ->
      let prefixed := "data:image/" +:+ kind +:+ ";base64," +:+ img in
      rawBase64 prefixed = img /\ rawBase64 img = img /\
      fingerprint prefixed = MD5.md5_hex prefixed /\
      (lookup prefixed s = None ->
       (lookup prefixed (store img r s) = Some r <->
        MD5.md5_hex prefixed = MD5.md5_hex img))).
Proof.
  split; [reflexivity|]. split; [apply md5_hex_length|].
  assert (forall img',
             (MD5.md5_hex img' = MD5.md5_hex img -> lookup img' (store img r s) = Some r) /\
             (MD5.md5_hex img' <> MD5.md5_hex img ->
              lookup img' (store img r s) = lookup img' s)) as Hkey.
  { unfold lookup, store, fingerprint; cbn [imageCache].
    intros img'. split.
    - intros ->. apply lookup_insert_eq.
    - intros Hne. apply lookup_insert_ne. auto. }
  split; [apply Hkey; reflexivity|]. split; [exact Hkey|].
  intros kind Hne Hkind Hbody prefixed.
  split; [apply strip_data_url_prefixed; assumption|].
  split; [apply strip_data_url_body; exact Hbody|].
  split; [reflexivity|].
  intros Hmiss. destruct (Hkey prefixed) as [Hsame Hother]. split; [|exact Hsame].
  intros Hhit.
  destruct (string_dec (MD5.md5_hex prefixed) (MD5.md5_hex img)) as [Heq | Hdiff];
    [exact Heq|].
  rewrite (Hother Hdiff), Hmiss in Hhit. discriminate Hhit.
Qed.

(** C7, counterexample. The base64 body ["AAAA"] with and without a
    data-URL prefix decodes to the same bytes, and the two submissions
    have different fingerprints: the verdict stored for one is not found
    for the other. *)
Lemma prefix_changes_fingerprint :
  strip_data_url "data:image/png;base64,AAAA" = strip_data_url "AAAA" /\
  fingerprint "data:image/png;base64,AAAA" <> fingerprint "AAAA" /\
  lookup "data:image/png;base64,AAAA"
         (store "AAAA" (classify_response Samples.data_0_9) initial) = None.
Proof.
  split; [reflexivity|]. split.
  - vm_compute. discriminate.
  - vm_compute. reflexivity.
Qed.

(** ** [new Report(obj)] and [save] *)

Module SchemaProps.

Import ReportModel.

(** [set_path] sets the path to its value, when it has one, and records a
    cast error exactly when a supplied value cannot be cast. *)
Lemma set_path_fields ts (now : Z) (obj : list (string * value)) (d : draft) (p : path) :
  fields (set_path ts now obj d p) =
  match path_value ts now obj p with
  | Some v => <[path_name p := v]> (fields d)
  | None => fields d
  end.
Proof.
  unfold set_path, path_value.
  destruct (get obj (path_name p)); try (destruct (default_value now (default p)); reflexivity);
    match goal with |- context [cast ts p ?v] => destruct (cast ts p v); reflexivity end.
Qed.

Lemma set_path_keeps_errors ts (now : Z) (obj : list (string * value)) (d : draft) (p : path) :
  cast_errors d <> [] -> cast_errors (set_path ts now obj d p) <> [].
Proof.
  intros Hd. unfold set_path.
  destruct (get obj (path_name p));
    try (destruct (default_value now (default p)); exact Hd);
    destruct (cast _ _); cbn [cast_errors]; try exact Hd;
    (destruct (cast_errors d); [congruence | discriminate]).
Qed.

Lemma set_path_cast_error ts (now : Z) (obj : list (string * value)) (d : draft) (p : path) :
  truthy (get obj (path_name p)) = true ->
  cast ts p (get obj (path_name p)) = None ->
  cast_errors (set_path ts now obj d p) <> [].
Proof.
  unfold set_path.
  destruct (get obj (path_name p)); intros Htruthy Hcast;
    try discriminate Htruthy; rewrite Hcast; cbn [cast_errors];
    destruct (cast_errors d); discriminate.
Qed.

(** A name that is no path of the list is left as it was. *)
Lemma set_paths_other ts (now : Z) (obj : list (string * value)) (k : string) (ps : list path) :
  forall d : draft,
    Forall (fun p => path_name p <> k) ps ->
    fields (fold_left (set_path ts now obj) ps d) !! k = fields d !! k.
Proof.
  induction ps as [|p ps IH]; intros d Hps; [reflexivity|].
  inversion Hps as [|? ? Hp Hrest]; subst. cbn [fold_left].
  rewrite IH by exact Hrest. rewrite set_path_fields.
  destruct (path_value ts now obj p); [|reflexivity].
  apply lookup_insert_ne. exact Hp.
Qed.

(** A path of a list without repeated names ends up holding its value. *)
Lemma set_paths_path ts (now : Z) (obj : list (string * value)) (p : path) (ps : list path) :
  forall d : draft,
    List.NoDup (List.map path_name ps) ->
    In p ps ->
    fields (fold_left (set_path ts now obj) ps d) !! path_name p =
    match path_value ts now obj p with
    | Some v => Some v
    | None => fields d !! path_name p
    end.
Proof.
  induction ps as [|q ps IH]; intros d Hnodup Hin; [destruct Hin|].
  cbn [List.map] in Hnodup. apply List.NoDup_cons_iff in Hnodup as [Hq Hnodup].
  cbn [fold_left]. destruct Hin as [-> | Hin].
  - rewrite set_paths_other.
    + rewrite set_path_fields. destruct (path_value ts now obj p); [|reflexivity].
      apply lookup_insert_eq.
    + apply List.Forall_forall. intros r Hr Heq. apply Hq.
      rewrite <- Heq. apply in_map. exact Hr.
  - rewrite (IH _ Hnodup Hin). destruct (path_value ts now obj p); [reflexivity|].
    rewrite set_path_fields. destruct (path_value ts now obj q); [|reflexivity].
    apply lookup_insert_ne. intros Heq. apply Hq.
    rewrite Heq. apply in_map. exact Hin.
Qed.

(** Cast errors accumulate. *)
Lemma set_paths_errors ts (now : Z) (obj : list (string * value)) (p : path) (ps : list path) :
  forall d : draft,
    In p ps ->
    truthy (get obj (path_name p)) = true ->
    cast ts p (get obj (path_name p)) = None ->
    cast_errors (fold_left (set_path ts now obj) ps d) <> [].
Proof.
  assert (forall qs d, cast_errors d <> [] ->
                       cast_errors (fold_left (set_path ts now obj) qs d) <> []) as Hkeep.
  { induction qs as [|q qs IHq]; intros d Hd; [exact Hd|].
    cbn [fold_left]. apply IHq, set_path_keeps_errors, Hd. }
  induction ps as [|q ps IH]; intros d Hin Htruthy Hcast; [destruct Hin|].
  cbn [fold_left]. destruct Hin as [-> | Hin].
  - apply Hkeep, set_path_cast_error; assumption.
  - apply IH; assumption.
Qed.

Lemma reportSchema_names_NoDup : List.NoDup (List.map path_name reportSchema).
Proof.
  apply NoDup_ListNoDup.
  apply (bool_decide_unpack _). vm_compute. reflexivity.
Qed.

End SchemaProps.

(** ** The stages of [POST /] *)

Module PostProps.

Import ReportModel.

(** Only the last stage answers 201. *)
Lemma validate_request_fails pf (b : body) (r : post_response) :
  validate_request pf b = inl r -> status r <> 201.
Proof.
  unfold validate_request, check_format.
  destruct (image b); try (intros [= <-]; discriminate).
  destruct (_ <? _); [intros [= <-]; discriminate|].
  destruct (missing b); [|intros [= <-]; discriminate].
  repeat match goal with
         | |- context [if ?c then _ else _] => destruct c
         end; intros [= <-]; discriminate.
Qed.

Lemma verify_fails (img : string) (b : body) (env : post_env)
      (svc svc' : Classification.state) (r : post_response) :
  verify img b env svc = (inl r, svc') -> status r <> 201.
Proof.
  unfold verify. destruct (truthy (forceSubmit b)); [discriminate|].
  destruct (classifyImage img (fetch env) svc) as [[e|c] s1].
  - intros [= <- _]. discriminate.
  - destruct (negb (isWaste c)); [intros [= <- _]; discriminate|].
    destruct (lt _ _); [intros [= <- _]; discriminate | discriminate].
Qed.

Lemma upload_image_fails (env : post_env) (r : post_response) :
  upload_image env = inl r -> status r <> 201.
Proof.
  unfold upload_image. destruct (race (upload env)) as [m|up]; [|discriminate].
  destruct (String.eqb m "CLOUDINARY_TIMEOUT"); intros [= <-]; discriminate.
Qed.

Lemma save_fails (env : post_env) (d : draft) (rs : gmap Z document) (r : post_response) :
  save env d rs = inl r -> status r <> 201.
Proof.
  unfold save. destruct (validate d); [intros [= <-]; discriminate|].
  destruct (insert_error env); [intros [= <-]; discriminate|].
  destruct (rs !! fresh_id env); [intros [= <-]; discriminate | discriminate].
Qed.

Lemma save_ok (env : post_env) (d : draft) (rs rs' : gmap Z document) (doc : document) :
  save env d rs = inr (doc, rs') ->
  validate d = inr doc /\ insert_error env = None /\ rs !! fresh_id env = None /\
  rs' = <[fresh_id env := doc]> rs.
Proof.
  unfold save. destruct (validate d) as [bad|doc']; [discriminate|].
  destruct (insert_error env); [discriminate|].
  destruct (rs !! fresh_id env); [discriminate|].
  intros [= -> <-]. auto.
Qed.

(** A 201 answer has gone through every stage. *)
Lemma post_report_created pf dt ts (user_id : Z) (b : body) (env : post_env) (w w' : world)
      (doc : document) (p : property) (cls : option result) :
  post_report pf dt ts user_id b env w = (Created doc p cls, w') ->
  exists img svc up obj,
    validate_request pf b = inr img /\
    verify img b env (service w) = (inr cls, svc) /\
    upload_image env = inr up /\
    report_object pf dt user_id (clock svc) b up cls = inr obj /\
    validate (new_Report ts (clock svc) (fresh_id env) obj) = inr doc /\
    insert_error env = None /\
    reports w !! fresh_id env = None /\
    pointsToAdd ts b = Some p /\
    w' = World svc (<[fresh_id env := doc]> (reports w)) (award env user_id p (users w)).
Proof.
  unfold post_report.
  destruct (validate_request pf b) as [r|img] eqn:Hvalidate.
  { intros [= -> _]. destruct (validate_request_fails _ _ _ Hvalidate). reflexivity. }
  destruct (verify img b env (service w)) as [[r|cls'] svc] eqn:Hverify.
  { intros [= -> _]. destruct (verify_fails _ _ _ _ _ _ Hverify). reflexivity. }
  destruct (upload_image env) as [r|up] eqn:Hupload.
  { intros [= -> _]. destruct (upload_image_fails _ _ Hupload). reflexivity. }
  destruct (report_object pf dt user_id (clock svc) b up cls') as [e|obj] eqn:Hobj.
  { discriminate. }
  generalize (save_ok env (new_Report ts (clock svc) (fresh_id env) obj) (reports w)).
  destruct (save env _ (reports w)) as [r|[doc' rs]] eqn:Hsave.
  { intros _ [= -> _]. destruct (save_fails _ _ _ _ Hsave). reflexivity. }
  intros Hok Heq. destruct (Hok rs doc' eq_refl) as (Hval & Hins & Hfresh & ->).
  destruct (pointsToAdd ts b) as [p'|] eqn:Hpoints; [|discriminate Heq].
  injection Heq as -> -> -> <-.
  exists img, svc, up, obj. repeat (split; [assumption || reflexivity|]). reflexivity.
Qed.

(** The object given to [new Report] binds [aiVerification] to the
    snapshot of the verdict, or to [null] for a bypassed submission. *)
Lemma report_object_snapshot pf dt (user_id now : Z) (b : body) (up : upload_response)
      (cls : option result) (obj : list (string * value)) :
  report_object pf dt user_id now b up cls = inr obj ->
  get obj "aiVerification" = aiVerification cls /\
  get obj "user" = ObjectId user_id /\
  get obj "reportType" = finalReportType b /\
  get obj "status" = Undefined.
Proof.
  unfold report_object.
  destruct (title b); try discriminate; destruct (details b); try discriminate;
    destruct (address b); try discriminate.
  destruct (truthy (photoTimestamp b) && to_primitive_throws (photoTimestamp b));
    [discriminate|].
  intros [= <-]. repeat split; reflexivity.
Qed.

(** A document that passes [validate] has no cast error and no invalid
    path. *)
Lemma validate_ok (d : draft) (doc : document) :
  validate d = inr doc ->
  doc = fields d /\ cast_errors d = [] /\
  forall p, In p reportSchema -> path_valid (fields d) p = true.
Proof.
  unfold validate. destruct (invalid_paths d) eqn:Hinv; [|discriminate].
  intros [= <-]. unfold invalid_paths in Hinv.
  apply app_eq_nil in Hinv as [Herr Hbad].
  split; [reflexivity|]. split; [exact Herr|].
  intros p Hin. destruct (path_valid (fields d) p) eqn:Hvalid; [reflexivity|]. exfalso.
  assert (In (path_name p)
             (List.map path_name
                (List.filter (fun q => negb (path_valid (fields d) q)) reportSchema))) as Hp.
  { apply in_map, filter_In. rewrite Hvalid. auto. }
  rewrite Hbad in Hp. destruct Hp.
Qed.

Lemma new_Report_unfold ts (now id : Z) (obj : list (string * value)) :
  new_Report ts now id obj =
  fold_left (set_path ts now obj) reportSchema (Draft {[ "_id" := ObjectId id ]} []).
Proof. reflexivity. Qed.

Lemma schema_names_not_id : Forall (fun p => path_name p <> "_id") reportSchema.
Proof. repeat (constructor; [discriminate|]). constructor. Qed.

Lemma schema_names_not_aiVerification :
  Forall (fun p => path_name p <> "aiVerification") reportSchema.
Proof. repeat (constructor; [discriminate|]). constructor. Qed.

(** What a validated document holds at a path of the schema. *)
Lemma validated_path ts (now id : Z) (obj : list (string * value)) (doc : document) (p : path) :
  validate (new_Report ts now id obj) = inr doc ->
  In p reportSchema ->
  doc !! path_name p = path_value ts now obj p /\ path_valid doc p = true.
Proof.
  intros Hval Hin. apply validate_ok in Hval as (-> & _ & Hvalid).
  split; [|apply Hvalid, Hin].
  rewrite new_Report_unfold.
  rewrite (SchemaProps.set_paths_path _ _ _ p) by
      (auto using SchemaProps.reportSchema_names_NoDup).
  destruct (path_value ts now obj p); [reflexivity|].
  cbn [fields]. apply lookup_singleton_ne.
  pose proof (proj1 (List.Forall_forall _ _) schema_names_not_id p Hin) as Hne.
  intros Heq. apply Hne. symmetry. exact Heq.
Qed.

(** A cast error keeps the document from passing. *)
Lemma validated_cast ts (now id : Z) (obj : list (string * value)) (doc : document) (p : path) :
  validate (new_Report ts now id obj) = inr doc ->
  In p reportSchema ->
  truthy (get obj (path_name p)) = true ->
  exists v, cast ts p (get obj (path_name p)) = Some v.
Proof.
  intros Hval Hin Htruthy. apply validate_ok in Hval as (_ & Herr & _).
  destruct (cast ts p (get obj (path_name p))) as [v|] eqn:Hcast; [eauto|].
  exfalso. revert Herr. rewrite new_Report_unfold.
  apply SchemaProps.set_paths_errors with (p := p); assumption.
Qed.

(** A name that is no path of the schema is not in the document. *)
Lemma validated_other ts (now id : Z) (obj : list (string * value)) (doc : document) (k : string) :
  validate (new_Report ts now id obj) = inr doc ->
  Forall (fun p => path_name p <> k) reportSchema ->
  k <> "_id" ->
  doc !! k = None.
Proof.
  intros Hval Hk Hid. apply validate_ok in Hval as (-> & _).
  rewrite new_Report_unfold, SchemaProps.set_paths_other by exact Hk.
  cbn [fields]. apply lookup_singleton_ne. auto.
Qed.

(** The failure codes of each stage. *)
Lemma validate_request_codes pf (b : body) (r : post_response) :
  validate_request pf b = inl r ->
  In (code r) ["IMAGE_TOO_LARGE"; "MISSING_FIELDS"; "INVALID_COORDINATES";
               "INVALID_COORDINATES_RANGE"; "INVALID_IMAGE_FORMAT";
               "INTERNAL_SERVER_ERROR"].
Proof.
  unfold validate_request, check_format.
  destruct (image b); try (intros [= <-]; cbn; auto 10).
  destruct (_ <? _); [intros [= <-]; cbn; auto 10|].
  destruct (missing b); [|intros [= <-]; cbn; auto 10].
  repeat match goal with
         | |- context [if ?c then _ else _] => destruct c
         end; intros [= <-]; cbn; auto 10.
Qed.

Lemma upload_image_codes (env : post_env) (r : post_response) :
  upload_image env = inl r ->
  In (code r) ["CLOUDINARY_TIMEOUT"; "CLOUDINARY_ERROR"].
Proof.
  unfold upload_image. destruct (race (upload env)) as [m|up]; [|discriminate].
  destruct (String.eqb m "CLOUDINARY_TIMEOUT"); intros [= <-]; cbn; auto.
Qed.

Lemma save_codes (env : post_env) (d : draft) (rs : gmap Z document) (r : post_response) :
  save env d rs = inl r ->
  In (code r) ["VALIDATION_ERROR"; "INTERNAL_SERVER_ERROR"].
Proof.
  unfold save. destruct (validate d); [intros [= <-]; cbn; auto|].
  destruct (insert_error env); [intros [= <-]; cbn; auto|].
  destruct (rs !! fresh_id env); [intros [= <-]; cbn; auto | discriminate].
Qed.

End PostProps.

(** ** The persisted report *)

Import ReportModel.

(** C1. The handler gives [new Report] the snapshot of the verdict
    ([isWaste], [confidence], [verification]) under [aiVerification], or
    [null] for a bypassed submission; [reportSchema] has no such path, so
    the document that is stored, and returned with the 201 answer, has no
    [aiVerification] at all. *)
Theorem snapshot_not_persisted pf dt ts (user_id : Z) (b : body) (env : post_env)
        (w w' : world) (doc : document) (p : property) (cls : option result) :
  post_report pf dt ts user_id b env w = (Created doc p cls, w') ->
  reports w' !! fresh_id env = Some doc /\
  (exists obj up now,
      report_object pf dt user_id now b up cls = inr obj /\
      validate (new_Report ts now (fresh_id env) obj) = inr doc /\
      get obj "aiVerification" = aiVerification cls) /\
  doc !! "aiVerification" = None.
Proof.
  intros H.
  apply PostProps.post_report_created in H
    as (img & svc & up & obj & _ & _ & _ & Hobj & Hval & _ & _ & _ & ->).
  split; [cbn [reports]; apply lookup_insert_eq|].
  split.
  - exists obj, up, (clock svc).
    split; [exact Hobj|]. split; [exact Hval|].
    apply (PostProps.report_object_snapshot _ _ _ _ _ _ _ _ Hobj).
  - apply (PostProps.validated_other _ _ _ _ _ _ Hval).
    + exact PostProps.schema_names_not_aiVerification.
    + discriminate.
Qed.

(** Witness of [snapshot_not_persisted]: the sample request is admitted
    at confidence 0.9 and stored without the snapshot. *)
Lemma snapshot_not_persisted_witness :
  exists doc w',
    post_report Samples.parseFloat Samples.Date_of Samples.toString 7 Samples.request
                Samples.env_ok Samples.world0
    = (Created doc (Number 10) (Some (classify_response Samples.data_0_9)), w') /\
    doc !! "aiVerification" = None.
Proof.
  assert (exists doc w',
             post_report Samples.parseFloat Samples.Date_of Samples.toString 7 Samples.request
                         Samples.env_ok Samples.world0
             = (Created doc (Number 10) (Some (classify_response Samples.data_0_9)), w'))
    as (doc & w' & H).
  { vm_compute. eexists. eexists. reflexivity. }
  exists doc, w'. split; [exact H|].
  exact (proj2 (proj2 (snapshot_not_persisted _ _ _ _ _ _ _ _ _ _ _ H))).
Defined.

(** ** The upload and its deadline *)

(** C9. For a submission that has passed validation and verification,
    the upload is raced against a deadline of 15000 ms.  When the upload
    has not settled by then, whatever it does later and even if it never
    settles, the answer is 504 CLOUDINARY_TIMEOUT; when the upload fails
    within the deadline, the answer is 500 CLOUDINARY_ERROR with the
    message of the failure.  In both cases no report is stored and no
    points move.  (The handler recognises the deadline by the message of
    its own error, the text [CLOUDINARY_TIMEOUT]; the failure of an
    upload is stated for every other message.) *)
Theorem upload_failures pf dt ts (user_id : Z) (b : body) (env : post_env) (w : world)
        (img : string) (cls : option result) (svc : Classification.state) :
  validate_request pf b = inr img ->
  verify img b env (service w) = (inr cls, svc) ->
  let answer := post_report pf dt ts user_id b env w in
  UPLOAD_DEADLINE = 15000 /\
  ((upload env = None \/
    exists t res, upload env = Some (t, res) /\ UPLOAD_DEADLINE < t) ->
   fst answer = CloudinaryTimeout /\
   status (fst answer) = 504 /\ code (fst answer) = "CLOUDINARY_TIMEOUT" /\
   reports (snd answer) = reports w /\ users (snd answer) = users w) /\
  (forall t message,
      upload env = Some (t, UploadFailed message) ->
      t <= UPLOAD_DEADLINE ->
      message <> "CLOUDINARY_TIMEOUT" ->
      fst answer = CloudinaryError message /\
      status (fst answer) = 500 /\ code (fst answer) = "CLOUDINARY_ERROR" /\
      reports (snd answer) = reports w /\ users (snd answer) = users w) /\
  (forall t up,
      upload env = Some (t, Uploaded up) ->
      t <= UPLOAD_DEADLINE ->
      code (fst answer) <> "CLOUDINARY_TIMEOUT" /\ code (fst answer) <> "CLOUDINARY_ERROR").
Proof.
  intros Hvalidate Hverify answer. subst answer.
  unfold post_report. rewrite Hvalidate, Hverify. unfold upload_image, race.
  split; [reflexivity|]. split; [|split].
  - intros [-> | (t & res & -> & Ht)].
    + cbn. auto.
    + apply Z.leb_gt in Ht. rewrite Ht. cbn. auto.
  - intros t message -> Ht Hmessage.
    apply Z.leb_le in Ht. rewrite Ht.
    apply String.eqb_neq in Hmessage. rewrite Hmessage. cbn. auto.
  - intros t up -> Ht. apply Z.leb_le in Ht. rewrite Ht.
    destruct (report_object pf dt user_id (clock svc) b up cls) as [e|obj];
      [cbn; split; discriminate|].
    generalize (PostProps.save_codes env (new_Report ts (clock svc) (fresh_id env) obj) (reports w)).
    destruct (save env _ (reports w)) as [r|[doc rs]].
    + intros Hcodes. specialize (Hcodes r eq_refl). cbn [fst].
      destruct Hcodes as [<- | [<- | []]]; split; discriminate.
    + intros _. destruct (pointsToAdd ts b); cbn; split; discriminate.
Qed.

(** Witness of [upload_failures]: the sample request, with an upload that
    fails after 15000 ms exactly, and with one that never settles. *)
Lemma upload_failures_witness :
  let failing := PostEnv (FetchJson Samples.data_0_9)
                         (Some (15000, UploadFailed "Invalid image file")) 1 None false in
  let hanging := PostEnv (FetchJson Samples.data_0_9) None 1 None false in
  validate_request Samples.parseFloat Samples.request = inr "AAAA" /\
  fst (post_report Samples.parseFloat Samples.Date_of Samples.toString 7 Samples.request
                   failing Samples.world0)
  = CloudinaryError "Invalid image file" /\
  fst (post_report Samples.parseFloat Samples.Date_of Samples.toString 7 Samples.request
                   hanging Samples.world0)
  = CloudinaryTimeout.
Proof.
  intros failing hanging.
  assert (validate_request Samples.parseFloat Samples.request = inr "AAAA") as Hv
      by (vm_compute; reflexivity).
  split; [exact Hv|].
  assert (forall env, fetch env = FetchJson Samples.data_0_9 ->
            verify "AAAA" Samples.request env (service Samples.world0)
            = (inr (Some (classify_response Samples.data_0_9)),
               snd (verify "AAAA" Samples.request env (service Samples.world0)))) as Hg.
  { intros env Hfetch. unfold verify, classifyImage. rewrite Hfetch.
    vm_compute. reflexivity. }
  split.
  - destruct (upload_failures Samples.parseFloat Samples.Date_of Samples.toString 7
                Samples.request failing Samples.world0 "AAAA" _ _ Hv (Hg failing eq_refl))
      as (_ & _ & Hfails & _).
    apply (Hfails 15000 "Invalid image file" eq_refl); [discriminate | discriminate].
  - destruct (upload_failures Samples.parseFloat Samples.Date_of Samples.toString 7
                Samples.request hanging Samples.world0 "AAAA" _ _ Hv (Hg hanging eq_refl))
      as (_ & Htimeout & _).
    apply Htimeout. left. reflexivity.
Defined.

(** The race at its boundary, on the sample request: an upload that
    succeeds after exactly 15000 ms is taken, one ms later the deadline
    has won. *)
Example deadline_boundary :
  race (Some (15000, Uploaded Samples.uploaded)) = inr Samples.uploaded /\
  race (Some (15001, Uploaded Samples.uploaded)) = inl "CLOUDINARY_TIMEOUT".
Proof. split; reflexivity. Qed.

(** ** Missing fields *)

Lemma missing_lists_all (b : body) :
  (truthy (title b) = false -> In "title" (missing b)) /\
  (truthy (image b) = false -> In "image" (missing b)) /\
  (truthy (details b) = false -> In "details" (missing b)) /\
  (truthy (address b) = false -> In "address" (missing b)) /\
  (latitude b = Undefined \/ longitude b = Undefined -> In "location" (missing b)).
Proof.
  unfold missing.
  repeat split; intros H; try rewrite H; repeat rewrite in_app_iff; cbn; auto 10.
  do 4 right.
  destruct H as [-> | ->]; [left; reflexivity|].
  destruct (latitude b); left; reflexivity.
Qed.

(** C4 (as amended). When the image is a string, empty or not, that
    decodes to at most 5 MiB, and one or more of title, image, details,
    address is missing or empty, or latitude or longitude is absent, the
    answer is the single failure 400 MISSING_FIELDS, nothing is changed,
    and its payload names every missing field ([location] standing for the
    coordinates). *)
Theorem missing_fields_reported pf dt ts (user_id : Z) (b : body) (env : post_env)
        (w : world) (img : string) :
  image b = Str img ->
  base64_length (strip_data_url img) <= MAX_IMAGE_BYTES ->
  truthy (title b) = false \/ truthy (image b) = false \/
  truthy (details b) = false \/ truthy (address b) = false \/
  latitude b = Undefined \/ longitude b = Undefined ->
  post_report pf dt ts user_id b env w = (MissingFields (missing b), w) /\
  status (MissingFields (missing b)) = 400 /\
  code (MissingFields (missing b)) = "MISSING_FIELDS" /\
  (truthy (title b) = false -> In "title" (missing b)) /\
  (truthy (image b) = false -> In "image" (missing b)) /\
  (truthy (details b) = false -> In "details" (missing b)) /\
  (truthy (address b) = false -> In "address" (missing b)) /\
  (latitude b = Undefined \/ longitude b = Undefined -> In "location" (missing b)).
Proof.
  intros Himg Hsize Hmissing.
  pose proof (missing_lists_all b) as (Ht & Hi & Hd & Ha & Hl).
  assert (missing b <> []) as Hne.
  { intros Hnil. rewrite Hnil in *.
    destruct Hmissing as [H|[H|[H|[H|H]]]];
      [exact (Ht H) | exact (Hi H) | exact (Hd H) | exact (Ha H) | exact (Hl H)]. }
  split; [|repeat split; assumption].
  unfold post_report, validate_request. rewrite Himg.
  apply Z.ltb_ge in Hsize. rewrite Hsize.
  destruct (missing b); [congruence | reflexivity].
Qed.

(** Witness of [missing_fields_reported]: the sample request without
    title and without longitude. *)
Lemma missing_fields_reported_witness :
  let b := Body Undefined (Str "AAAA") (Str "Bags on the pavement")
                (Str "1 Main Street") (Num lit_0) Undefined
                Undefined Undefined Undefined in
  base64_length (strip_data_url "AAAA") <= MAX_IMAGE_BYTES /\
  post_report Samples.parseFloat Samples.Date_of Samples.toString 7 b Samples.env_ok Samples.world0
  = (MissingFields ["title"; "location"], Samples.world0).
Proof.
  intros b.
  assert (base64_length (strip_data_url "AAAA") <= MAX_IMAGE_BYTES) as Hsize
      by (vm_compute; discriminate).
  split; [exact Hsize|].
  exact (proj1 (missing_fields_reported Samples.parseFloat Samples.Date_of Samples.toString 7 b
                  Samples.env_ok Samples.world0 "AAAA" eq_refl Hsize
                  (or_introl eq_refl))).
Defined.

(** The decoded length of a run of ['A']. *)
Lemma run_of_A_digits (n : positive) (s : string) :
  base64_digits (Pos.iter (String "A"%char) s n) = Z.pos n + base64_digits s.
Proof.
  induction n as [|n IH] using Pos.peano_ind.
  - cbn [Pos.iter]. reflexivity.
  - rewrite Pos.iter_succ. change (base64_digits (String "A"%char ?x))
      with (1 + base64_digits x). rewrite IH. lia.
Qed.

Lemma run_of_A_head (n : positive) :
  exists rest, Pos.iter (String "A"%char) EmptyString n = String "A"%char rest.
Proof.
  destruct (Pos.succ_pred_or n) as [-> | <-].
  - exists EmptyString. reflexivity.
  - rewrite Pos.iter_succ. eauto.
Qed.

(** C4, counterexample. A request without a title whose image decodes
    to 5,250,000 bytes: the title is missing, and the answer is 413
    IMAGE_TOO_LARGE, not MISSING_FIELDS. *)
Lemma oversized_image_answered_first :
  truthy (title Samples.request_big_untitled) = false /\
  missing Samples.request_big_untitled = ["title"] /\
  base64_length (strip_data_url Samples.big_image) = 5250000 /\
  post_report Samples.parseFloat Samples.Date_of Samples.toString 7 Samples.request_big_untitled
              Samples.env_ok Samples.world0
  = (ImageTooLarge, Samples.world0) /\
  code ImageTooLarge <> "MISSING_FIELDS".
Proof.
  destruct (run_of_A_head 7000000) as [rest Hhead].
  assert (strip_data_url Samples.big_image = Samples.big_image) as Hstrip.
  { unfold Samples.big_image. rewrite Hhead. reflexivity. }
  assert (base64_length Samples.big_image = 5250000) as Hlen.
  { unfold base64_length, Samples.big_image. rewrite run_of_A_digits. reflexivity. }
  split; [reflexivity|]. split.
  { unfold missing, Samples.request_big_untitled; cbn [title image details address
      latitude longitude truthy]. unfold Samples.big_image. rewrite Hhead. reflexivity. }
  split; [rewrite Hstrip; exact Hlen|]. split; [|discriminate].
  unfold post_report, validate_request, Samples.request_big_untitled; cbn [image].
  rewrite Hstrip, Hlen. reflexivity.
Qed.

(** ** Deleting a report *)

(** C5 (as amended). [DELETE /:id] removes a report only for its owner:
    when the report is gone the requester is the owner and the answer is
    200; a requester who is not the owner gets 401 and nothing changes;
    no other report is touched.  The status of the report is not
    consulted: the answer is the same whatever status the report has. *)
Theorem delete_by_owner_only (user_id id : Z) (env : delete_env) (w : world) :
  let r := fst (delete_report user_id id env w) in
  let w' := snd (delete_report user_id id env w) in
  (forall report,
      reports w !! id = Some report -> reports w' !! id = None ->
      r = Deleted /\ report !! "user" = Some (ObjectId user_id)) /\
  (forall report owner,
      reports w !! id = Some report -> report !! "user" = Some (ObjectId owner) ->
      owner <> user_id ->
      r = Unauthorized /\ delete_status r = 401 /\ w' = w) /\
  (forall id', id' <> id -> reports w' !! id' = reports w !! id') /\
  (forall report st,
      reports w !! id = Some report ->
      fst (delete_report user_id id env
             (World (service w) (<[id := <["status" := st]> report]> (reports w)) (users w)))
      = r).
Proof.
  cbv zeta. unfold delete_report.
  split; [|split; [|split]].
  - intros report Hreport. rewrite Hreport.
    destruct (report !! "user") as [[]|] eqn:Huser; cbn [fst snd]; try congruence.
    destruct (n =? user_id) eqn:Howner; cbn [negb fst snd]; [|congruence].
    apply Z.eqb_eq in Howner. subst n.
    destruct (pointsToDeduct report); [|cbn; congruence].
    destruct (deduct_fails env); [cbn; congruence|].
    destruct (deleteOne_fails env); cbn [fst snd reports]; [congruence | auto].
  - intros report owner Hreport Huser Hne. rewrite Hreport, Huser.
    apply Z.eqb_neq in Hne. rewrite Hne. cbn. auto.
  - intros id' Hne.
    destruct (reports w !! id) as [report|]; [|reflexivity].
    destruct (report !! "user") as [[]|]; try reflexivity.
    destruct (negb _); [reflexivity|].
    destruct (pointsToDeduct report); [|reflexivity].
    destruct (deduct_fails env); [reflexivity|].
    destruct (deleteOne_fails env); cbn [fst snd reports]; [reflexivity|].
    apply lookup_delete_ne. auto.
  - intros report st Hreport. rewrite Hreport. cbn [reports].
    rewrite lookup_insert_eq.
    rewrite lookup_insert_ne by discriminate.
    assert (pointsToDeduct (<["status" := st]> report) = pointsToDeduct report) as ->.
    { unfold pointsToDeduct. rewrite lookup_insert_ne by discriminate. reflexivity. }
    destruct (report !! "user") as [[]|]; try reflexivity.
    destruct (negb _); [reflexivity|].
    destruct (pointsToDeduct report); [|reflexivity].
    destruct (deduct_fails env); [reflexivity|].
    destruct (deleteOne_fails env); reflexivity.
Qed.

(** C5, counterexample. Report 1 of user 7 has status [resolved]; user 7
    deletes it: the answer is 200 and the report is gone. *)
Lemma owner_deletes_resolved_report :
  reports Samples.world_resolved !! 1 = Some Samples.resolved_report /\
  Samples.resolved_report !! "status" = Some (Str "resolved") /\
  fst (delete_report 7 1 Samples.delete_ok Samples.world_resolved) = Deleted /\
  reports (snd (delete_report 7 1 Samples.delete_ok Samples.world_resolved)) !! 1 = None.
Proof. repeat split; vm_compute; reflexivity. Qed.

(** ** Points *)

Module PointsProps.

Lemma reportType_path_in : In reportType_path reportSchema.
Proof. do 9 right. left. reflexivity. Qed.

Lemma user_path_in : In user_path reportSchema.
Proof. do 7 right. left. reflexivity. Qed.


(** [finalReportType] is never absent. *)
Lemma finalReportType_truthy (b : body) : truthy (finalReportType b) = true.
Proof.
  unfold finalReportType. destruct (truthy (reportType b)) eqn:H; [exact H | reflexivity].
Qed.

(** The category and the owner of a stored report: the category is the
    text the library casts [finalReportType] to, and it is one of the
    enumeration. *)
Lemma stored_category pf dt ts (user_id now id : Z) (b : body) (up : upload_response)
      (cls : option result) (obj : list (string * value)) (doc : document) :
  report_object pf dt user_id now b up cls = inr obj ->
  validate (new_Report ts now id obj) = inr doc ->
  doc !! "user" = Some (ObjectId user_id) /\
  exists category,
    castString ts (finalReportType b) = Some category /\
    doc !! "reportType" = Some (Str category) /\
    In category reportType_enum.
Proof.
  intros Hobj Hval.
  destruct (PostProps.report_object_snapshot _ _ _ _ _ _ _ _ Hobj) as (_ & Huser & Htype & _).
  split.
  - destruct (PostProps.validated_path _ _ _ _ _ user_path Hval user_path_in) as [Hlook _].
    cbn [path_name user_path] in Hlook. rewrite Hlook.
    unfold path_value. cbn [path_name user_path]. rewrite Huser. reflexivity.
  - destruct (PostProps.validated_cast _ _ _ _ _ reportType_path Hval reportType_path_in)
      as [v Hcast].
    { cbn [path_name reportType_path]. rewrite Htype. apply finalReportType_truthy. }
    destruct (PostProps.validated_path _ _ _ _ _ reportType_path Hval reportType_path_in)
      as [Hlook Hvalid].
    unfold path_value in Hlook. cbn [path_name reportType_path] in Hlook, Hcast.
    rewrite Htype in Hlook, Hcast.
    pose proof (finalReportType_truthy b) as Htruthy.
    assert (doc !! "reportType" = cast ts reportType_path (finalReportType b)) as Hdoc.
    { rewrite Hlook. destruct (finalReportType b); try reflexivity; discriminate Htruthy. }
    unfold cast in Hdoc, Hcast. cbn [path_type reportType_path trimmed] in Hdoc, Hcast.
    destruct (castString ts (finalReportType b)) as [category|]; [|discriminate Hcast].
    exists category. split; [reflexivity|]. split; [exact Hdoc|].
    unfold path_valid in Hvalid. cbn [path_name reportType_path] in Hvalid.
    rewrite Hdoc in Hvalid. cbn [required enum reportType_path andb negb] in Hvalid.
    apply existsb_exists in Hvalid as (allowed & Hin & Heq).
    apply String.eqb_eq in Heq. subst allowed. exact Hin.
Qed.


(** An object is looked up under the text [[object Object]], which is no
    property of [pointsMap], when it can be converted at all. *)
Lemma object_points ts (fields : list (string * value)) :
  ToString ts (Obj fields) = None \/
  (ToString ts (Obj fields) = Some "[object Object]" /\
   points_or_10 "[object Object]" = Number 10).
Proof.
  cbn [ToString]. destruct (has_own fields "toString"); [left | right; split]; reflexivity.
Qed.



End PointsProps.




(* ===================================================================== *)
(** * Part III: further properties of the handlers *)
(* ===================================================================== *)

(** ** From the detector's answer to the answer of [POST /] *)

(** X1. For a submission that is not bypassed and whose image is not in
    the cache, the largest confidence [x] among the class-1 detections of
    the detector's answer decides the verification stage: below 0.25 the
    answer is NOT_WASTE, from 0.25 and below 0.7 it is LOW_CONFIDENCE, from
    0.7 the submission is admitted with a verdict that is not
    [unverified]; an answer without class-1 detections is NOT_WASTE. *)
Theorem detector_answer_decides
        (img : string) (b : body) (env : post_env) (svc : Classification.state)
        (data : response_data) :
  truthy (forceSubmit b) = false ->
  Classification.lookup img svc = None ->
  fetch env = FetchJson data ->
  let x := maxConfidence (extract_detections data) in
  let answer := fst (verify img b env svc) in
  is_NaN x = false ->
  (lt x lit_0_25 = true -> answer = inl (NotWaste (verdict x))) /\
  (ge x lit_0_25 = true -> lt x lit_0_7 = true -> answer = inl (LowConfidence (verdict x))) /\
  (ge x lit_0_7 = true ->
   answer = inr (Some (verdict x)) /\ verification (verdict x) <> unverified) /\
  (wasteDetections (extract_detections data) = [] -> answer = inl (NotWaste (verdict x))).
Proof.
  intros Hforce Hmiss Hfetch x answer Hnum.
  assert (answer =
          if negb (ge x lit_0_25) then inl (NotWaste (verdict x))
          else if lt x lit_0_7 then inl (LowConfidence (verdict x))
               else inr (Some (verdict x))) as Hanswer.
  { subst answer. unfold verify, classifyImage, finish.
    rewrite Hforce, Hmiss, Hfetch. cbn [settle]. unfold classify_response. fold x.
    cbn [isWaste confidence verdict].
    destruct (negb (ge x lit_0_25)); [reflexivity|].
    destruct (lt x ADMISSION_CONFIDENCE) eqn:Hlt;
      change ADMISSION_CONFIDENCE with lit_0_7 in Hlt; rewrite Hlt; reflexivity. }
  assert (lt x lit_0_25 = true -> answer = inl (NotWaste (verdict x))) as Hbelow.
  { intros Hlt. rewrite Hanswer, (lt_not_ge _ _ Hlt). reflexivity. }
  split; [exact Hbelow|]. split; [|split].
  - intros Hge Hlt. rewrite Hanswer, Hge, Hlt. reflexivity.
  - intros Hge.
    assert (ge x lit_0_65 = true) as Hmin.
    { unfold ge in *. apply (NumberOrder.leb_trans _ lit_0_7); [reflexivity | exact Hge]. }
    assert (lt x lit_0_7 = false) as Hlt.
    { destruct (lt x lit_0_7) eqn:Hlt; [|reflexivity].
      apply lt_not_ge in Hlt. congruence. }
    rewrite Hanswer, (ge_min_ge_floor _ Hmin), Hlt. split; [reflexivity|].
    unfold verdict; cbn [verification].
    rewrite (ge_min_ge_floor _ Hmin). change MIN_CONFIDENCE with lit_0_65. rewrite Hmin.
    destruct (ge x HIGH_CONFIDENCE_THRESHOLD); discriminate.
  - intros Hnone. apply Hbelow. subst x. unfold maxConfidence. rewrite Hnone. reflexivity.
Qed.

(** Witness of [detector_answer_decides]: waste at 0.68 is refused with
    LOW_CONFIDENCE. *)
Lemma detector_answer_decides_witness :
  let env := PostEnv (FetchJson Samples.data_0_68) None 1 None false in
  Classification.lookup "AAAA" initial = None /\
  fst (verify "AAAA" Samples.request env initial)
  = inl (LowConfidence (verdict Samples.lit_0_68)).
Proof.
  intros env.
  assert (Classification.lookup "AAAA" initial = None) as Hmiss by (vm_compute; reflexivity).
  split; [exact Hmiss|].
  destruct (detector_answer_decides "AAAA" Samples.request env initial Samples.data_0_68
              eq_refl Hmiss eq_refl eq_refl) as (_ & Hlow & _).
  apply Hlow; reflexivity.
Defined.

(** X2. A bypassed submission ([forceSubmit] truthy) never reaches the
    detector: the classification module is left exactly as it was, the
    answer is none of NOT_WASTE, LOW_CONFIDENCE, SERVICE_UNAVAILABLE, and a
    201 answer carries no classification. *)
Theorem bypass_skips_detector pf dt ts (user_id : Z) (b : body) (env : post_env) (w : world) :
  truthy (forceSubmit b) = true ->
  let answer := post_report pf dt ts user_id b env w in
  service (snd answer) = service w /\
  ~ In (code (fst answer)) ["NOT_WASTE"; "LOW_CONFIDENCE"; "SERVICE_UNAVAILABLE"] /\
  (forall doc p cls, fst answer = Created doc p cls -> cls = None).
Proof.
  intros Hforce. cbv zeta.
  assert (forall c : string,
             In c ["IMAGE_TOO_LARGE"; "MISSING_FIELDS"; "INVALID_COORDINATES";
                   "INVALID_COORDINATES_RANGE"; "INVALID_IMAGE_FORMAT";
                   "INTERNAL_SERVER_ERROR"; "CLOUDINARY_TIMEOUT"; "CLOUDINARY_ERROR";
                   "VALIDATION_ERROR"; ""] ->
             ~ In c ["NOT_WASTE"; "LOW_CONFIDENCE"; "SERVICE_UNAVAILABLE"]) as Hother.
  { intros c Hc Hbad. cbn in Hc, Hbad.
    repeat match goal with
           | H : _ \/ _ |- _ => destruct H
           | H : False |- _ => destruct H
           end; subst; discriminate. }
  unfold post_report.
  destruct (validate_request pf b) as [r|img] eqn:Hvalidate.
  { cbn [fst snd]. split; [reflexivity|]. split; [|intros doc p cls ->; 
      destruct (PostProps.validate_request_fails _ _ _ Hvalidate); reflexivity].
    apply Hother. apply PostProps.validate_request_codes in Hvalidate.
    cbn in Hvalidate |- *. tauto. }
  unfold verify. rewrite Hforce.
  destruct (upload_image env) as [r|up] eqn:Hupload.
  { cbn [fst snd service]. split; [reflexivity|]. split; [|intros doc p cls ->; 
      destruct (PostProps.upload_image_fails _ _ Hupload); reflexivity].
    apply Hother. apply PostProps.upload_image_codes in Hupload.
    cbn in Hupload |- *. tauto. }
  destruct (report_object pf dt user_id _ b up None) as [e|obj].
  { cbn [fst snd service]. split; [reflexivity|]. split; [|discriminate].
    apply Hother. cbn. tauto. }
  generalize (PostProps.save_fails env (new_Report ts (clock (service w)) (fresh_id env) obj)
                                   (reports w)).
  generalize (PostProps.save_codes env (new_Report ts (clock (service w)) (fresh_id env) obj)
                         (reports w)).
  destruct (save env _ (reports w)) as [r|[doc rs]].
  - intros Hcodes Hfails. cbn [fst snd service]. split; [reflexivity|].
    split; [|intros doc p cls ->; destruct (Hfails _ eq_refl); reflexivity].
    apply Hother. specialize (Hcodes r eq_refl). cbn in Hcodes |- *. tauto.
  - intros _ _. destruct (pointsToAdd ts b) as [p|]; cbn [fst snd service].
    + split; [reflexivity|]. split; [apply Hother; cbn; tauto|].
      intros doc' p' cls [= _ _ <-]. reflexivity.
    + split; [reflexivity|]. split; [apply Hother; cbn; tauto | discriminate].
Qed.

(** Witness of [bypass_skips_detector]: the sample request with
    [forceSubmit: true] is stored without a classification. *)
Lemma bypass_skips_detector_witness :
  let b := Body (Str "Overflowing bin") (Str "AAAA") (Str "Bags on the pavement")
                (Str "1 Main Street") (Num lit_0) (Num lit_0)
                Undefined Undefined (Bool true) in
  truthy (forceSubmit b) = true /\
  service (snd (post_report Samples.parseFloat Samples.Date_of Samples.toString 7 b Samples.env_ok
                            Samples.world0)) = service Samples.world0.
Proof.
  intros b. split; [reflexivity|].
  exact (proj1 (bypass_skips_detector Samples.parseFloat Samples.Date_of Samples.toString 7 b
                  Samples.env_ok Samples.world0 eq_refl)).
Defined.

(** A failing call names its failure and leaves the cache alone. *)
Lemma failed_call_unchanged (s : Classification.state) (img : string)
      (out : fetch_outcome) (e : string) :
  fst (classifyImage img out s) = inl e ->
  (e = "SERVICE_TIMEOUT" \/ e = "SERVICE_DOWN" \/
   exists message, e = "SERVICE_ERROR: " +:+ message) /\
  imageCache (snd (classifyImage img out s)) = imageCache s.
Proof.
  unfold classifyImage, finish.
  destruct (Classification.lookup img s) as [r|]; [discriminate|].
  destruct (settle out) as [err|r] eqn:Hout; [|discriminate].
  cbn [fst snd]. intros [= ->]. split; [|reflexivity].
  destruct out as [name message | st text | data]; cbn in Hout;
    [| |discriminate]; injection Hout as <-.
  - destruct (rethrow_cases name message) as [H|[H|H]]; eauto.
  - destruct (rethrow_cases "Error" (api_error_message st text)) as [H|[H|H]]; eauto.
Qed.

(** X3. When the classification of a validated, non-bypassed submission
    fails, the answer is 503 SERVICE_UNAVAILABLE carrying the message the
    service rejected with (SERVICE_TIMEOUT, SERVICE_DOWN or
    SERVICE_ERROR: ...); nothing is uploaded or stored, no points move,
    and the cache is as before. *)
Theorem classification_failure_answer pf dt ts (user_id : Z) (b : body) (env : post_env)
        (w : world) (img e : string) :
  validate_request pf b = inr img ->
  truthy (forceSubmit b) = false ->
  fst (classifyImage img (fetch env) (service w)) = inl e ->
  let answer := post_report pf dt ts user_id b env w in
  fst answer = ServiceUnavailable e /\
  status (fst answer) = 503 /\
  (e = "SERVICE_TIMEOUT" \/ e = "SERVICE_DOWN" \/
   exists message, e = "SERVICE_ERROR: " +:+ message) /\
  reports (snd answer) = reports w /\
  users (snd answer) = users w /\
  imageCache (service (snd answer)) = imageCache (service w).
Proof.
  intros Hvalidate Hforce Hfail answer.
  destruct (failed_call_unchanged _ _ _ _ Hfail) as (Hmsg & Hcache).
  subst answer. unfold post_report, verify. rewrite Hvalidate, Hforce.
  destruct (classifyImage img (fetch env) (service w)) as [[e'|c] svc'];
    cbn [fst snd] in *; [|discriminate].
  injection Hfail as ->. cbn [fst snd reports users service]. auto 10.
Qed.

(** Witness of [classification_failure_answer]: the detector is
    unreachable. *)
Lemma classification_failure_answer_witness :
  let env := PostEnv (FetchThrew "FetchError" "connect ECONNREFUSED 10.0.0.1:443")
                     None 1 None false in
  validate_request Samples.parseFloat Samples.request = inr "AAAA" /\
  fst (post_report Samples.parseFloat Samples.Date_of Samples.toString 7 Samples.request env Samples.world0)
  = ServiceUnavailable "SERVICE_DOWN".
Proof.
  intros env.
  assert (validate_request Samples.parseFloat Samples.request = inr "AAAA") as Hv
      by (vm_compute; reflexivity).
  split; [exact Hv|].
  apply (classification_failure_answer Samples.parseFloat Samples.Date_of Samples.toString 7 Samples.request
           env Samples.world0 "AAAA" "SERVICE_DOWN" Hv eq_refl).
  vm_compute. reflexivity.
Defined.

(** ** Validation of the request *)

(** X4. The format test on the image text accepts exactly the texts whose
    remainder, once an optional data-URL prefix is stripped, is a
    non-empty run of base64 characters ([A-Za-z0-9+/=]). *)
Theorem image_format_ok_spec (s : string) :
  image_format_ok s = base64_body (strip_data_url s) /\
  (image_format_ok s = true ->
   strip_data_url s <> "" /\ all_chars is_base64_char (strip_data_url s) = true /\
   strip_data_url (strip_data_url s) = strip_data_url s).
Proof.
  assert (image_format_ok s = base64_body (strip_data_url s)) as Heq.
  { unfold image_format_ok, strip_data_url.
    destruct (match_data_url s) as [r|] eqn:Hm; [|reflexivity].
    rewrite (data_url_not_base64 _ _ Hm). apply orb_false_r. }
  split; [exact Heq|].
  rewrite Heq. unfold base64_body. intros H.
  apply andb_true_iff in H as [Hne Hall].
  split; [|split; [exact Hall|]].
  - intros Hempty. rewrite Hempty in Hne. discriminate.
  - unfold strip_data_url at 1.
    destruct (match_data_url (strip_data_url s)) as [r|] eqn:Hm; [|reflexivity].
    apply data_url_not_base64 in Hm. unfold base64_body in Hm.
    rewrite Hne, Hall in Hm. discriminate.
Qed.

(** The checks of lines 24-81, read as one condition. *)
Lemma validate_request_iff pf (b : body) (img : string) :
  validate_request pf b = inr img <->
  image b = Str img /\
  base64_length (strip_data_url img) <= MAX_IMAGE_BYTES /\
  truthy (title b) = true /\ img <> "" /\
  truthy (details b) = true /\ truthy (address b) = true /\
  latitude b <> Undefined /\ longitude b <> Undefined /\
  to_primitive_throws (latitude b) = false /\
  to_primitive_throws (longitude b) = false /\
  ge (pf (latitude b)) (neg lit_90) = true /\ ge lit_90 (pf (latitude b)) = true /\
  ge (pf (longitude b)) (neg lit_180) = true /\ ge lit_180 (pf (longitude b)) = true /\
  image_format_ok img = true.
Proof.
  assert (forall x lo hi : number,
             is_NaN lo = false -> is_NaN hi = false ->
             (is_NaN x = false /\ lt x lo = false /\ gt x hi = false)
             <-> (ge x lo = true /\ ge hi x = true)) as Hrange.
  { intros x lo hi Hlo Hhi. unfold lt, gt, ge. split.
    - intros (Hx & H1 & H2). split; apply NumberOrder.ltb_false_leb; assumption.
    - intros [H1 H2]. destruct (NumberOrder.leb_numbers _ _ H1) as [_ Hx].
      split; [exact Hx|]. split.
      + destruct (SFltb x lo) eqn:H; [|reflexivity].
        apply NumberOrder.ltb_leb_false in H. congruence.
      + destruct (SFltb hi x) eqn:H; [|reflexivity].
        apply NumberOrder.ltb_leb_false in H. congruence. }
  assert (missing b = [] <->
          truthy (title b) = true /\ truthy (image b) = true /\
          truthy (details b) = true /\ truthy (address b) = true /\
          latitude b <> Undefined /\ longitude b <> Undefined) as Hmissing.
  { unfold missing.
    destruct (truthy (title b)), (truthy (image b)), (truthy (details b)),
             (truthy (address b)); cbn [app];
      try (split; [discriminate | intros (? & ? & ? & ? & _); discriminate]).
    destruct (latitude b), (longitude b);
      (split; [try discriminate; intros _; repeat split; discriminate
              | try reflexivity; intros (_ & _ & _ & _ & ? & ?); congruence]). }
  unfold validate_request, check_format.
  pose proof (Hrange (pf (latitude b)) (neg lit_90) lit_90 eq_refl eq_refl) as Hlat.
  pose proof (Hrange (pf (longitude b)) (neg lit_180) lit_180 eq_refl eq_refl) as Hlon.
  split.
  - destruct (image b) as [| | | |img'| | | |] eqn:Himg; try discriminate.
    destruct (_ <? _) eqn:Hsize; [discriminate|]. apply Z.ltb_ge in Hsize.
    destruct (missing b) eqn:Hm; [|discriminate].
    destruct (proj1 Hmissing eq_refl) as (Ht & Hi & Hd & Ha & Hla & Hlo).
    destruct (to_primitive_throws (latitude b)) eqn:C1; [discriminate|].
    destruct (to_primitive_throws (longitude b)) eqn:C2; [discriminate|]. cbn [orb].
    destruct (is_NaN (pf (latitude b))) eqn:N1; [discriminate|].
    destruct (is_NaN (pf (longitude b))) eqn:N2; [discriminate|]. cbn [orb].
    destruct (lt (pf (latitude b)) (neg lit_90)) eqn:R1; [discriminate|].
    destruct (gt (pf (latitude b)) lit_90) eqn:R2; [discriminate|].
    destruct (lt (pf (longitude b)) (neg lit_180)) eqn:R3; [discriminate|].
    destruct (gt (pf (longitude b)) lit_180) eqn:R4; [discriminate|]. cbn [orb].
    destruct (image_format_ok img') eqn:Hf; [|discriminate]. cbn [negb].
    intros [= ->].
    destruct (proj1 Hlat (conj eq_refl (conj eq_refl eq_refl))) as [L1 L2].
    destruct (proj1 Hlon (conj eq_refl (conj eq_refl eq_refl))) as [L3 L4].
    split; [reflexivity|]. split; [exact Hsize|]. split; [exact Ht|].
    split; [intros ->; discriminate Hi|].
    split; [exact Hd|]. split; [exact Ha|]. split; [exact Hla|]. split; [exact Hlo|].
    split; [reflexivity|]. split; [reflexivity|].
    split; [exact L1|]. split; [exact L2|]. split; [exact L3|]. split; [exact L4|].
    assumption.
  - intros (Himg & Hsize & Ht & Hne & Hd & Ha & Hla & Hlo & C1 & C2 & L1 & L2 & L3 & L4 & Hf).
    rewrite Himg. apply Z.ltb_ge in Hsize. rewrite Hsize.
    assert (missing b = []) as ->.
    { apply Hmissing. rewrite Himg. cbn [truthy].
      split; [exact Ht|]. split; [destruct img; [congruence | reflexivity]|].
      split; [exact Hd|]. split; [exact Ha|]. split; assumption. }
    rewrite C1, C2. cbn [orb].
    destruct (proj2 Hlat (conj L1 L2)) as (-> & -> & ->).
    destruct (proj2 Hlon (conj L3 L4)) as (-> & -> & ->).
    rewrite Hf. reflexivity.
Qed.

(** X5. A request passes validation exactly when: the image is a string
    that decodes to at most 5 MiB, title, image, details and address are
    present and non-empty, latitude and longitude are present, have a
    primitive value and parse to numbers with latitude in [-90, 90] and
    longitude in [-180, 180], and the image text passes the format test. *)
Theorem validate_request_passes pf (b : body) (img : string) :
  validate_request pf b = inr img <->
  image b = Str img /\
  base64_length (strip_data_url img) <= MAX_IMAGE_BYTES /\
  truthy (title b) = true /\ img <> "" /\
  truthy (details b) = true /\ truthy (address b) = true /\
  latitude b <> Undefined /\ longitude b <> Undefined /\
  to_primitive_throws (latitude b) = false /\
  to_primitive_throws (longitude b) = false /\
  ge (pf (latitude b)) (neg lit_90) = true /\ ge lit_90 (pf (latitude b)) = true /\
  ge (pf (longitude b)) (neg lit_180) = true /\ ge lit_180 (pf (longitude b)) = true /\
  image_format_ok img = true.
Proof. exact (validate_request_iff pf b img). Qed.

(** ** What is stored *)

(** *** [trim] *)

Module TrimProps.

Import JS.

Lemma string_length_ind (P : string -> Prop) :
  (forall s, (forall r, (String.length r < String.length s)%nat -> P r) -> P s) ->
  forall s, P s.
Proof.
  intros H s. remember (String.length s) as n eqn:Hn. revert s Hn.
  induction n as [n IH] using lt_wf_ind. intros s ->.
  apply H. intros r Hr. apply (IH _ Hr). reflexivity.
Qed.

(** [trim_start] drops the white-space character at the head, if there is
    one, and goes on. *)
Lemma trim_start_unfold (s : string) :
  trim_start s = match white_head s with
                 | Some r => trim_start r
                 | None => s
                 end.
Proof.
  destruct s as [|c1 r1]; [reflexivity|].
  change (trim_start (String c1 r1))
    with (if is_space c1 then trim_start r1
          else match r1 with
               | EmptyString => String c1 r1
               | String c2 r2 =>
                   if is_space2 c1 c2 then trim_start r2
                   else match r2 with
                        | EmptyString => String c1 r1
                        | String c3 r3 =>
                            if is_space3 c1 c2 c3 then trim_start r3 else String c1 r1
                        end
               end).
  unfold white_head. destruct (is_space c1); [reflexivity|].
  destruct r1 as [|c2 r2]; [reflexivity|].
  destruct (is_space2 c1 c2); [reflexivity|].
  destruct r2 as [|c3 r3]; [reflexivity|].
  destruct (is_space3 c1 c2 c3); reflexivity.
Qed.

Lemma white_head_shorter (s r : string) :
  white_head s = Some r -> (String.length r < String.length s)%nat.
Proof.
  destruct s as [|c1 [|c2 [|c3 r3]]]; cbn [white_head];
    repeat match goal with
           | |- context [if ?c then _ else _] => destruct c
           end; intros [= <-]; cbn [String.length]; lia.
Qed.

Lemma white_head_app (s r t : string) :
  white_head s = Some r -> white_head (s +:+ t) = Some (r +:+ t).
Proof.
  destruct s as [|c1 r1]; [discriminate|].
  change (String c1 r1 +:+ t) with (String c1 (r1 +:+ t)).
  unfold white_head. destruct (is_space c1); [intros [= <-]; reflexivity|].
  destruct r1 as [|c2 r2]; [discriminate|].
  change (String c2 r2 +:+ t) with (String c2 (r2 +:+ t)). cbv beta iota.
  destruct (is_space2 c1 c2); [intros [= <-]; reflexivity|].
  destruct r2 as [|c3 r3]; [discriminate|].
  change (String c3 r3 +:+ t) with (String c3 (r3 +:+ t)). cbv beta iota.
  destruct (is_space3 c1 c2 c3); [intros [= <-]; reflexivity | discriminate].
Qed.

(** What [trim_start] returns has no white space at its head. *)
Lemma trim_start_head (s : string) : white_head (trim_start s) = None.
Proof.
  induction s as [s IH] using string_length_ind.
  rewrite trim_start_unfold. destruct (white_head s) as [r|] eqn:Hs; [|exact Hs].
  apply IH, white_head_shorter, Hs.
Qed.

Lemma trim_start_fixed (s : string) : white_head s = None -> trim_start s = s.
Proof. intros H. rewrite trim_start_unfold, H. reflexivity. Qed.

Lemma all_white_spec (s : string) : all_white s = true <-> trim_start s = "".
Proof. unfold all_white. apply String.eqb_eq. Qed.

(** White space before a text is dropped whatever follows. *)
Lemma trim_start_app (a t : string) :
  all_white a = true -> trim_start (a +:+ t) = trim_start t.
Proof.
  induction a as [a IH] using string_length_ind. intros Ha.
  apply all_white_spec in Ha. rewrite trim_start_unfold in Ha.
  destruct (white_head a) as [r|] eqn:Hr.
  - rewrite trim_start_unfold, (white_head_app _ _ t Hr).
    apply IH; [apply white_head_shorter, Hr | apply all_white_spec, Ha].
  - subst a. reflexivity.
Qed.

Lemma all_white_app (a t : string) :
  all_white a = true -> all_white t = true -> all_white (a +:+ t) = true.
Proof.
  intros Ha Ht. apply all_white_spec. rewrite (trim_start_app _ _ Ha).
  apply all_white_spec, Ht.
Qed.

(** [trim_end] cuts a text before a tail of white space. *)
Lemma trim_end_split (s : string) :
  exists r, s = trim_end s +:+ r /\ all_white r = true.
Proof.
  induction s as [|c s (r & Hs & Hr)]; [exists ""; split; reflexivity|].
  cbn [trim_end]. destruct (all_white (String c s)) eqn:Hw.
  - exists (String c s). split; [reflexivity | exact Hw].
  - exists r. split; [|exact Hr].
    change (String c (trim_end s) +:+ r) with (String c (trim_end s +:+ r)).
    f_equal. exact Hs.
Qed.

Lemma trim_end_idempotent (s : string) : trim_end (trim_end s) = trim_end s.
Proof.
  induction s as [|c s IH]; [reflexivity|].
  cbn [trim_end]. destruct (all_white (String c s)) eqn:Hw; [reflexivity|].
  cbn [trim_end]. rewrite IH.
  destruct (all_white (String c (trim_end s))) eqn:Hw'; [|reflexivity].
  destruct (trim_end_split s) as (r & Hs & Hr).
  pose proof (all_white_app _ _ Hw' Hr) as Hall.
  change (String c (trim_end s) +:+ r) with (String c (trim_end s +:+ r)) in Hall.
  rewrite <- Hs in Hall. congruence.
Qed.

(** [trim_end] brings no white space to the head. *)
Lemma trim_end_head (s : string) : white_head s = None -> white_head (trim_end s) = None.
Proof.
  intros Hs. destruct (white_head (trim_end s)) as [r|] eqn:Hr; [|reflexivity].
  destruct (trim_end_split s) as (t & Hsplit & _).
  apply (white_head_app _ _ t) in Hr. rewrite <- Hsplit in Hr. congruence.
Qed.

(** [trim] is idempotent: the second [trim], applied by the schema to a
    text the route has already trimmed, changes nothing. *)
Lemma trim_idempotent (s : string) : trim (trim s) = trim s.
Proof.
  unfold trim.
  rewrite (trim_start_fixed (trim_end (trim_start s)))
    by (apply trim_end_head, trim_start_head).
  apply trim_end_idempotent.
Qed.

(** A text is trimmed to nothing exactly when it is white space only. *)
Lemma trim_empty (s : string) : trim s = "" <-> all_white s = true.
Proof.
  unfold trim. rewrite all_white_spec. split.
  - intros H. destruct (trim_start s) as [|c r] eqn:Hs; [reflexivity|].
    cbn [trim_end] in H. destruct (all_white (String c r)) eqn:Hw; [|discriminate H].
    apply all_white_spec in Hw. rewrite <- Hs in Hw.
    rewrite trim_start_fixed in Hw by apply trim_start_head.
    rewrite Hs in Hw. exact Hw.
  - intros ->. reflexivity.
Qed.

End TrimProps.

(** X6. The report stored by a 201 answer: its [_id] was not in use, its
    status is [pending], its owner is the requester, its location is the
    point [longitude, latitude] of the request with the latitude in
    [-90, 90] and the longitude in [-180, 180], its title is the trimmed
    title of the request and is not empty, and its category is [standard]
    when the request names none. *)
Theorem created_report_fields pf dt ts (user_id : Z) (b : body) (env : post_env)
        (w w' : world) (doc : document) (p : property) (cls : option result) :
  post_report pf dt ts user_id b env w = (Created doc p cls, w') ->
  reports w !! fresh_id env = None /\
  reports w' !! fresh_id env = Some doc /\
  doc !! "_id" = Some (ObjectId (fresh_id env)) /\
  doc !! "status" = Some (Str "pending") /\
  doc !! "user" = Some (ObjectId user_id) /\
  doc !! "location"
  = Some (Obj [("type", Str "Point");
               ("coordinates", Arr [Num (pf (longitude b)); Num (pf (latitude b))])]) /\
  ge (pf (latitude b)) (neg lit_90) = true /\ ge lit_90 (pf (latitude b)) = true /\
  ge (pf (longitude b)) (neg lit_180) = true /\ ge lit_180 (pf (longitude b)) = true /\
  (exists t, title b = Str t /\ doc !! "title" = Some (Str (trim t)) /\ trim t <> "") /\
  (truthy (reportType b) = false -> doc !! "reportType" = Some (Str "standard")).
Proof.
  intros Hpost.
  apply PostProps.post_report_created in Hpost
    as (img & svc & up & obj & Hvalidate & _ & _ & Hobj & Hval & _ & Hfresh & _ & ->).
  apply validate_request_iff in Hvalidate
    as (_ & _ & _ & _ & _ & _ & _ & _ & _ & _ & L1 & L2 & L3 & L4 & _).
  destruct (PointsProps.stored_category _ _ _ _ _ _ _ _ _ _ _ Hobj Hval)
    as (Huser & category & Hfinal & Htype & _).
  split; [exact Hfresh|].
  split; [cbn [reports]; apply lookup_insert_eq|].
  split.
  { pose proof (PostProps.validate_ok _ _ Hval) as (-> & _).
    rewrite PostProps.new_Report_unfold.
    rewrite SchemaProps.set_paths_other by exact PostProps.schema_names_not_id.
    cbn [fields]. apply lookup_singleton_eq. }
  split.
  { destruct (PostProps.validated_path _ _ _ _ _ status_path Hval) as [Hlook _].
    { do 10 right. left. reflexivity. }
    cbn [path_name status_path] in Hlook. rewrite Hlook. unfold path_value.
    cbn [path_name status_path].
    rewrite (proj2 (proj2 (proj2 (PostProps.report_object_snapshot _ _ _ _ _ _ _ _ Hobj)))).
    reflexivity. }
  split; [exact Huser|].
  unfold report_object in Hobj.
  destruct (title b) as [| | | |t| | | |] eqn:Ht; try discriminate;
    destruct (details b) as [| | | |d| | | |]; try discriminate;
    destruct (address b) as [| | | |a| | | |]; try discriminate.
  destruct (truthy (photoTimestamp b) && to_primitive_throws (photoTimestamp b));
    [discriminate|].
  injection Hobj as <-.
  split.
  { destruct (PostProps.validated_path _ _ _ _ _ (Path "location" Point_t true false None NoDefault)
                Hval) as [Hlook Hvalid].
    { do 4 right. left. reflexivity. }
    cbn [path_name] in Hlook. rewrite Hlook.
    unfold path_valid in Hvalid. cbn [path_name] in Hvalid. rewrite Hlook in Hvalid.
    unfold path_value in Hvalid |- *. cbn [path_name get String.eqb Ascii.eqb] in Hvalid |- *.
    cbn in Hvalid |- *.
    destruct (is_NaN (pf (longitude b))); [discriminate Hvalid|].
    destruct (is_NaN (pf (latitude b))); [discriminate Hvalid|]. reflexivity. }
  split; [exact L1|]. split; [exact L2|]. split; [exact L3|]. split; [exact L4|].
  split.
  - exists t. split; [reflexivity|].
    destruct (PostProps.validated_path _ _ _ _ _ (Path "title" String_t true true None NoDefault)
                Hval) as [Hlook Hvalid].
    { left. reflexivity. }
    cbn [path_name] in Hlook.
    assert (doc !! "title" = Some (Str (trim t))) as Htitle.
    { rewrite Hlook. unfold path_value. cbn. rewrite TrimProps.trim_idempotent. reflexivity. }
    split; [exact Htitle|].
    unfold path_valid in Hvalid. cbn [path_name] in Hvalid. rewrite Htitle in Hvalid.
    cbn [required enum andb] in Hvalid.
    intros Hempty. rewrite Hempty in Hvalid. discriminate Hvalid.
  - intros Hfalsy. unfold finalReportType in Hfinal. rewrite Hfalsy in Hfinal.
    injection Hfinal as <-. exact Htype.
Qed.

(** Witness of [created_report_fields]: the sample request. *)
Lemma created_report_fields_witness :
  exists doc w',
    post_report Samples.parseFloat Samples.Date_of Samples.toString 7 Samples.request
                Samples.env_ok Samples.world0
    = (Created doc (Number 10) (Some (classify_response Samples.data_0_9)), w') /\
    doc !! "status" = Some (Str "pending") /\
    doc !! "title" = Some (Str "Overflowing bin").
Proof.
  assert (exists doc w',
             post_report Samples.parseFloat Samples.Date_of Samples.toString 7 Samples.request
                         Samples.env_ok Samples.world0
             = (Created doc (Number 10) (Some (classify_response Samples.data_0_9)), w'))
    as (doc & w' & H).
  { vm_compute. eexists. eexists. reflexivity. }
  exists doc, w'. split; [exact H|].
  destruct (created_report_fields _ _ _ _ _ _ _ _ _ _ _ H)
    as (_ & _ & _ & Hstatus & _ & _ & _ & _ & _ & _ & (t & Ht & Htitle & _) & _).
  split; [exact Hstatus|].
  injection Ht as <-. exact Htitle.
Defined.

(** ** Refusals *)

(** X7. The size limit is inclusive: a string image is answered 413
    IMAGE_TOO_LARGE exactly when it decodes to more than 5 * 1024 * 1024
    bytes, and then whatever else the request holds.  For an image of [n]
    characters ['A'] that is from [n = 6990508] on (5242881 bytes), while
    6990507 characters, which decode to exactly 5 MiB, pass the check. *)
Theorem size_limit_inclusive pf (b : body) (img : string) :
  image b = Str img ->
  (validate_request pf b = inl ImageTooLarge <->
   5 * 1024 * 1024 < base64_length (strip_data_url img)) /\
  (forall n : positive,
      img = Pos.iter (String "A"%char) EmptyString n ->
      (validate_request pf b = inl ImageTooLarge <-> 6990508 <= Z.pos n)).
Proof.
  intros Himg.
  assert (validate_request pf b = inl ImageTooLarge <->
          MAX_IMAGE_BYTES < base64_length (strip_data_url img)) as Hiff.
  { unfold validate_request, check_format. rewrite Himg.
    destruct (_ <? _) eqn:Hsize.
    - apply Z.ltb_lt in Hsize. tauto.
    - apply Z.ltb_ge in Hsize. split; [|lia].
      destruct (missing b); [|discriminate].
      repeat match goal with
             | |- context [if ?c then _ else _] => destruct c
             end; discriminate. }
  split; [exact Hiff|].
  intros n ->. rewrite Hiff.
  destruct (run_of_A_head n) as [rest Hhead].
  assert (strip_data_url (Pos.iter (String "A"%char) EmptyString n)
          = Pos.iter (String "A"%char) EmptyString n) as ->.
  { rewrite Hhead. reflexivity. }
  unfold base64_length. rewrite run_of_A_digits. cbn [base64_digits].
  unfold MAX_IMAGE_BYTES. rewrite Z.add_0_r.
  pose proof (Z.mul_div_le (Z.pos n * 3) 4 eq_refl) as Hlow.
  pose proof (Z.mul_succ_div_gt (Z.pos n * 3) 4 eq_refl) as Hhigh.
  revert Hlow Hhigh. generalize (Z.pos n * 3 / 4). intros q Hlow Hhigh. lia.
Qed.

(** Witness of [size_limit_inclusive]: the sample request. *)
Lemma size_limit_inclusive_witness :
  image Samples.request = Str "AAAA" /\
  validate_request Samples.parseFloat Samples.request <> inl ImageTooLarge.
Proof.
  split; [reflexivity|].
  intros H.
  apply (proj1 (size_limit_inclusive Samples.parseFloat Samples.request "AAAA" eq_refl)) in H.
  vm_compute in H. discriminate H.
Defined.

(** The [TypeError] of a string method called on a value that is there
    and is not a string. *)
Lemma not_a_string_truthy (name method : string) (v : value) :
  truthy v = true ->
  not_a_string name method v = name +:+ "." +:+ method +:+ " is not a function".
Proof.
  intros Htruthy. destruct v; try reflexivity; discriminate Htruthy.
Qed.

(** X8. The text fields are used as strings without a check of their
    type.  An [image] that is not a string is answered 500
    INTERNAL_SERVER_ERROR before any check is made, the check for missing
    fields included, and nothing changes: [image.replace] raises first.
    A [title], [details] or [address] that is there and is not a string (a
    number, [true], an array, an object) passes validation; the image is
    verified and uploaded, and only then does [trim()] raise: the answer
    is 500 with the message of the first of the three calls that fails,
    and no report is stored. *)
Theorem text_fields_type_errors pf dt ts (user_id : Z) (b : body) (env : post_env)
        (w : world) :
  let answer := post_report pf dt ts user_id b env w in
  ((forall s, image b <> Str s) ->
   answer = (InternalServerError (not_a_string "image" "replace" (image b)), w) /\
   status (fst answer) = 500 /\
   (image b = Undefined ->
    In "image" (missing b) /\
    fst answer
    = InternalServerError "Cannot read properties of undefined (reading 'replace')") /\
   (truthy (image b) = true ->
    fst answer = InternalServerError "image.replace is not a function")) /\
  (forall img cls svc up,
      validate_request pf b = inr img ->
      verify img b env (service w) = (inr cls, svc) ->
      upload_image env = inr up ->
      let failed name :=
        answer = (InternalServerError (name +:+ ".trim is not a function"),
                  World svc (reports w) (users w)) in
      ((forall s, title b <> Str s) -> failed "title") /\
      (forall t, title b = Str t -> (forall s, details b <> Str s) -> failed "details") /\
      (forall t d, title b = Str t -> details b = Str d ->
                   (forall s, address b <> Str s) -> failed "address")).
Proof.
  cbv zeta. split.
  - intros Hnot.
    assert (post_report pf dt ts user_id b env w
            = (InternalServerError (not_a_string "image" "replace" (image b)), w)) as ->.
    { unfold post_report, validate_request.
      destruct (image b) as [| | | |s| | | |]; try reflexivity.
      destruct (Hnot s eq_refl). }
    cbn [fst]. split; [reflexivity|]. split; [reflexivity|]. split.
    + intros Himage. rewrite Himage. split; [|reflexivity].
      unfold missing. rewrite Himage. cbn [truthy].
      apply in_or_app. right. left. reflexivity.
    + intros Htruthy. rewrite (not_a_string_truthy _ _ _ Htruthy). reflexivity.
  - intros img cls svc up Hvalidate Hverify Hupload.
    apply validate_request_iff in Hvalidate as Hfields.
    destruct Hfields as (_ & _ & Ht & _ & Hd & Ha & _).
    unfold post_report. rewrite Hvalidate, Hverify, Hupload. unfold report_object.
    split; [|split].
    + intros Hnot.
      destruct (title b) as [| | | |s| | | |]; try discriminate Ht; try reflexivity.
      destruct (Hnot s eq_refl).
    + intros t -> Hnot.
      destruct (details b) as [| | | |s| | | |]; try discriminate Hd; try reflexivity.
      destruct (Hnot s eq_refl).
    + intros t d -> -> Hnot.
      destruct (address b) as [| | | |s| | | |]; try discriminate Ha; try reflexivity.
      destruct (Hnot s eq_refl).
Qed.

(** Witness of [text_fields_type_errors]: the sample request without an
    image, and the sample request with the number 1 as its title. *)
Lemma text_fields_type_errors_witness :
  let no_image := Body (Str "Overflowing bin") Undefined (Str "Bags on the pavement")
                       (Str "1 Main Street") (Num lit_0) (Num lit_0)
                       Undefined Undefined Undefined in
  let number_title := Body (Num Samples.lit_1) (Str "AAAA") (Str "Bags on the pavement")
                           (Str "1 Main Street") (Num lit_0) (Num lit_0)
                           Undefined Undefined Undefined in
  fst (post_report Samples.parseFloat Samples.Date_of Samples.toString 7 no_image
                   Samples.env_ok Samples.world0)
  = InternalServerError "Cannot read properties of undefined (reading 'replace')" /\
  validate_request Samples.parseFloat number_title = inr "AAAA" /\
  fst (post_report Samples.parseFloat Samples.Date_of Samples.toString 7 number_title
                   Samples.env_ok Samples.world0)
  = InternalServerError "title.trim is not a function".
Proof.
  intros no_image number_title. split; [|split].
  - destruct (text_fields_type_errors Samples.parseFloat Samples.Date_of Samples.toString 7
                no_image Samples.env_ok Samples.world0) as [Himage _].
    destruct Himage as (_ & _ & Habsent & _); [intros s; discriminate|].
    apply Habsent. reflexivity.
  - vm_compute. reflexivity.
  - destruct (text_fields_type_errors Samples.parseFloat Samples.Date_of Samples.toString 7
                number_title Samples.env_ok Samples.world0) as [_ Htext].
    assert (validate_request Samples.parseFloat number_title = inr "AAAA") as Hv
        by (vm_compute; reflexivity).
    assert (verify "AAAA" number_title Samples.env_ok (service Samples.world0)
            = (inr (Some (classify_response Samples.data_0_9)),
               snd (verify "AAAA" number_title Samples.env_ok (service Samples.world0)))) as Hg
        by (vm_compute; reflexivity).
    destruct (Htext "AAAA" _ _ Samples.uploaded Hv Hg eq_refl) as (Htitle & _).
    rewrite Htitle by (intros s; discriminate). reflexivity.
Defined.

(** A path that fails its validators fails the document. *)
Lemma validate_invalid (d : draft) (p : path) :
  In p reportSchema ->
  path_valid (fields d) p = false ->
  exists bad, validate d = inl bad /\ In (path_name p) bad.
Proof.
  intros Hin Hinvalid. unfold validate.
  assert (In (path_name p) (invalid_paths d)) as Hbad.
  { unfold invalid_paths. apply in_or_app. right.
    apply in_map, filter_In. rewrite Hinvalid. auto. }
  destruct (invalid_paths d) as [|x xs]; [destruct Hbad|].
  eexists. split; [reflexivity | exact Hbad].
Qed.

(** A value that cannot be cast fails the document, under the name of its
    path. *)
Lemma set_path_errors_grow ts (now : Z) (obj : list (string * value)) (d : draft) (p : path)
      (k : string) :
  In k (cast_errors d) -> In k (cast_errors (set_path ts now obj d p)).
Proof.
  intros Hk. unfold set_path.
  destruct (get obj (path_name p));
    try (destruct (default_value now (default p)); exact Hk);
    destruct (cast _ _); cbn [cast_errors]; try exact Hk;
    (apply in_or_app; left; exact Hk).
Qed.

Lemma set_paths_cast_error ts (now : Z) (obj : list (string * value)) (p : path)
      (ps : list path) :
  forall d : draft,
    In p ps ->
    truthy (get obj (path_name p)) = true ->
    cast ts p (get obj (path_name p)) = None ->
    In (path_name p) (cast_errors (fold_left (set_path ts now obj) ps d)).
Proof.
  assert (forall qs d k, In k (cast_errors d) ->
                         In k (cast_errors (fold_left (set_path ts now obj) qs d))) as Hkeep.
  { induction qs as [|q qs IHq]; intros d k Hk; [exact Hk|].
    cbn [fold_left]. apply IHq, set_path_errors_grow, Hk. }
  induction ps as [|q ps IH]; intros d Hin Htruthy Hcast; [destruct Hin|].
  cbn [fold_left]. destruct Hin as [-> | Hin]; [|apply IH; assumption].
  apply Hkeep. unfold set_path.
  destruct (get obj (path_name p)); try discriminate Htruthy;
    rewrite Hcast; cbn [cast_errors]; apply in_or_app; right; left; reflexivity.
Qed.

Lemma validate_cast_error (d : draft) (k : string) :
  In k (cast_errors d) -> exists bad, validate d = inl bad /\ In k bad.
Proof.
  intros Hk. unfold validate.
  assert (In k (invalid_paths d)) as Hbad by (apply in_or_app; left; exact Hk).
  destruct (invalid_paths d) as [|x xs]; [destruct Hbad|].
  eexists. split; [reflexivity | exact Hbad].
Qed.

(** What [POST /] answers once the image has been uploaded and the
    object for [new Report] has been built. *)
Lemma post_report_after_upload pf dt ts (user_id : Z) (b : body) (env : post_env) (w : world)
      (img : string) (cls : option result) (svc : Classification.state)
      (up : upload_response) (obj : list (string * value)) :
  validate_request pf b = inr img ->
  verify img b env (service w) = (inr cls, svc) ->
  upload_image env = inr up ->
  report_object pf dt user_id (clock svc) b up cls = inr obj ->
  post_report pf dt ts user_id b env w =
  match save env (new_Report ts (clock svc) (fresh_id env) obj) (reports w) with
  | inl r => (r, World svc (reports w) (users w))
  | inr (doc, rs) =>
      match pointsToAdd ts b with
      | Some p => (Created doc p cls, World svc rs (award env user_id p (users w)))
      | None => (InternalServerError cannot_convert, World svc rs (users w))
      end
  end.
Proof.
  intros Hvalidate Hverify Hupload Hobj.
  unfold post_report. rewrite Hvalidate, Hverify, Hupload, Hobj. reflexivity.
Qed.

Lemma save_invalid (env : post_env) (d : draft) (rs : gmap Z document) (bad : list string) :
  validate d = inl bad -> save env d rs = inl (ValidationError bad).
Proof. intros H. unfold save. rewrite H. reflexivity. Qed.

(** The object for [new Report] is built when the three text fields are
    strings and the photo timestamp, if there is one, has a primitive
    value. *)
Lemma report_object_built pf dt (user_id now : Z) (b : body) (up : upload_response)
      (cls : option result) (t d a : string) :
  title b = Str t -> details b = Str d -> address b = Str a ->
  (truthy (photoTimestamp b) = true -> to_primitive_throws (photoTimestamp b) = false) ->
  exists rest,
    report_object pf dt user_id now b up cls
    = inr (("title", Str (trim t)) :: rest) /\
    get (("title", Str (trim t)) :: rest) "reportType" = finalReportType b.
Proof.
  intros Ht Hd Ha Hphoto. unfold report_object. rewrite Ht, Hd, Ha.
  assert (truthy (photoTimestamp b) && to_primitive_throws (photoTimestamp b) = false) as ->.
  { destruct (truthy (photoTimestamp b)); [apply Hphoto; reflexivity | reflexivity]. }
  eexists. split; reflexivity.
Qed.

(** X9. A title made of white space only, whichever white-space
    characters of the language it is made of, passes the missing-field
    check (it is a non-empty string) and is refused only by [save], after
    the image has been uploaded: the answer is 400 VALIDATION_ERROR naming
    [title], and no report is stored and no points move. *)
Theorem blank_title_rejected pf dt ts (user_id : Z) (b : body) (env : post_env) (w : world)
        (img : string) (cls : option result) (svc : Classification.state)
        (up : upload_response) (t d a : string) :
  validate_request pf b = inr img ->
  verify img b env (service w) = (inr cls, svc) ->
  upload_image env = inr up ->
  title b = Str t -> details b = Str d -> address b = Str a ->
  (truthy (photoTimestamp b) = true -> to_primitive_throws (photoTimestamp b) = false) ->
  all_white t = true ->
  exists bad,
    post_report pf dt ts user_id b env w
    = (ValidationError bad, World svc (reports w) (users w)) /\
    In "title" bad /\
    status (ValidationError bad) = 400 /\ code (ValidationError bad) = "VALIDATION_ERROR".
Proof.
  intros Hvalidate Hverify Hupload Ht Hd Ha Hphoto Hblank.
  apply TrimProps.trim_empty in Hblank.
  destruct (report_object_built pf dt user_id (clock svc) b up cls t d a Ht Hd Ha Hphoto)
    as (rest & Hobj & _).
  rewrite (post_report_after_upload _ _ _ _ _ _ _ _ _ _ _ _ Hvalidate Hverify Hupload Hobj).
  destruct (validate_invalid
              (new_Report ts (clock svc) (fresh_id env) (("title", Str (trim t)) :: rest))
              (Path "title" String_t true true None NoDefault)) as (bad & Hbad & Hin).
  { left. reflexivity. }
  { unfold path_valid. cbn [path_name]. rewrite PostProps.new_Report_unfold.
    rewrite (SchemaProps.set_paths_path _ _ _ (Path "title" String_t true true None NoDefault))
      by (auto using SchemaProps.reportSchema_names_NoDup; left; reflexivity).
    unfold path_value. cbn [path_name get String.eqb Ascii.eqb Bool.eqb].
    unfold cast. cbn [path_type castString trimmed].
    rewrite Hblank. reflexivity. }
  exists bad. rewrite (save_invalid _ _ _ _ Hbad). auto.
Qed.

(** Witness of [blank_title_rejected]: the sample request with a title
    of two no-break spaces. *)
Lemma blank_title_rejected_witness :
  missing Samples.request_blank_title = [] /\
  exists bad,
    fst (post_report Samples.parseFloat Samples.Date_of Samples.toString 7
                     Samples.request_blank_title Samples.env_ok Samples.world0)
    = ValidationError bad /\ In "title" bad.
Proof.
  split; [reflexivity|].
  assert (validate_request Samples.parseFloat Samples.request_blank_title = inr "AAAA") as Hv
      by (vm_compute; reflexivity).
  assert (verify "AAAA" Samples.request_blank_title Samples.env_ok (service Samples.world0)
          = (inr (Some (classify_response Samples.data_0_9)),
             snd (verify "AAAA" Samples.request_blank_title Samples.env_ok
                         (service Samples.world0)))) as Hg
      by (vm_compute; reflexivity).
  destruct (blank_title_rejected Samples.parseFloat Samples.Date_of Samples.toString 7
              Samples.request_blank_title Samples.env_ok
              Samples.world0 "AAAA" _ _ Samples.uploaded _ _ _
              Hv Hg eq_refl eq_refl eq_refl eq_refl) as (bad & Hpost & Hin & _).
  { discriminate. }
  { reflexivity. }
  exists bad. rewrite Hpost. auto.
Defined.

(** X10. Which categories create a report.  The schema refuses every
    [reportType] whose text is outside its enumeration, and the text is
    the one the library casts the value to: for a [reportType] that is
    another text, a boolean, an array, a number whose text is no
    category, or an object that holds no category under [_id], [save]
    refuses the document once the image has been uploaded; the answer is
    400 VALIDATION_ERROR naming [reportType], nothing is stored and no
    points are awarded, so that the fallback of 10 points at line 165 is
    not reached for any of them. *)
Theorem unknown_category_rejected pf dt ts (user_id : Z) (b : body) (env : post_env)
        (w : world) (img : string) (cls : option result) (svc : Classification.state)
        (up : upload_response) (t d a : string) :
  validate_request pf b = inr img ->
  verify img b env (service w) = (inr cls, svc) ->
  upload_image env = inr up ->
  title b = Str t -> details b = Str d -> address b = Str a ->
  (truthy (photoTimestamp b) = true -> to_primitive_throws (photoTimestamp b) = false) ->
  truthy (reportType b) = true ->
  (exists c, reportType b = Str c /\ ~ In c ["standard"; "hazardous"; "large"]) \/
  (exists bo, reportType b = Bool bo) \/
  (exists xs, reportType b = Arr xs) \/
  (exists x, reportType b = Num x /\ ~ In (ts (Num x)) ["standard"; "hazardous"; "large"]) \/
  (exists fs, reportType b = Obj fs /\
              forall c, get fs "_id" = Str c -> ~ In c ["standard"; "hazardous"; "large"]) ->
  exists bad,
    post_report pf dt ts user_id b env w
    = (ValidationError bad, World svc (reports w) (users w)) /\
    In "reportType" bad /\
    status (ValidationError bad) = 400.
Proof.
  intros Hvalidate Hverify Hupload Ht Hd Ha Hphoto Htruthy Hunknown.
  destruct (report_object_built pf dt user_id (clock svc) b up cls t d a Ht Hd Ha Hphoto)
    as (rest & Hobj & Htype).
  rewrite (post_report_after_upload _ _ _ _ _ _ _ _ _ _ _ _ Hvalidate Hverify Hupload Hobj).
  set (obj := ("title", Str (trim t)) :: rest) in *.
  assert (get obj "reportType" = reportType b) as Hget.
  { rewrite Htype. unfold finalReportType. rewrite Htruthy. reflexivity. }
  assert (forall c, castString ts (reportType b) = Some c ->
                    ~ In c ["standard"; "hazardous"; "large"]) as Hcast.
  { intros c.
    destruct Hunknown as [(c' & -> & Hc) | [(bo & ->) | [(xs & ->) | [(x & -> & Hx)
                           | (fs & -> & Hfs)]]]]; cbn [castString].
    - intros [= <-]. exact Hc.
    - destruct bo; intros [= <-] Hc; cbn in Hc;
        repeat destruct Hc as [Hc | Hc]; discriminate Hc || exact Hc.
    - discriminate.
    - intros [= <-]. exact Hx.
    - destruct (get fs "_id") as [| | | |id| | | |] eqn:Hid; try discriminate.
      destruct (String.eqb id ""); [discriminate|]. intros [= <-]. apply Hfs. reflexivity. }
  assert (exists bad, validate (new_Report ts (clock svc) (fresh_id env) obj) = inl bad /\
                      In "reportType" bad) as (bad & Hbad & Hin).
  { destruct (cast ts reportType_path (reportType b)) as [v|] eqn:Hv.
    - unfold cast in Hv. cbn [path_type reportType_path trimmed] in Hv.
      destruct (castString ts (reportType b)) as [c|] eqn:Hc; [|discriminate Hv].
      injection Hv as <-.
      apply (validate_invalid _ reportType_path PointsProps.reportType_path_in).
      unfold path_valid. cbn [path_name reportType_path].
      rewrite PostProps.new_Report_unfold.
      rewrite (SchemaProps.set_paths_path _ _ _ reportType_path)
        by (auto using SchemaProps.reportSchema_names_NoDup, PointsProps.reportType_path_in).
      assert (path_value ts (clock svc) obj reportType_path = Some (Str c)) as ->.
      { unfold path_value. cbn [path_name reportType_path]. rewrite Hget.
        destruct (reportType b); try discriminate Htruthy;
          unfold cast; cbn [path_type reportType_path trimmed]; rewrite Hc; reflexivity. }
      cbn [required enum reportType_path andb negb].
      destruct (existsb (String.eqb c) reportType_enum) eqn:Hex; [|reflexivity].
      apply existsb_exists in Hex as (x & Hx & Heq). apply String.eqb_eq in Heq. subst x.
      destruct (Hcast c eq_refl Hx).
    - apply (validate_cast_error _ "reportType").
      rewrite PostProps.new_Report_unfold.
      apply (set_paths_cast_error _ _ _ reportType_path);
        cbn [path_name reportType_path]; try rewrite Hget;
        auto using PointsProps.reportType_path_in. }
  exists bad. rewrite (save_invalid _ _ _ _ Hbad). auto.
Qed.

(** Witness of [unknown_category_rejected]: the sample request with
    [reportType: "toxic"]. *)
Lemma unknown_category_rejected_witness :
  let b := Samples.request_of_type (Str "toxic") in
  points_or_10 "toxic" = Number 10 /\
  exists bad,
    fst (post_report Samples.parseFloat Samples.Date_of Samples.toString 7 b
                     Samples.env_ok Samples.world0)
    = ValidationError bad /\ In "reportType" bad.
Proof.
  intros b. split; [reflexivity|].
  assert (validate_request Samples.parseFloat b = inr "AAAA") as Hv
      by (vm_compute; reflexivity).
  assert (verify "AAAA" b Samples.env_ok (service Samples.world0)
          = (inr (Some (classify_response Samples.data_0_9)),
             snd (verify "AAAA" b Samples.env_ok (service Samples.world0)))) as Hg
      by (vm_compute; reflexivity).
  destruct (unknown_category_rejected Samples.parseFloat Samples.Date_of Samples.toString 7 b
              Samples.env_ok Samples.world0 "AAAA" _ _ Samples.uploaded _ _ _
              Hv Hg eq_refl eq_refl eq_refl eq_refl) as (bad & Hpost & Hin & _).
  { discriminate. }
  { reflexivity. }
  { left. exists "toxic". split; [reflexivity|].
    intros Hc. cbn in Hc. repeat destruct Hc as [Hc | Hc]; discriminate Hc || exact Hc. }
  exists bad. rewrite Hpost. auto.
Defined.

(** X20. A category sent as an object.  The library takes an object with
    a text under [_id] for that text, so that [{ "_id": "hazardous" }] is
    stored as the category hazardous, while line 165 looks the object up
    in [pointsMap] under the text [[object Object]]: a report created
    from a [reportType] that is an object has the category found under
    [_id], earns the fallback of 10 points whatever the category, and
    costs the points of its category when it is deleted. *)
Theorem category_object_points pf dt ts (user_id : Z) (b : body) (env : post_env)
        (w w1 : world) (doc : document) (p : property) (cls : option result)
        (fs : list (string * value)) :
  post_report pf dt ts user_id b env w = (Created doc p cls, w1) ->
  reportType b = Obj fs ->
  exists category,
    get fs "_id" = Str category /\
    In category ["standard"; "hazardous"; "large"] /\
    doc !! "reportType" = Some (Str category) /\
    p = Number 10 /\
    pointsToDeduct doc = Number (category_points category) /\
    (category = "hazardous" -> pointsToDeduct doc = Number 20) /\
    (category = "large" -> pointsToDeduct doc = Number 15).
Proof.
  intros Hpost Hfs.
  apply PostProps.post_report_created in Hpost
    as (img & svc & up & obj & _ & _ & _ & Hobj & Hval & _ & _ & Hpoints & _).
  destruct (PointsProps.stored_category _ _ _ _ _ _ _ _ _ _ _ Hobj Hval)
    as (_ & category & Hcast & Htype & Hin).
  unfold finalReportType in Hcast. unfold pointsToAdd, finalReportType in Hpoints.
  rewrite Hfs in Hcast, Hpoints. cbn [truthy castString] in Hcast, Hpoints.
  assert (pointsToDeduct doc = Number (category_points category)) as Hdeduct.
  { unfold pointsToDeduct. rewrite Htype.
    destruct Hin as [<- | [<- | [<- | []]]]; reflexivity. }
  exists category. split.
  { destruct (get fs "_id") as [| | | |id| | | |]; try discriminate Hcast.
    destruct (String.eqb id ""); [discriminate Hcast|]. congruence. }
  split; [exact Hin|]. split; [exact Htype|]. split.
  { destruct (PointsProps.object_points ts fs) as [Hnone | [Hsome Hten]].
    - rewrite Hnone in Hpoints. discriminate Hpoints.
    - rewrite Hsome in Hpoints. congruence. }
  split; [exact Hdeduct|].
  split; intros ->; exact Hdeduct.
Qed.

(** Witness of [category_object_points]: the sample request with
    [reportType: { "_id": "hazardous" }] earns user 7 ten points, and
    deleting the report takes twenty. *)
Lemma category_object_points_witness :
  let b := Samples.request_of_type Samples.hazardous_reference in
  exists doc w1,
    post_report Samples.parseFloat Samples.Date_of Samples.toString 7 b
                Samples.env_ok Samples.world0
    = (Created doc (Number 10) (Some (classify_response Samples.data_0_9)), w1) /\
    doc !! "reportType" = Some (Str "hazardous") /\
    pointsToDeduct doc = Number 20.
Proof.
  intros b.
  assert (exists doc w1,
             post_report Samples.parseFloat Samples.Date_of Samples.toString 7 b
                         Samples.env_ok Samples.world0
             = (Created doc (Number 10) (Some (classify_response Samples.data_0_9)), w1))
    as (doc & w1 & H).
  { vm_compute. eexists. eexists. reflexivity. }
  exists doc, w1. split; [exact H|].
  destruct (category_object_points _ _ _ _ _ _ _ _ _ _ _ _ H eq_refl)
    as (category & Hid & _ & Htype & _ & _ & Hhazardous & _).
  injection Hid as <-. split; [exact Htype | apply Hhazardous; reflexivity].
Defined.

(** What that costs the user: after creating such a report and deleting
    it, user 7, who had no points, is at -10. *)
Example category_object_round_trip :
  let created := post_report Samples.parseFloat Samples.Date_of Samples.toString 7
                             (Samples.request_of_type Samples.hazardous_reference)
                             Samples.env_ok Samples.world0 in
  let deleted := delete_report 7 1 Samples.delete_ok (snd created) in
  status (fst created) = 201 /\
  users (snd created) !! 7 = Some (User 1 10) /\
  fst deleted = Deleted /\
  users (snd deleted) !! 7 = Some (User 0 (-10)).
Proof. vm_compute. repeat split; reflexivity. Qed.

(** ** Invariants of the cache *)

Module CacheInvariantProps.

Import Classification CacheInvariants.

(** What a timer run leaves in the cache was there before. *)
Lemma fire_some (t : Z) (h : string) (r : result) (tms : list (Z * string)) :
  forall cache : gmap string result,
    fold_left (fire t) tms cache !! h = Some r -> cache !! h = Some r.
Proof.
  induction tms as [|[d k] tms IH]; intros cache H; [exact H|].
  cbn [fold_left] in H. apply IH in H. unfold fire in H; cbn [fst snd] in H.
  destruct (d <=? t); [|exact H].
  destruct (decide (k = h)) as [->|Hne].
  - rewrite lookup_delete_eq in H. discriminate.
  - rewrite lookup_delete_ne in H by exact Hne. exact H.
Qed.

Lemma settle_json (out : fetch_outcome) (r : result) :
  settle out = inr r -> exists data, out = FetchJson data /\ r = classify_response data.
Proof.
  destruct out as [name message | st text | data]; cbn; try discriminate.
  intros [= <-]. eauto.
Qed.

Lemma scheduled_step (s : state) (e : event) : scheduled s -> scheduled (step s e).
Proof.
  intros Hs. destruct e as [id img | id out | t]; cbn [step].
  - unfold classify_begin. destruct (lookup img s); exact Hs.
  - unfold classify_settle. destruct (pending s !! id) as [img|]; [|exact Hs].
    unfold finish. destruct (settle out) as [err|r]; cbn [snd]; [exact Hs|].
    intros h v. unfold store, resume; cbn. intros Hlook.
    destruct (decide (fingerprint img = h)) as [<-|Hne].
    + exists (clock s + CACHE_TTL). split; [|lia].
      apply in_or_app. right. left. reflexivity.
    + rewrite lookup_insert_ne in Hlook by exact Hne.
      destruct (Hs h v Hlook) as (d & Hd & Hle).
      exists d. split; [apply in_or_app; left; exact Hd | exact Hle].
  - unfold advance. destruct (clock s <=? t) eqn:Ht; [|exact Hs].
    apply Z.leb_le in Ht. intros h v; cbn. intros Hlook.
    pose proof (fire_some _ _ _ _ _ Hlook) as Hbefore.
    destruct (Hs h v Hbefore) as (d & Hd & Hle).
    destruct (Z.le_gt_cases d t) as [Hdue | Hlater].
    + rewrite (CacheProps.fire_due t h d) in Hlook by assumption. discriminate.
    + exists d. split; [|lia]. apply filter_In. split; [exact Hd|].
      cbn. apply negb_true_iff, Z.leb_gt. exact Hlater.
Qed.

Lemma from_detector_step (s : state) (e : event) :
  from_detector s -> from_detector (step s e).
Proof.
  intros [Hc Hp]. destruct e as [id img | id out | t]; cbn [step].
  - unfold classify_begin. destruct (lookup img s); [split; assumption|].
    cbn [snd]. unfold suspend, send, from_detector.
    cbn [imageCache pending fetches timers clock]. split.
    + intros h r Hlook. destruct (Hc h r Hlook) as (img' & data & ? & ? & ?).
      exists img', data. repeat split; try assumption. apply in_or_app. left. assumption.
    + intros id' img' Hlook. apply in_or_app.
      destruct (decide (id = id')) as [->|Hne].
      * rewrite lookup_insert_eq in Hlook. injection Hlook as <-. right. left. reflexivity.
      * rewrite lookup_insert_ne in Hlook by exact Hne. left. eauto.
  - unfold classify_settle. destruct (pending s !! id) as [img|] eqn:Hid; [|split; assumption].
    assert (forall id' img', delete id (pending s) !! id' = Some img' -> In img' (fetches s))
      as Hp'.
    { intros id' img' Hlook. destruct (decide (id = id')) as [->|Hne].
      - rewrite lookup_delete_eq in Hlook. discriminate.
      - rewrite lookup_delete_ne in Hlook by exact Hne. eauto. }
    unfold finish. destruct (settle out) as [err|r] eqn:Hout; cbn [snd].
    + split; [exact Hc | exact Hp'].
    + apply settle_json in Hout as (data & _ & ->).
      unfold store, resume, from_detector.
      cbn [imageCache pending fetches timers clock].
      split; [|exact Hp'].
      intros h v Hlook. destruct (decide (fingerprint img = h)) as [<-|Hne].
      * rewrite lookup_insert_eq in Hlook. injection Hlook as <-.
        exists img, data. repeat split. eauto.
      * rewrite lookup_insert_ne in Hlook by exact Hne. eauto.
  - unfold advance. destruct (clock s <=? t); [|split; assumption].
    unfold from_detector. cbn [imageCache pending fetches timers clock].
    split; [|exact Hp].
    intros h r Hlook. apply fire_some in Hlook. eauto.
Qed.

Lemma invariants_run (es : list event) :
  forall s, scheduled s /\ from_detector s ->
            scheduled (run es s) /\ from_detector (run es s).
Proof.
  induction es as [|e es IH]; intros s Hs; [exact Hs|].
  cbn [run fold_left]. apply IH. destruct Hs.
  split; [apply scheduled_step | apply from_detector_step]; assumption.
Qed.

(** More events only add to what has been answered. *)
Lemma answered_more (es more : list event) (h : string) (r : result) :
  answered es h r -> answered (es ++ more) h r.
Proof.
  intros (id & img & data & Hbegin & Hsettle & Hfp & Hr).
  exists id, img, data. repeat split; try assumption; apply in_or_app; left; assumption.
Qed.

(** One event keeps the cache and the suspended calls traced. *)
Lemma traced_step (done : list event) (s : state) (e : event) :
  traced done s -> traced (done ++ [e]) (step s e).
Proof.
  intros [Hc Hp].
  assert (forall h r, imageCache s !! h = Some r -> answered (done ++ [e]) h r) as Hc'.
  { intros h r Hlook. apply answered_more, Hc, Hlook. }
  assert (forall id img, pending s !! id = Some img -> In (Begin id img) (done ++ [e])) as Hp'.
  { intros id img Hlook. apply in_or_app. left. apply (Hp _ _ Hlook). }
  destruct e as [id img | id out | t]; cbn [step].
  - unfold classify_begin. destruct (lookup img s); [split; assumption|].
    cbn [snd]. unfold suspend, send, traced.
    cbn [imageCache pending fetches timers clock]. split; [exact Hc'|].
    intros id' img' Hlook. destruct (decide (id = id')) as [->|Hne].
    + rewrite lookup_insert_eq in Hlook. injection Hlook as <-.
      apply in_or_app. right. left. reflexivity.
    + rewrite lookup_insert_ne in Hlook by exact Hne. eauto.
  - unfold classify_settle. destruct (pending s !! id) as [img|] eqn:Hid; [|split; assumption].
    assert (forall id' img', delete id (pending s) !! id' = Some img' ->
                             In (Begin id' img') (done ++ [Settle id out])) as Hp''.
    { intros id' img' Hlook. destruct (decide (id = id')) as [->|Hne].
      - rewrite lookup_delete_eq in Hlook. discriminate.
      - rewrite lookup_delete_ne in Hlook by exact Hne. eauto. }
    unfold finish. destruct (settle out) as [err|r] eqn:Hout; cbn [snd].
    + split; [exact Hc' | exact Hp''].
    + apply settle_json in Hout as (data & -> & ->).
      unfold store, resume, traced.
      cbn [imageCache pending fetches timers clock].
      split; [|exact Hp''].
      intros h v Hlook. destruct (decide (fingerprint img = h)) as [<-|Hne].
      * rewrite lookup_insert_eq in Hlook. injection Hlook as <-.
        exists id, img, data. split; [apply Hp', Hid|].
        split; [apply in_or_app; right; left; reflexivity|]. split; reflexivity.
      * rewrite lookup_insert_ne in Hlook by exact Hne. eauto.
  - unfold advance. destruct (clock s <=? t); [|split; assumption].
    unfold traced. cbn [imageCache pending fetches timers clock].
    split; [|exact Hp'].
    intros h r Hlook. apply fire_some in Hlook. eauto.
Qed.

Lemma traced_run (es : list event) :
  forall done s, traced done s -> traced (done ++ es) (run es s).
Proof.
  induction es as [|e es IH]; intros done s Hs.
  - rewrite app_nil_r. exact Hs.
  - cbn [run fold_left]. replace (done ++ e :: es)%list with ((done ++ [e]) ++ es)%list
      by (rewrite <- app_assoc; reflexivity).
    apply IH, traced_step, Hs.
Qed.

Lemma traced_initial : traced [] initial.
Proof.
  split.
  - intros h r H. cbn in H. rewrite lookup_empty in H. discriminate.
  - intros id img H. cbn in H. rewrite lookup_empty in H. discriminate.
Qed.

Lemma invariants_initial : scheduled initial /\ from_detector initial.
Proof.
  split; [|split].
  - intros h r H. cbn in H. rewrite lookup_empty in H. discriminate.
  - intros h r H. cbn in H. rewrite lookup_empty in H. discriminate.
  - intros id img H. cbn in H. rewrite lookup_empty in H. discriminate.
Qed.

End CacheInvariantProps.

(** X11. The cache does not leak: whatever calls, answers and clock
    advances the module has gone through since start-up, every entry then
    in the cache has a removal scheduled within 300000 ms, and once the
    clock is 300000 ms further the cache is empty. *)
Theorem cache_drains (es : list event) (t : Z) :
  clock (run es initial) + CACHE_TTL <= t ->
  CacheInvariants.scheduled (run es initial) /\
  imageCache (advance t (run es initial)) = ∅.
Proof.
  intros Ht.
  destruct (CacheInvariantProps.invariants_run es initial
              CacheInvariantProps.invariants_initial) as [Hs _].
  split; [exact Hs|].
  apply map_eq. intros h. rewrite lookup_empty.
  unfold advance.
  assert ((clock (run es initial) <=? t) = true) as ->
      by (apply Z.leb_le; pose proof CacheProps.CACHE_TTL_pos; lia).
  cbn [imageCache].
  destruct (imageCache (run es initial) !! h) as [r|] eqn:Hh.
  - destruct (Hs h r Hh) as (d & Hd & Hle).
    apply (CacheProps.fire_due t h d); [exact Hd | lia].
  - apply CacheProps.fire_absent. exact Hh.
Qed.

(** Witness of [cache_drains]: after the sample trace. *)
Lemma cache_drains_witness :
  clock (run Samples.overlapping_calls initial) + CACHE_TTL <= 600007 /\
  imageCache (advance 600007 (run Samples.overlapping_calls initial)) = ∅.
Proof.
  assert (clock (run Samples.overlapping_calls initial) + CACHE_TTL <= 600007) as H
      by (vm_compute; discriminate).
  split; [exact H|].
  exact (proj2 (cache_drains Samples.overlapping_calls 600007 H)).
Defined.

(** X12. The cache only holds verdicts of the detector: whatever the
    module has gone through since start-up, an entry of the cache is the
    verdict computed from an answer that the detector gave, with a body
    that could be parsed, to a call for an image with the fingerprint of
    the entry, and that image was sent to the detector.  A failure is
    never cached: as long as no call has been answered in that way,
    whatever calls have failed, the cache is empty.  A cached verdict is
    waste iff its confidence is at least 0.25. *)
Theorem cache_holds_verdicts (es : list event) :
  (forall h r,
      imageCache (run es initial) !! h = Some r ->
      (exists id img data,
          In (Begin id img) es /\ In (Settle id (FetchJson data)) es /\
          fingerprint img = h /\ r = classify_response data) /\
      (exists img, fingerprint img = h /\ In img (fetches (run es initial))) /\
      isWaste r = ge (confidence r) lit_0_25) /\
  (Forall CacheInvariants.no_answer es -> imageCache (run es initial) = ∅).
Proof.
  pose proof (CacheInvariantProps.traced_run es [] initial
                CacheInvariantProps.traced_initial) as [Hc _].
  cbn [app] in Hc.
  destruct (CacheInvariantProps.invariants_run es initial
              CacheInvariantProps.invariants_initial) as [_ [Hsent _]].
  split.
  - intros h r Hlook. split; [exact (Hc h r Hlook)|]. split.
    + destruct (Hsent h r Hlook) as (img & data & Hfp & _ & Hin). eauto.
    + destruct (Hc h r Hlook) as (id & img & data & _ & _ & _ & ->). reflexivity.
  - intros Hnone. apply map_eq. intros h. rewrite lookup_empty.
    destruct (imageCache (run es initial) !! h) as [r|] eqn:Hlook; [|reflexivity].
    destruct (Hc h r Hlook) as (id & img & data & _ & Hsettle & _).
    exfalso. revert Hsettle. revert Hnone. rewrite List.Forall_forall.
    intros Hnone Hsettle. exact (Hnone _ Hsettle).
Qed.

(** Witness of [cache_holds_verdicts]: on a fresh module, a call that is
    aborted and a call answered with status 500 leave nothing in the
    cache. *)
Lemma cache_holds_verdicts_witness :
  let failures := [Begin 1 "AAAA";
                   Settle 1 (FetchThrew "AbortError" "The operation was aborted.");
                   Begin 2 "AAAA"; Settle 2 (FetchNotOk 500 "boom")] in
  Forall CacheInvariants.no_answer failures /\
  imageCache (run failures initial) = ∅.
Proof.
  intros failures.
  assert (Forall CacheInvariants.no_answer failures) as H
      by (repeat constructor).
  split; [exact H|].
  exact (proj2 (cache_holds_verdicts failures) H).
Defined.

(** ** [POST /test-classify] *)

(** A verdict stored by a call that was not cut at its [await], while
    the fingerprint is quiet, is live for [CACHE_TTL] ms. *)
Lemma store_live_direct (s : Classification.state) (img : string) (v : result) :
  (forall d, ~ In (d, fingerprint img) (timers s)) ->
  (forall id img', pending s !! id = Some img' -> fingerprint img' <> fingerprint img) ->
  live (fingerprint img) v (clock s + CACHE_TTL) (store img v (send img s)).
Proof.
  intros Htimers Hpending. unfold live, store, send; cbn.
  split; [apply lookup_insert_eq|].
  split; [apply in_or_app; right; left; reflexivity|].
  split.
  { intros d Hd. apply in_app_or in Hd as [Hd | [Hd | []]].
    - destruct (Htimers d Hd).
    - inversion Hd. lia. }
  split; [exact Hpending | pose proof CacheProps.CACHE_TTL_pos; lia].
Qed.

(** What the verification stage decides on a verdict. *)
Lemma verify_on_hit (img : string) (b : body) (env : post_env)
      (svc : Classification.state) (v : result) :
  truthy (forceSubmit b) = false ->
  Classification.lookup img svc = Some v ->
  verify img b env svc
  = (if negb (isWaste v) then inl (NotWaste v)
     else if lt (confidence v) ADMISSION_CONFIDENCE then inl (LowConfidence v)
          else inr (Some v),
     svc).
Proof.
  intros Hforce Hhit. unfold verify, classifyImage. rewrite Hforce, Hhit.
  destruct (negb (isWaste v)); [reflexivity|].
  destruct (lt (confidence v) ADMISSION_CONFIDENCE); reflexivity.
Qed.

(** X13. [POST /test-classify] and [POST /] share the cache.  A test
    classification of an image text that is not cached, answered by the
    detector, returns the verdict with status 200 after exactly one
    request.  When no expiry timer for the fingerprint was pending and no
    call for it was in flight, every [POST /] for the same text, not
    bypassed, that comes less than 300000 ms later, whatever other calls
    and answers come in between, decides on the cached verdict: it sends
    nothing to the detector and its outcome does not depend on what the
    detector would answer now.  Once 300000 ms have passed, the next
    [POST /] for the text sends it to the detector again. *)
Theorem test_classify_primes_cache
        (img : string) (data : response_data) (svc : Classification.state) :
  img <> "" ->
  Classification.lookup img svc = None ->
  (forall d, ~ In (d, fingerprint img) (timers svc)) ->
  (forall id img', pending svc !! id = Some img' -> fingerprint img' <> fingerprint img) ->
  let tested := TestClassify.test_classify (Str img) (FetchJson data) svc in
  let v := classify_response data in
  let expiry := clock svc + CACHE_TTL in
  fst tested = TestClassify.Classified v /\
  TestClassify.status (fst tested) = 200 /\
  fetches (snd tested) = (fetches svc ++ [img])%list /\
  (forall (es : list event) (b : body) (env : post_env),
      Forall (before expiry) es ->
      truthy (forceSubmit b) = false ->
      let later := run es (snd tested) in
      verify img b env later
      = (if negb (isWaste v) then inl (NotWaste v)
         else if lt (confidence v) lit_0_7 then inl (LowConfidence v)
              else inr (Some v),
         later)) /\
  (forall (es : list event) (t : Z) (b : body) (env : post_env),
      Forall (before expiry) es ->
      expiry <= t ->
      truthy (forceSubmit b) = false ->
      let later := advance t (run es (snd tested)) in
      fetches (snd (verify img b env later)) = (fetches later ++ [img])%list).
Proof.
  intros Hne Hmiss Htimers Hpending tested v expiry.
  assert (tested = (TestClassify.Classified v, store img v (send img svc))) as ->.
  { subst tested. unfold TestClassify.test_classify. cbn [truthy].
    destruct img; [congruence|]. cbn [String.eqb negb].
    unfold classifyImage. rewrite Hmiss. reflexivity. }
  pose proof (store_live_direct svc img v Htimers Hpending) as Hlive. fold expiry in Hlive.
  cbn [fst snd]. split; [reflexivity|]. split; [reflexivity|]. split; [reflexivity|].
  split.
  - intros es b env Hes Hforce.
    apply verify_on_hit; [exact Hforce|].
    apply (CacheProps.live_run _ _ _ es) in Hlive; [|exact Hes].
    apply Hlive.
  - intros es t b env Hes Ht Hforce.
    set (later := advance t (run es (store img v (send img svc)))).
    assert (Classification.lookup img later = None) as Hgone.
    { apply (CacheProps.live_expires _ v expiry); [|exact Ht].
      apply CacheProps.live_run; assumption. }
    unfold verify, classifyImage. rewrite Hforce, Hgone. unfold finish.
    destruct (settle (fetch env)) as [e|r]; [reflexivity|].
    destruct (negb (isWaste r)); [reflexivity|].
    destruct (lt (confidence r) ADMISSION_CONFIDENCE); reflexivity.
Qed.

(** Witness of [test_classify_primes_cache]: the image ["AAAA"] on a
    fresh module; a [POST /] that comes 299999 ms after the test, when the
    detector is down, is admitted on the cached verdict. *)
Lemma test_classify_primes_cache_witness :
  let down := PostEnv (FetchThrew "FetchError" "connect ECONNREFUSED 10.0.0.1:443")
                      None 1 None false in
  let tested := TestClassify.test_classify (Str "AAAA") (FetchJson Samples.data_0_9) initial in
  Classification.lookup "AAAA" initial = None /\
  fst tested = TestClassify.Classified (classify_response Samples.data_0_9) /\
  fst (verify "AAAA" Samples.request down (run [Advance 299999] (snd tested)))
  = inr (Some (classify_response Samples.data_0_9)).
Proof.
  intros down tested.
  assert (Classification.lookup "AAAA" initial = None) as Hmiss.
  { unfold Classification.lookup. cbn [imageCache initial]. apply lookup_empty. }
  destruct (test_classify_primes_cache "AAAA" Samples.data_0_9 initial
              ltac:(discriminate) Hmiss) as (Hfirst & _ & _ & Hhit & _).
  { intros d Hd. exact Hd. }
  { intros id img' Hlook. cbn [pending initial] in Hlook.
    rewrite lookup_empty in Hlook. discriminate Hlook. }
  split; [exact Hmiss|]. split; [exact Hfirst|]. subst tested.
  rewrite (Hhit [Advance 299999] Samples.request down).
  - reflexivity.
  - constructor; [|constructor]. cbn [before]. vm_compute. reflexivity.
  - reflexivity.
Defined.

(** X14. The refusals of [POST /test-classify]: without an image (absent,
    [null], empty, [0], [false]) the answer is 400 and nothing happens;
    when the classification fails the answer is 500 with the message of
    the service, and the cache is as before. *)
Theorem test_classify_refusals
        (image : value) (out : fetch_outcome) (svc : Classification.state) :
  (truthy image = false ->
   TestClassify.test_classify image out svc = (TestClassify.MissingImage, svc)) /\
  (forall img e,
      image = Str img -> img <> "" ->
      fst (classifyImage img out svc) = inl e ->
      fst (TestClassify.test_classify image out svc) = TestClassify.ClassificationFailed e /\
      TestClassify.status (fst (TestClassify.test_classify image out svc)) = 500 /\
      imageCache (snd (TestClassify.test_classify image out svc)) = imageCache svc).
Proof.
  split.
  - intros Hfalsy. unfold TestClassify.test_classify. rewrite Hfalsy. reflexivity.
  - intros img e -> Hne Hfail.
    destruct (failed_call_unchanged _ _ _ _ Hfail) as (_ & Hcache).
    unfold TestClassify.test_classify. cbn [truthy].
    destruct img; [congruence|]. cbn [String.eqb negb].
    destruct (classifyImage _ out svc) as [[e'|r] svc']; cbn [fst snd] in *; [|discriminate].
    injection Hfail as ->. auto.
Qed.

(** ** [DELETE /:id]: what a failure leaves behind *)

(** What [DELETE /:id] leaves behind for an [id] that is an object id. *)
Lemma delete_report_failures (user_id id : Z) (env : delete_env) (w : world) :
  let r := fst (delete_report user_id id env w) in
  let w' := snd (delete_report user_id id env w) in
  (r = NotFound <-> reports w !! id = None) /\
  (r <> Deleted -> reports w' = reports w) /\
  (r = NotFound \/ r = Unauthorized -> w' = w) /\
  service w' = service w /\
  (forall report n,
      reports w !! id = Some report ->
      report !! "user" = Some (ObjectId user_id) ->
      pointsToDeduct report = Number n ->
      deduct_fails env = false ->
      deleteOne_fails env = true ->
      r = DeleteFailed /\ delete_status r = 500 /\
      reports w' !! id = Some report /\
      users w' = inc_user user_id (-1) (- n) (users w)).
Proof.
  cbv zeta. unfold delete_report.
  destruct (reports w !! id) as [report|] eqn:Hreport.
  - destruct (report !! "user") as [[| | | | | |owner| |]|] eqn:Huser;
      try (cbn [fst snd]; repeat split; intros; try discriminate; try congruence;
           match goal with H : _ \/ _ |- _ => destruct H; discriminate end).
    destruct (owner =? user_id) eqn:Howner; cbn [negb];
      [|cbn [fst snd]; repeat split; intros; try discriminate; try congruence;
        apply Z.eqb_neq in Howner; congruence].
    apply Z.eqb_eq in Howner. subst owner.
    destruct (pointsToDeduct report) as [n|] eqn:Hpoints;
      [|cbn [fst snd]; repeat split; intros; try discriminate; try congruence;
        match goal with H : _ \/ _ |- _ => destruct H; discriminate end].
    destruct (deduct_fails env) eqn:Hdeduct;
      [cbn [fst snd]; repeat split; intros; try discriminate; try congruence;
       match goal with H : _ \/ _ |- _ => destruct H; discriminate end|].
    destruct (deleteOne_fails env) eqn:Hdelete; cbn [fst snd reports users service].
    + repeat split; intros; try discriminate; try congruence;
        try match goal with H : _ \/ _ |- _ => destruct H; discriminate end.
    + repeat split; intros; try discriminate; try congruence;
        try match goal with H : _ \/ _ |- _ => destruct H; discriminate end.
  - cbn [fst snd]. repeat split; intros; try discriminate; try congruence.
Qed.

(** X15. What a failing [DELETE /:id] leaves behind.  The answer is 404
    exactly when the text of [:id] is an object id and there is no report
    with it; a text that is no object id is answered 500, and nothing
    changes.  An answer other than 200 leaves every report in place, and
    404 and 401 leave everything as it was.  The counters are updated
    before the document is removed: when the removal then fails, the
    answer is 500, the report is still there, and its points and the
    report count have already been taken from the user. *)
Theorem delete_failures (castObjectId : string -> option Z)
        (user_id : Z) (id : string) (env : delete_env) (w : world) :
  let r := fst (delete_route castObjectId user_id id env w) in
  let w' := snd (delete_route castObjectId user_id id env w) in
  (r = NotFound <-> exists n, castObjectId id = Some n /\ reports w !! n = None) /\
  (castObjectId id = None -> r = DeleteFailed /\ delete_status r = 500 /\ w' = w) /\
  (r <> Deleted -> reports w' = reports w) /\
  (r = NotFound \/ r = Unauthorized -> w' = w) /\
  service w' = service w /\
  (forall n report pts,
      castObjectId id = Some n ->
      reports w !! n = Some report ->
      report !! "user" = Some (ObjectId user_id) ->
      pointsToDeduct report = Number pts ->
      deduct_fails env = false ->
      deleteOne_fails env = true ->
      r = DeleteFailed /\ delete_status r = 500 /\
      reports w' !! n = Some report /\
      users w' = inc_user user_id (-1) (- pts) (users w)).
Proof.
  cbv zeta. unfold delete_route.
  destruct (castObjectId id) as [n|] eqn:Hid.
  - destruct (delete_report_failures user_id n env w) as (H404 & Hkept & Hsame & Hsvc & Hpart).
    split.
    { rewrite H404. split.
      - intros Hnone. exists n. auto.
      - intros (n' & [= <-] & Hnone). exact Hnone. }
    split; [discriminate|].
    split; [exact Hkept|]. split; [exact Hsame|]. split; [exact Hsvc|].
    intros n' report pts [= <-]. apply Hpart.
  - cbn [fst snd]. split.
    { split; [discriminate | intros (n & Hn & _); discriminate Hn]. }
    split; [auto|]. split; [reflexivity|]. split; [reflexivity|]. split; [reflexivity|].
    intros n report pts Hn. discriminate Hn.
Qed.

(** Witness of [delete_failures]: the removal of report 1 fails; and a
    text that is no object id is answered 500. *)
Lemma delete_failures_witness :
  let env := DeleteEnv false false true in
  let id := "000000000000000000000001" in
  Samples.castObjectId id = Some 1 /\
  fst (delete_route Samples.castObjectId 7 id env Samples.world_resolved) = DeleteFailed /\
  users (snd (delete_route Samples.castObjectId 7 id env Samples.world_resolved)) !! 7
  = Some (User 0 0) /\
  reports (snd (delete_route Samples.castObjectId 7 id env Samples.world_resolved)) !! 1
  = Some Samples.resolved_report /\
  Samples.castObjectId "abc" = None /\
  delete_route Samples.castObjectId 7 "abc" Samples.delete_ok Samples.world_resolved
  = (DeleteFailed, Samples.world_resolved).
Proof.
  intros env id.
  assert (Samples.castObjectId id = Some 1) as Hid by (vm_compute; reflexivity).
  assert (Samples.castObjectId "abc" = None) as Hbad by reflexivity.
  destruct (delete_failures Samples.castObjectId 7 id env Samples.world_resolved)
    as (_ & _ & _ & _ & _ & Hpartial).
  destruct (Hpartial 1 Samples.resolved_report 20 Hid) as (Hr & _ & Hkept & Husers);
    try (vm_compute; reflexivity).
  split; [exact Hid|]. split; [exact Hr|]. split; [rewrite Husers; vm_compute; reflexivity|].
  split; [exact Hkept|]. split; [exact Hbad|].
  destruct (delete_failures Samples.castObjectId 7 "abc" Samples.delete_ok
              Samples.world_resolved) as (_ & Hcast & _).
  destruct (Hcast Hbad) as (Hr' & _ & Hw').
  rewrite (surjective_pairing (delete_route _ _ _ _ _)), Hr', Hw'. reflexivity.
Defined.

(** ** The supervisor's listings *)

Module PageProps.

Import Supervisor.

Lemma firstn_plus {A : Type} (a b : nat) :
  forall l : list A, firstn (a + b) l = (firstn a l ++ firstn b (skipn a l))%list.
Proof.
  induction a as [|a IH]; intros l; [reflexivity|].
  destruct l as [|x l]; cbn [Nat.add firstn skipn].
  - rewrite firstn_nil. reflexivity.
  - rewrite IH. reflexivity.
Qed.

(** The first [k] slices of [n] elements, one after the other, are the
    first [k * n] elements. *)
Lemma slices_concat {A : Type} (n k : nat) (l : list A) :
  concat (List.map (fun i => firstn n (skipn (i * n) l)) (seq 0 k)) = firstn (k * n) l.
Proof.
  induction k as [|k IH]; [reflexivity|].
  rewrite seq_S, List.map_app, concat_app, IH. cbn [List.map concat Nat.add].
  rewrite app_nil_r. replace (S k * n)%nat with (k * n + n)%nat by lia.
  symmetry. apply firstn_plus.
Qed.

(** [ceil_div] is the least number of slices that covers the total. *)
Lemma ceil_div_spec (total limit : Z) :
  0 < limit ->
  total <= ceil_div total limit * limit /\ (ceil_div total limit - 1) * limit < total.
Proof.
  intros Hlimit. unfold ceil_div.
  pose proof (Z.mul_div_le (- total) limit Hlimit) as Hlow.
  pose proof (Z.mul_succ_div_gt (- total) limit Hlimit) as Hhigh.
  revert Hlow Hhigh. generalize ((- total) / limit). intros q Hlow Hhigh. nia.
Qed.

(** Page [i + 1] is the slice number [i]. *)
Lemma page_of_slice (matches : list document) (limit : Z) (i : nat) :
  0 < limit ->
  page_of matches limit (Z.of_nat (S i))
  = firstn (Z.to_nat limit) (skipn (i * Z.to_nat limit) matches).
Proof.
  intros Hlimit. unfold page_of, list_reports, or_default, skip_limit.
  cbn [isSupervisor String.eqb Ascii.eqb negb].
  assert ((Z.of_nat (S i) =? 0) = false) as -> by (apply Z.eqb_neq; lia).
  assert ((limit =? 0) = false) as -> by (apply Z.eqb_neq; lia).
  assert (((Z.of_nat (S i) - 1) * limit <? 0) = false) as -> by (apply Z.ltb_ge; nia).
  cbn [listed]. rewrite Z.abs_eq by lia. f_equal. f_equal.
  replace (Z.of_nat (S i) - 1) with (Z.of_nat i) by lia.
  rewrite Z2Nat.inj_mul, Nat2Z.id by lia. reflexivity.
Qed.

End PageProps.

(** X16. The pages of a supervisor's listing partition the matching
    reports: for a limit of at least one, the pages 1 to [totalPages], in
    order, are the whole list, each report once; a page holds at most
    [limit] reports; pages beyond [totalPages] are empty; and the listing
    reports the number of matches and [totalPages], the least number of
    pages that holds them. *)
Theorem pages_partition (matches : list document) (limit : Z) :
  1 <= limit ->
  let pages := Supervisor.ceil_div (Z.of_nat (length matches)) limit in
  concat (List.map (fun i => Supervisor.page_of matches limit (Z.of_nat (S i)))
                   (seq 0 (Z.to_nat pages))) = matches /\
  (forall i : nat,
      (length (Supervisor.page_of matches limit (Z.of_nat (S i))) <= Z.to_nat limit)%nat) /\
  (forall i : nat, pages <= Z.of_nat i ->
                   Supervisor.page_of matches limit (Z.of_nat (S i)) = []) /\
  (forall page : Z,
      1 <= page ->
      exists reports,
        Supervisor.list_reports "supervisor" matches (Some page) (Some limit)
        = Supervisor.Page (Supervisor.Listing reports page (Z.of_nat (length matches)) pages)) /\
  (pages - 1) * limit < Z.of_nat (length matches) <= pages * limit.
Proof.
  intros Hlimit pages.
  assert (0 < limit) as Hpos by lia.
  destruct (PageProps.ceil_div_spec (Z.of_nat (length matches)) limit Hpos) as [Hcover Hleast].
  fold pages in Hcover, Hleast.
  assert (0 <= pages) as Hpages by nia.
  split; [|split; [|split; [|split]]].
  - rewrite (map_ext _ (fun i => firstn (Z.to_nat limit) (skipn (i * Z.to_nat limit) matches)))
      by (intros i; apply PageProps.page_of_slice; exact Hpos).
    rewrite PageProps.slices_concat. apply firstn_all2.
    rewrite <- Z2Nat.inj_mul by lia. lia.
  - intros i. rewrite PageProps.page_of_slice by exact Hpos. apply firstn_le_length.
  - intros i Hi. rewrite PageProps.page_of_slice by exact Hpos.
    rewrite skipn_all2; [apply firstn_nil|].
    assert (Z.of_nat (length matches) <= Z.of_nat (i * Z.to_nat limit)); [|lia].
    rewrite Nat2Z.inj_mul, Z2Nat.id by lia. nia.
  - intros page Hpage. unfold Supervisor.list_reports, Supervisor.or_default,
      Supervisor.skip_limit.
    cbn [Supervisor.isSupervisor String.eqb Ascii.eqb negb].
    assert ((page =? 0) = false) as -> by (apply Z.eqb_neq; lia).
    assert ((limit =? 0) = false) as -> by (apply Z.eqb_neq; lia).
    assert (((page - 1) * limit <? 0) = false) as -> by (apply Z.ltb_ge; nia).
    eexists. reflexivity.
  - lia.
Qed.

(** Witness of [pages_partition]: three matching reports, two per page. *)
Lemma pages_partition_witness :
  let d (n : Z) : document := {[ "_id" := ObjectId n ]} in
  1 <= 2 /\
  Supervisor.ceil_div 3 2 = 2 /\
  (Supervisor.page_of [d 1; d 2; d 3] 2 1 ++ Supervisor.page_of [d 1; d 2; d 3] 2 2)%list
  = [d 1; d 2; d 3].
Proof.
  intros d.
  assert (1 <= 2) as H by lia.
  split; [exact H|]. split; [reflexivity|].
  pose proof (proj1 (pages_partition [d 1; d 2; d 3] 2 H)) as Hall.
  cbn [length] in Hall. change (Z.to_nat (Supervisor.ceil_div (Z.of_nat 3) 2)) with 2%nat in Hall.
  cbn [seq List.map concat] in Hall. rewrite app_nil_r in Hall. exact Hall.
Defined.

(** X17. Who may list, and the defaults: a user whose role is not
    [supervisor] is answered 403 whatever the query; without query
    parameters, or with parameters that parse to [NaN] or to 0, a
    supervisor gets page 1 with a limit of 10; a negative page is answered
    500. *)
Theorem listing_defaults (role : string) (matches : list document) (page limit : option Z) :
  (role <> "supervisor" ->
   Supervisor.list_reports role matches page limit = Supervisor.AccessDenied) /\
  ((page = None \/ page = Some 0) -> (limit = None \/ limit = Some 0) ->
   Supervisor.list_reports "supervisor" matches page limit
   = Supervisor.Page (Supervisor.Listing (firstn 10 matches) 1
                        (Z.of_nat (length matches))
                        (Supervisor.ceil_div (Z.of_nat (length matches)) 10))) /\
  (forall p l, page = Some p -> limit = Some l -> p < 0 -> 0 < l ->
               Supervisor.list_reports "supervisor" matches page limit
               = Supervisor.ServerError).
Proof.
  split; [|split].
  - intros Hrole. unfold Supervisor.list_reports, Supervisor.isSupervisor.
    apply String.eqb_neq in Hrole. rewrite Hrole. reflexivity.
  - intros [-> | ->] [-> | ->]; reflexivity.
  - intros p l -> -> Hp Hl. unfold Supervisor.list_reports, Supervisor.or_default,
      Supervisor.skip_limit.
    cbn [Supervisor.isSupervisor String.eqb Ascii.eqb negb].
    assert ((p =? 0) = false) as -> by (apply Z.eqb_neq; lia).
    assert ((l =? 0) = false) as -> by (apply Z.eqb_neq; lia).
    assert (((p - 1) * l <? 0) = true) as -> by (apply Z.ltb_lt; nia).
    reflexivity.
Qed.

(** ** The messages of the classification service *)

Lemma includes_append (prefix s t : string) :
  includes s t = true -> includes (prefix +:+ s) t = true.
Proof.
  intros H. induction prefix as [|c prefix IH]; [exact H|].
  change (String c prefix +:+ s) with (String c (prefix +:+ s)). cbn [includes].
  destruct t as [|a t]; [reflexivity|].
  cbn [strip]. destruct (Ascii.eqb a c); [|exact IH].
  destruct (strip t (prefix +:+ s)); [reflexivity | exact IH].
Qed.

(** X18. How a failure of the detector is named.  An abort is
    SERVICE_TIMEOUT whatever its message.  A response that is not ok is
    SERVICE_DOWN as soon as its body mentions ECONNREFUSED or ENOTFOUND,
    because the test is made on the whole message, which embeds the body;
    and any other exception whose message mentions neither is
    SERVICE_ERROR followed by the message. *)
Theorem failure_naming (name message : string) (st : Z) (text : string) :
  settle (FetchThrew "AbortError" message) = inl "SERVICE_TIMEOUT" /\
  (includes text "ECONNREFUSED" = true \/ includes text "ENOTFOUND" = true ->
   settle (FetchNotOk st text) = inl "SERVICE_DOWN") /\
  (name <> "AbortError" ->
   includes message "ECONNREFUSED" = false -> includes message "ENOTFOUND" = false ->
   settle (FetchThrew name message) = inl ("SERVICE_ERROR: " +:+ message)).
Proof.
  split; [reflexivity|]. split.
  - intros H. cbn [settle]. unfold rethrow, api_error_message.
    replace (String.eqb "Error" "AbortError") with false by reflexivity.
    assert (forall t, includes text t = true ->
                      includes ("API_ERROR: " +:+ pretty st +:+ " - " +:+ text) t = true)
      as Happ.
    { intros t Ht. do 3 apply includes_append. exact Ht. }
    destruct H as [H | H]; rewrite (Happ _ H); [reflexivity|].
    rewrite orb_true_r. reflexivity.
  - intros Hname H1 H2. cbn [settle]. unfold rethrow.
    apply String.eqb_neq in Hname. rewrite Hname, H1, H2. reflexivity.
Qed.

(** ** What [POST /] stores, and when *)

(** A value that the library can cast to a text and that has no text as
    a property name is an object with a property [toString] of its own. *)
Lemma cast_without_text ts (v : value) (c : string) :
  castString ts v = Some c -> ToString ts v = None ->
  exists fs, v = Obj fs /\ has_own fs "toString" = true.
Proof.
  destruct v as [| |bo|x|s|t|n|xs|fs]; cbn [castString ToString]; try discriminate.
  intros _ H. exists fs. split; [reflexivity|].
  destruct (has_own fs "toString"); [reflexivity | discriminate H].
Qed.

(** X19. [POST /] changes the users only together with a 201 answer, and
    the reports only together with a 201 answer or with the one error
    that is raised after [save]: for a [reportType] that is an object with
    a property [toString] of its own, the look-up of the points at line
    165 raises once the report is stored, and the answer is 500
    INTERNAL_SERVER_ERROR although the report has been created.  Any
    other answer leaves both collections as they were (only the
    classification cache may have gained an entry), and a 201 answer adds
    exactly the returned report, under an [_id] that was not in use, and
    changes no other report and no user but the requester. *)
Theorem post_report_all_or_nothing pf dt ts (user_id : Z) (b : body) (env : post_env)
        (w : world) :
  let answer := post_report pf dt ts user_id b env w in
  (status (fst answer) <> 201 ->
   users (snd answer) = users w /\
   (reports (snd answer) = reports w \/
    exists fs doc,
      reportType b = Obj fs /\ has_own fs "toString" = true /\
      fst answer = InternalServerError cannot_convert /\
      reports w !! fresh_id env = None /\
      reports (snd answer) = <[fresh_id env := doc]> (reports w))) /\
  (forall doc p cls,
      fst answer = Created doc p cls ->
      reports w !! fresh_id env = None /\
      reports (snd answer) = <[fresh_id env := doc]> (reports w) /\
      (forall other, other <> user_id -> users (snd answer) !! other = users w !! other)).
Proof.
  cbv zeta. split.
  - unfold post_report.
    destruct (validate_request pf b) as [r|img]; [auto|].
    destruct (verify img b env (service w)) as [[r|cls] svc]; [auto|].
    destruct (upload_image env) as [r|up]; [auto|].
    destruct (report_object pf dt user_id (clock svc) b up cls) as [e|obj] eqn:Hobj; [auto|].
    generalize (PostProps.save_ok env (new_Report ts (clock svc) (fresh_id env) obj)
                                  (reports w)).
    destruct (save env _ (reports w)) as [r|[doc rs]]; [auto|].
    intros Hok. destruct (Hok rs doc eq_refl) as (Hval & _ & Hfresh & ->).
    destruct (pointsToAdd ts b) as [p|] eqn:Hpoints; cbn [fst snd status reports users];
      [congruence|].
    intros _. split; [reflexivity|]. right.
    destruct (PointsProps.stored_category _ _ _ _ _ _ _ _ _ _ _ Hobj Hval)
      as (_ & category & Hcast & _).
    unfold pointsToAdd in Hpoints.
    destruct (ToString ts (finalReportType b)) eqn:Htext; [discriminate Hpoints|].
    destruct (cast_without_text ts _ _ Hcast Htext) as (fs & Hfinal & Hown).
    exists fs, doc. unfold finalReportType in Hfinal.
    destruct (truthy (reportType b)); [|discriminate Hfinal]. auto.
  - intros doc p cls Hanswer.
    destruct (post_report pf dt ts user_id b env w) as [r w'] eqn:Hpost.
    cbn [fst snd] in *. subst r.
    apply PostProps.post_report_created in Hpost
      as (img & svc & up & obj & _ & _ & _ & _ & _ & _ & Hfresh & _ & ->).
    split; [exact Hfresh|]. split; [reflexivity|].
    intros other Hother. cbn [users]. unfold award.
    destruct p; [|reflexivity].
    destruct (user_update_fails env); [reflexivity|].
    unfold inc_user. destruct (users w !! user_id); [|reflexivity].
    apply lookup_insert_ne. auto.
Qed.

(** The error after [save], on the sample request with
    [reportType: { "_id": "hazardous", "toString": 1 }]: the answer is 500,
    a hazardous report is stored under the new [_id], and user 7 has
    earned nothing. *)
Example report_stored_with_error :
  let answer := post_report Samples.parseFloat Samples.Date_of Samples.toString 7
                            (Samples.request_of_type Samples.hazardous_without_text)
                            Samples.env_ok Samples.world0 in
  fst answer = InternalServerError "Cannot convert object to primitive value" /\
  status (fst answer) = 500 /\
  match reports (snd answer) !! 1 with
  | Some doc => doc !! "reportType"
  | None => None
  end = Some (Str "hazardous") /\
  users (snd answer) !! 7 = Some (User 0 0).
Proof. vm_compute. repeat split; reflexivity. Qed.
